(** * house-hunting.py: extraction, normalisation and merge layer

    A shallow embedding of the data-retrieval functions of
    [house-hunting.py], of the push to Grist and of its main block (the
    loop over the towns, the StreetEasy merge and calculation step, the
    final push), followed by the properties stated for them.

    Conventions of the embedding.
    - Python exceptions are explicit: a computation that may raise has type
      [result A], and every [try]/[except] of the source is a [match] on it.
    - Python [str] is [string]; a character is a code point below 256, so
      the only decimal digits are [0-9] and the white space characters are
      those of [str.isspace] in that range.
    - Python [float] is IEEE binary64, given by [spec_float] with precision
      53 and maximal exponent 1024; [float(str)], [round(x, n)], [int(x)]
      and true division are written out with their rounding.
    - Python [dict] keyed by strings is [gmap string _]; where the order of
      the keys is observed (the normalised record) it is an association
      list in insertion order.
    - What the source obtains from outside (the HTTP response, the elements
      a CSS selector finds, the rows the CSV reader yields, the behaviour of
      the C library's [strftime]) is a parameter of the embedded function. *)

From Stdlib Require Import ZArith String Ascii List Bool Lia.
From Stdlib Require Import Floats.SpecFloat.
From stdpp Require Import base option list strings gmap fin_maps.

Local Open Scope string_scope.
Local Open Scope list_scope.
Local Open Scope Z_scope.

(* ===================================================================== *)
(** * Python values, exceptions, results                                  *)
(* ===================================================================== *)

Inductive exn : Type :=
  | AttributeError | ValueError | ZeroDivisionError | OverflowError
  | IndexError | KeyError | TypeError | StopIteration
  | RequestException | CsvError.

Inductive result (A : Type) : Type :=
  | Ok (a : A)
  | Raise (e : exn).
Arguments Ok {A} a.
Arguments Raise {A} e.

#[global] Instance result_ret : MRet result := fun A a => Ok a.

#[global] Instance result_bind : MBind result := fun A B k m =>
  match m with
  | Ok a => k a
  | Raise e => Raise e
  end.

(** [datetime.strptime(_, '%Y-%m-%d')] and [strptime(_, '%B %Y')] leave the
    time of day at midnight, so a [datetime] is its calendar date. *)
Record datetime : Type := mk_datetime { year : Z; month : Z; day : Z }.

Inductive value : Type :=
  | VNone
  | VInt (n : Z)
  | VFloat (x : spec_float)
  | VStr (s : string)
  | VDateTime (d : datetime).

(* ===================================================================== *)
(** * Strings                                                             *)
(* ===================================================================== *)

Definition code (c : ascii) : N := N_of_ascii c.

Definition in_range (lo hi : N) (c : ascii) : bool :=
  ((lo <=? code c) && (code c <=? hi))%N.

(** [str.isspace], also the class [\s] of [re] and what [str.strip] removes. *)
Definition py_isspace (c : ascii) : bool :=
  in_range 9 13 c || in_range 28 32 c || (code c =? 133)%N || (code c =? 160)%N.

(** The class [\d] of [re]. *)
Definition is_digit (c : ascii) : bool := in_range 48 57 c.

(** The class [[A-Za-z]]. *)
Definition is_letter (c : ascii) : bool := in_range 65 90 c || in_range 97 122 c.

Fixpoint lstrip (s : string) : string :=
  match s with
  | String c r => if py_isspace c then lstrip r else s
  | EmptyString => EmptyString
  end.

Fixpoint rstrip (s : string) : string :=
  match s with
  | EmptyString => EmptyString
  | String c r =>
      match rstrip r with
      | EmptyString => if py_isspace c then EmptyString else String c EmptyString
      | r' => String c r'
      end
  end.

(** [s.strip()] *)
Definition strip (s : string) : string := lstrip (rstrip s).

(** [c in s] for a one-character [c]. *)
Fixpoint contains (c : ascii) (s : string) : bool :=
  match s with
  | EmptyString => false
  | String d r => Ascii.eqb c d || contains c r
  end.

(** [s.replace(c, '')] for a one-character [c]. *)
Fixpoint remove_char (c : ascii) (s : string) : string :=
  match s with
  | EmptyString => EmptyString
  | String d r => if Ascii.eqb c d then remove_char c r else String d (remove_char c r)
  end.

(** [re.sub(r'[^\d]', '', s)] *)
Fixpoint keep_digits (s : string) : string :=
  match s with
  | EmptyString => EmptyString
  | String d r => if is_digit d then String d (keep_digits r) else keep_digits r
  end.

Definition digit_val (c : ascii) : Z := Z.of_N (code c) - 48.

(** The number written by a string of decimal digits, most significant
    first, on top of the accumulator [acc]. *)
Fixpoint digits_value (acc : Z) (s : string) : Z :=
  match s with
  | EmptyString => acc
  | String d r => digits_value (10 * acc + digit_val d) r
  end.

Fixpoint all_digits (s : string) : bool :=
  match s with
  | EmptyString => true
  | String d r => is_digit d && all_digits r
  end.

(** [sys.get_int_max_str_digits()], the default limit of [int(str)]. *)
Definition int_max_str_digits : nat := 4300.

(** [int(s)] for a string [s] holding nothing but decimal digits, which is
    all the source passes to it: the empty string and a string of more than
    [int_max_str_digits] digits raise [ValueError]. *)
Definition int_of_digits (s : string) : result Z :=
  if all_digits s then
    match s with
    | EmptyString => Raise ValueError
    | _ => if Nat.ltb int_max_str_digits (String.length s) then Raise ValueError
           else Ok (digits_value 0 s)
    end
  else Raise ValueError.

(* ===================================================================== *)
(** * Binary64 floats                                                     *)
(* ===================================================================== *)

Module Float.

Definition prec : Z := 53.
Definition emax : Z := 1024.

Definition sub : spec_float -> spec_float -> spec_float := SFsub prec emax.
Definition div : spec_float -> spec_float -> spec_float := SFdiv prec emax.

(** The float nearest to the integer [n] (ties to even); an infinity when
    [n] is out of range. *)
Definition of_Z (n : Z) : spec_float := binary_normalize prec emax n 0 false.

(** The float nearest to [(-1)^neg * n * 10^e], for [0 <= n]: what
    [strtod] returns for a decimal numeral with digits [n] and exponent
    [e]. *)
Definition of_decimal (neg : bool) (n : Z) (e : Z) : spec_float :=
  match n with
  | Zpos p =>
      match e with
      | Zneg k => div (S754_finite neg p 0) (S754_finite false (10 ^ k) 0)
      | _ => binary_normalize prec emax (cond_Zopp neg (n * 10 ^ e)) 0 false
      end
  | _ => S754_zero neg
  end.

Definition one : spec_float := of_Z 1.
Definition hundred : spec_float := of_Z 100.

Definition is_zero (x : spec_float) : bool :=
  match x with S754_zero _ => true | _ => false end.

(** The integer nearest to the rational [n / d], ties to even, [0 < d]. *)
Definition div_nearest_even (n d : Z) : Z :=
  let q := n / d in
  let r := n mod d in
  match 2 * r ?= d with
  | Lt => q
  | Gt => q + 1
  | Eq => if Z.even q then q else q + 1
  end.

(** [m * 2^e * 10^k] rounded to the nearest integer, ties to even. *)
Definition scaled_nearest (m : positive) (e : Z) (k : Z) : Z :=
  match e with
  | Zneg p => div_nearest_even (Zpos m * 10 ^ k) (2 ^ Zpos p)
  | _ => Zpos m * 2 ^ e * 10 ^ k
  end.

(** [round(x, ndigits)] for [0 <= ndigits <= 323]: the value is printed
    with [ndigits] decimals, correctly rounded, and read back. Infinities
    and NaN round to themselves. *)
Definition round_ndigits (x : spec_float) (ndigits : Z) : spec_float :=
  match x with
  | S754_finite s m e => of_decimal s (scaled_nearest m e ndigits) (- ndigits)
  | _ => x
  end.

(** [int(x)]: truncation towards zero. *)
Definition to_int (x : spec_float) : result Z :=
  match x with
  | S754_zero _ => Ok 0
  | S754_finite s m e =>
      Ok (cond_Zopp s (match e with
                       | Zneg p => Zpos m / 2 ^ Zpos p
                       | _ => Zpos m * 2 ^ e
                       end))
  | S754_nan => Raise ValueError
  | S754_infinity _ => Raise OverflowError
  end.

(** [round(x)]: the nearest integer, ties to even. *)
Definition round_int (x : spec_float) : result Z :=
  match x with
  | S754_zero _ => Ok 0
  | S754_finite s m e => Ok (cond_Zopp s (scaled_nearest m e 0))
  | S754_nan => Raise ValueError
  | S754_infinity _ => Raise OverflowError
  end.

(** [n / x] for an [int] [n] and a [float] [x]: [n] is converted first
    ([OverflowError] when it is too large), then [ZeroDivisionError] on a
    zero divisor. *)
Definition int_truediv (n : Z) (x : spec_float) : result spec_float :=
  match of_Z n with
  | S754_infinity _ => Raise OverflowError
  | fn => if is_zero x then Raise ZeroDivisionError else Ok (div fn x)
  end.

End Float.

(* ===================================================================== *)
(** * [float(str)]                                                        *)
(* ===================================================================== *)

(** White space that [float] strips: the C [isspace] characters, and the
    two white space code points above 127, which it turns into blanks. *)
Definition float_isspace (c : ascii) : bool :=
  in_range 9 13 c || (code c =? 32)%N || (code c =? 133)%N || (code c =? 160)%N.

Fixpoint float_lstrip (s : string) : string :=
  match s with
  | String c r => if float_isspace c then float_lstrip r else s
  | EmptyString => EmptyString
  end.

Fixpoint float_rstrip (s : string) : string :=
  match s with
  | EmptyString => EmptyString
  | String c r =>
      match float_rstrip r with
      | EmptyString => if float_isspace c then EmptyString else String c EmptyString
      | r' => String c r'
      end
  end.

(** An underscore is accepted only between two digits; [prev_digit] and
    [prev_us] tell what the previous character was. The result is the
    string without its underscores. *)
Fixpoint drop_underscores (prev_digit prev_us : bool) (s : string) : option string :=
  match s with
  | EmptyString => if prev_us then None else Some EmptyString
  | String c r =>
      if Ascii.eqb c "_" then
        if prev_digit then drop_underscores false true r else None
      else if prev_us && negb (is_digit c) then None
      else option_map (String c) (drop_underscores (is_digit c) false r)
  end.

Definition to_lower (c : ascii) : ascii :=
  if in_range 65 90 c then ascii_of_N (code c + 32) else c.

(** [s] without the prefix [p] (given in lower case), compared without
    regard to case. *)
Fixpoint strip_prefix_ci (p s : string) : option string :=
  match p, s with
  | EmptyString, _ => Some s
  | String a p', String b s' =>
      if Ascii.eqb a (to_lower b) then strip_prefix_ci p' s' else None
  | String _ _, EmptyString => None
  end.

(** The longest prefix of digits, and what follows it. *)
Fixpoint span_digits (s : string) : string * string :=
  match s with
  | String c r =>
      if is_digit c then let '(d, t) := span_digits r in (String c d, t)
      else (EmptyString, s)
  | EmptyString => (EmptyString, EmptyString)
  end.

Definition split_sign (s : string) : bool * string :=
  match s with
  | String c r =>
      if Ascii.eqb c "-" then (true, r)
      else if Ascii.eqb c "+" then (false, r)
      else (false, s)
  | EmptyString => (false, s)
  end.

(** The exponent part [[eE][+-]?digits] at the head of [s]: its value and
    the rest. Without a digit the letter is not part of the number. *)
Definition parse_exponent (s : string) : Z * string :=
  match s with
  | String c r =>
      if Ascii.eqb (to_lower c) "e" then
        let '(neg, r1) := split_sign r in
        let '(ds, r2) := span_digits r1 in
        match ds with
        | EmptyString => (0, s)
        | _ => (cond_Zopp neg (digits_value 0 ds), r2)
        end
      else (0, s)
  | EmptyString => (0, s)
  end.

(** A decimal numeral: digits, an optional point and digits, an optional
    exponent, with at least one digit before the exponent; nothing may
    follow. *)
Definition parse_decimal (neg : bool) (s : string) : result spec_float :=
  let '(ip, r1) := span_digits s in
  let '(fp, r2) :=
    match r1 with
    | String c r => if Ascii.eqb c "." then span_digits r else (EmptyString, r1)
    | EmptyString => (EmptyString, r1)
    end in
  match ip +:+ fp with
  | EmptyString => Raise ValueError
  | ds =>
      let '(ex, r3) := parse_exponent r2 in
      match r3 with
      | EmptyString =>
          Ok (Float.of_decimal neg (digits_value 0 ds) (ex - Z.of_nat (String.length fp)))
      | _ => Raise ValueError
      end
  end.

Definition parse_number (s : string) : result spec_float :=
  let '(neg, r) := split_sign s in
  match strip_prefix_ci "inf" r with
  | Some r1 =>
      match match strip_prefix_ci "inity" r1 with Some r2 => r2 | None => r1 end with
      | EmptyString => Ok (S754_infinity neg)
      | _ => Raise ValueError
      end
  | None =>
      match strip_prefix_ci "nan" r with
      | Some EmptyString => Ok S754_nan
      | Some _ => Raise ValueError
      | None => parse_decimal neg r
      end
  end.

(** [float(s)] for a string [s]; the only exception is [ValueError]. *)
Definition py_float (s : string) : result spec_float :=
  let t := float_lstrip (float_rstrip s) in
  if contains "_" t then
    match drop_underscores false false t with
    | Some u => parse_number u
    | None => Raise ValueError
    end
  else parse_number t.

(** The float a decimal literal of the source denotes. *)
Definition lit (s : string) : spec_float :=
  match py_float s with Ok x => x | Raise _ => S754_nan end.

(* ===================================================================== *)
(** * Calendar, [strptime], [strftime]                                    *)
(* ===================================================================== *)

(** [calendar.isleap] *)
Definition isleap (y : Z) : bool :=
  (y mod 4 =? 0) && (negb (y mod 100 =? 0) || (y mod 400 =? 0)).

(** [calendar.mdays] *)
Definition mdays : list Z := [0; 31; 28; 31; 30; 31; 30; 31; 31; 30; 31; 30; 31].

Definition days_in_month (y m : Z) : Z :=
  nth (Z.to_nat m) mdays 0 + (if (m =? 2) && isleap y then 1 else 0).

(** [calendar.monthrange(y, m)[1]]; a month outside 1..12 raises
    [IllegalMonthError], a [ValueError]. *)
Definition monthrange (y m : Z) : result Z :=
  if (1 <=? m) && (m <=? 12) then Ok (days_in_month y m) else Raise ValueError.

(** [date(y, m, d)] and [datetime(y, m, d)]. *)
Definition date_new (y m d : Z) : result datetime :=
  if (1 <=? y) && (y <=? 9999) && (1 <=? m) && (m <=? 12)
     && (1 <=? d) && (d <=? days_in_month y m)
  then Ok (mk_datetime y m d) else Raise ValueError.

(** [datetime.min] *)
Definition datetime_min : datetime := mk_datetime 1 1 1.

(** [a < b] on [datetime]. *)
Definition datetime_ltb (a b : datetime) : bool :=
  (year a <? year b)
  || ((year a =? year b)
      && ((month a <? month b) || ((month a =? month b) && (day a <? day b)))).

(** The longest prefix of characters of the class [p], and the rest. *)
Fixpoint span (p : ascii -> bool) (s : string) : string * string :=
  match s with
  | String c r =>
      if p c then let '(d, t) := span p r in (String c d, t)
      else (EmptyString, s)
  | EmptyString => (EmptyString, EmptyString)
  end.

(** [\d\d\d\d] at the head of [s]. *)
Definition four_digits (s : string) : option (Z * string) :=
  match s with
  | String a (String b (String c (String d r))) =>
      if is_digit a && is_digit b && is_digit c && is_digit d
      then Some (digits_value 0 (String a (String b (String c (String d EmptyString)))), r)
      else None
  | _ => None
  end.

Definition expect (c : ascii) (s : string) : option string :=
  match s with
  | String d r => if Ascii.eqb c d then Some r else None
  | EmptyString => None
  end.

(** The first alternative, in the order of the pattern, that the rest of
    the pattern accepts. *)
Fixpoint first_some {A B} (k : A -> option B) (alts : list A) : option B :=
  match alts with
  | [] => None
  | a :: rest => match k a with Some b => Some b | None => first_some k rest end
  end.

(** The matches of [1[0-2]|0[1-9]|[1-9]] at the head of [s], in order. *)
Definition month_alts (s : string) : list (Z * string) :=
  match s with
  | String a r =>
      match r with
      | String b r' =>
          (if Ascii.eqb a "1" && in_range 48 50 b then [(10 + digit_val b, r')] else [])
          ++ (if Ascii.eqb a "0" && in_range 49 57 b then [(digit_val b, r')] else [])
      | EmptyString => []
      end
      ++ (if in_range 49 57 a then [(digit_val a, r)] else [])
  | EmptyString => []
  end.

(** The matches of [3[0-1]|[1-2]\d|0[1-9]|[1-9]| [1-9]] at the head of [s],
    in order. *)
Definition day_alts (s : string) : list (Z * string) :=
  match s with
  | String a r =>
      match r with
      | String b r' =>
          (if Ascii.eqb a "3" && in_range 48 49 b then [(30 + digit_val b, r')] else [])
          ++ (if in_range 49 50 a && is_digit b then [(10 * digit_val a + digit_val b, r')] else [])
          ++ (if Ascii.eqb a "0" && in_range 49 57 b then [(digit_val b, r')] else [])
      | EmptyString => []
      end
      ++ (if in_range 49 57 a then [(digit_val a, r)] else [])
      ++ match r with
         | String b r' => if Ascii.eqb a " " && in_range 49 57 b then [(digit_val b, r')] else []
         | EmptyString => []
         end
  | EmptyString => []
  end.

(** The match of the pattern of ['%Y-%m-%d'] at the head of [s]: year,
    month, day and what is left of [s]. *)
Definition match_Ymd (s : string) : option (Z * Z * Z * string) :=
  match four_digits s with
  | Some (y, r0) =>
      match expect "-" r0 with
      | Some r1 =>
          first_some (fun '(m, r2) =>
                        match expect "-" r2 with
                        | Some r3 =>
                            match day_alts r3 with
                            | (d, r4) :: _ => Some (y, m, d, r4)
                            | [] => None
                            end
                        | None => None
                        end)
                     (month_alts r1)
      | None => None
      end
  | None => None
  end.

(** [datetime.strptime(s, '%Y-%m-%d')] *)
Definition strptime_Ymd (s : string) : result datetime :=
  match match_Ymd s with
  | Some (y, m, d, EmptyString) => date_new y m d
  | _ => Raise ValueError
  end.

(** The full month names of the C locale, in lower case, with their
    numbers, in the order of the pattern of [%B] (longest first). *)
Definition month_names : list (string * Z) :=
  [("september", 9); ("february", 2); ("november", 11); ("december", 12);
   ("january", 1); ("october", 10); ("august", 8); ("march", 3);
   ("april", 4); ("june", 6); ("july", 7); ("may", 5)].

(** [\s+] at the head of [s]: what follows the white space. *)
Definition skip_spaces1 (s : string) : option string :=
  match s with
  | String c r => if py_isspace c then Some (lstrip r) else None
  | EmptyString => None
  end.

(** The match of the pattern of ['%B %Y'] at the head of [s]. *)
Definition match_BY (s : string) : option (Z * Z * string) :=
  first_some (fun '(name, m) =>
                match strip_prefix_ci name s with
                | Some r1 =>
                    match skip_spaces1 r1 with
                    | Some r2 =>
                        match four_digits r2 with
                        | Some (y, r3) => Some (y, m, r3)
                        | None => None
                        end
                    | None => None
                    end
                | None => None
                end)
             month_names.

(** [datetime.strptime(s, '%B %Y')] *)
Definition strptime_BY (s : string) : result datetime :=
  match match_BY s with
  | Some (y, m, EmptyString) => date_new y m 1
  | _ => Raise ValueError
  end.

(** What the source leaves to the platform's [strftime]: whether the flag
    [#] suppresses the leading zero of a number (it does in the Windows C
    runtime; glibc ignores it there), and whether [%Y] pads the year to
    four digits (glibc does not before Python 3.13). *)
Record platform : Type := mk_platform { hash_strips_zero : bool; pads_year : bool }.

Definition digit_char (d : Z) : ascii := ascii_of_N (Z.to_N (48 + d)).

(** Two and four decimal digits with leading zeros, for [0 <= n <= 99] and
    [0 <= n <= 9999]. *)
Definition two_digits (n : Z) : string :=
  String (digit_char (n / 10)) (String (digit_char (n mod 10)) EmptyString).

Definition four_digits_of (n : Z) : string :=
  String (digit_char (n / 1000)) (String (digit_char (n / 100 mod 10)) (two_digits (n mod 100))).

Fixpoint drop_zeros (s : string) : string :=
  match s with
  | String c (String _ _ as r) => if Ascii.eqb c "0" then drop_zeros r else s
  | _ => s
  end.

(** The decimal numeral without leading zeros, for [0 <= n <= 9999]. *)
Definition decimal (n : Z) : string := drop_zeros (four_digits_of n).

Definition format_Y (pf : platform) (y : Z) : string :=
  if pads_year pf then four_digits_of y else decimal y.

Definition format_hash (pf : platform) (n : Z) : string :=
  if hash_strips_zero pf then decimal n else two_digits n.

(** [d.strftime('%m/%d/%Y')] *)
Definition strftime_mdY (pf : platform) (d : datetime) : string :=
  two_digits (month d) +:+ "/" +:+ two_digits (day d) +:+ "/" +:+ format_Y pf (year d).

(** [d.strftime('%#m/%#d/%Y')] *)
Definition strftime_hash_mdY (pf : platform) (d : datetime) : string :=
  format_hash pf (month d) +:+ "/" +:+ format_hash pf (day d) +:+ "/" +:+ format_Y pf (year d).

(* ===================================================================== *)
(** * 1. Configuration                                                    *)
(* ===================================================================== *)

Definition GRIST_MASTER_SCHEMA : list string :=
  ["Date"; "Town"; "Region"; "Median_Sale_Price"; "Median_List_Price";
   "Overall_Average_Premium_Paid"; "Median_DOM"; "Avg_Home_Premium";
   "Avg_Home_DOM"; "Hot_Home_Premium"; "Hot_Home_DOM"; "Num_of_Homes_Sold";
   "Compete_Score"].

Definition STREETEASY_CSV_URLS : list (string * string) :=
  [("STREETEASY_MEDIAN_ASKING_PRICE",
    "https://cdn-charts.streeteasy.com/chart/v2/data/sub/ddp-medianAskingPrice.csv");
   ("STREETEASY_SALE_TO_LIST_RATIO",
    "https://cdn-charts.streeteasy.com/chart/v2/data/sub/ddp-saleListRatio.csv");
   ("STREETEASY_MEDIAN_RECORDED_PRICE",
    "https://cdn-charts.streeteasy.com/chart/v2/data/sub/ddp-medianRecordedSalesPrice.csv");
   ("STREETEASY_MEDIAN_DOM",
    "https://cdn-charts.streeteasy.com/chart/v2/data/sub/ddp-medianDaysMarket.csv");
   ("STREETEASY_NUM_OF_HOMES_SOLD",
    "https://cdn-charts.streeteasy.com/chart/v2/data/sub/ddp-recordedSales.csv")].

(** The column positions of a StreetEasy file; Python integers, so a
    negative position counts from the end of the row. *)
Record csv_indexes : Type := mk_csv_indexes { DATE : Z; NEIGHBORHOOD : Z; VALUE : Z }.

Definition CSV_COL_INDEXES : csv_indexes :=
  {| DATE := 2; NEIGHBORHOOD := 0; VALUE := 4 |}.

(** [STREETEASY_METRIC_MAP] of the main block, in its order. *)
Definition STREETEASY_METRIC_MAP : list (string * string) :=
  [("STREETEASY_MEDIAN_RECORDED_PRICE", "Median_Sale_Price");
   ("STREETEASY_MEDIAN_ASKING_PRICE", "Median_List_Price");
   ("STREETEASY_SALE_TO_LIST_RATIO", "Overall_Average_Premium_Paid");
   ("STREETEASY_MEDIAN_DOM", "Median_DOM");
   ("STREETEASY_NUM_OF_HOMES_SOLD", "Num_of_Homes_Sold")].

Definition RATIO_KEY : string := "Overall_Average_Premium_Paid".

(** [d[k]] on a dictionary given as a list of its items. *)
Fixpoint assoc_getitem {A} (d : list (string * A)) (k : string) : result A :=
  match d with
  | [] => Raise KeyError
  | (k', v) :: rest => if String.eqb k k' then Ok v else assoc_getitem rest k
  end.

(** [l[i]] on a list. *)
Definition list_getitem {A} (l : list A) (i : Z) : result A :=
  let j := if i <? 0 then i + Z.of_nat (length l) else i in
  if j <? 0 then Raise IndexError
  else match l !! Z.to_nat j with
       | Some x => Ok x
       | None => Raise IndexError
       end.

(* ===================================================================== *)
(** * 2. Data retrieval functions                                         *)
(* ===================================================================== *)

(** An element found by [soup.select_one]: the text nodes below it, in
    document order. A [Tag] is always true, so [not element] holds of
    [None] only. *)
Record Tag : Type := mk_Tag { strings : list string }.

Fixpoint join (l : list string) : string :=
  match l with
  | [] => EmptyString
  | s :: rest => s +:+ join rest
  end.

(** [t.get_text(strip=True)]: every text node is stripped, the empty ones
    are dropped. *)
Definition get_text_strip (t : Tag) : string :=
  join (List.filter (fun s => negb (String.eqb s EmptyString)) (List.map strip (strings t))).

(** [t.text] *)
Definition text (t : Tag) : string := join (strings t).

(** [element.get_text(strip=True)] on what may be [None]. *)
Definition get_text (element : option Tag) : result string :=
  match element with
  | Some t => Ok (get_text_strip t)
  | None => Raise AttributeError
  end.

Definition get_last_day_of_month (pf : platform) (month_year_str : string)
  : result (option string) :=
  match
    dt ← strptime_BY month_year_str;
    last_day ← monthrange (year dt) (month dt);
    final_date ← date_new (year dt) (month dt) last_day;
    mret (strftime_hash_mdY pf final_date)
  with
  | Ok s => Ok (Some s)
  | Raise ValueError => Ok None
  | Raise e => Raise e
  end.

Definition get_clean_number (element : option Tag) (default : value) : result value :=
  match element with
  | None => Ok default
  | Some t =>
      let text := get_text_strip t in
      if contains "%" text then
        x ← py_float (remove_char "-" (remove_char "+" (remove_char "%" text)));
        let value := Float.div x Float.hundred in
        mret (VFloat (Float.round_ndigits (Float.sub value Float.one) 4))
      else
        let clean_text := keep_digits text in
        match int_of_digits clean_text with
        | Ok n => Ok (VInt n)
        | Raise ValueError => Ok default
        | Raise e => Raise e
        end
  end.

Definition get_clean_premium_percentage (element : option Tag) (default : value)
  : result value :=
  match element with
  | None => Ok default
  | Some t =>
      let text := get_text_strip t in
      match
        let clean_text := remove_char "%" text in
        value ←
          (if contains "+" clean_text then
             x ← py_float (remove_char "+" clean_text); mret (Float.div x Float.hundred)
           else if contains "-" clean_text then
             x ← py_float clean_text; mret (Float.div x Float.hundred)
           else
             x ← py_float clean_text; mret (Float.div x Float.hundred));
        mret (VFloat (Float.round_ndigits value 4))
      with
      | Raise ValueError => Ok default
      | r => r
      end
  end.

(** [d[key] = v] on a dictionary that keeps its keys in insertion order. *)
Fixpoint odict_set (d : list (string * value)) (key : string) (v : value)
  : list (string * value) :=
  match d with
  | [] => [(key, v)]
  | (k, w) :: rest =>
      if String.eqb key k then (k, v) :: rest else (k, w) :: odict_set rest key v
  end.

Fixpoint odict_get (d : list (string * value)) (key : string) : option value :=
  match d with
  | [] => None
  | (k, w) :: rest => if String.eqb key k then Some w else odict_get rest key
  end.

Definition odict_keys (d : list (string * value)) : list string := List.map fst d.

(** The body of the loop of [normalize_record_for_grist]. *)
Definition normalize_step (record : gmap string value)
    (normalized_record : list (string * value)) (key : string) : list (string * value) :=
  odict_set normalized_record key (default VNone (record !! key)).

Definition normalize_record_for_grist (record : gmap string value) (schema : list string)
  : list (string * value) :=
  fold_left (normalize_step record) schema [].

(** ** The StreetEasy CSV parser *)

(** What [requests.get(url)] and [csv.reader] give for a StreetEasy file:
    the request fails (also through [raise_for_status]), or the reader
    yields [rows] and then either ends or raises [csv.Error]. *)
Inductive csv_response : Type :=
  | CsvRequestFailed
  | CsvRows (rows : list (list string)) (reader_fails : bool).

(** [current_date > x], defined between two [datetime] only. *)
Definition datetime_gt (current_date : datetime) (x : value) : result bool :=
  match x with
  | VDateTime d => Ok (datetime_ltb d current_date)
  | _ => Raise TypeError
  end.

(** [town_data[town]] *)
Definition dict_getitem {A} (d : gmap string A) (k : string) : result A :=
  match d !! k with
  | Some v => Ok v
  | None => Raise KeyError
  end.

(** One turn of the loop over the rows; [town_data] is the dictionary of
    the towns' dictionaries before and after the row. *)
Definition process_row (pf : platform) (metric_key : string) (target_towns : gset string)
    (idx : csv_indexes) (town_data : gmap string (gmap string value)) (row : list string)
  : result (gmap string (gmap string value)) :=
  match
    town ← list_getitem row (NEIGHBORHOOD idx);
    date_str ← list_getitem row (DATE idx);
    value ← list_getitem row (VALUE idx);
    mret (town, date_str, value)
  with
  | Raise IndexError => Ok town_data
  | Raise e => Raise e
  | Ok (town, date_str, value) =>
      if decide (town ∈ target_towns) then
        current_date ← strptime_Ymd date_str;
        entry ← dict_getitem town_data town;
        later ←
          (if decide (entry = ∅) then Ok true
           else datetime_gt current_date
                  (default (VDateTime datetime_min) (entry !! "_DateTimeObject")));
        if (later : bool) then
          last_day ← monthrange (year current_date) (month current_date);
          final_date ← date_new (year current_date) (month current_date) last_day;
          let formatted_date_str := strftime_mdY pf final_date in
          mret (<[town :=
                    <[metric_key := VStr value]>
                    (<["Region" := VStr "New York City"]>
                    (<["Town" := VStr town]>
                    (<["Date" := VStr formatted_date_str]>
                    (<["_DateTimeObject" := VDateTime current_date]> entry))))]>
                town_data)
        else Ok town_data
      else Ok town_data
  end.

(** The loop over the rows. *)
Fixpoint process_rows (pf : platform) (metric_key : string) (target_towns : gset string)
    (idx : csv_indexes) (town_data : gmap string (gmap string value))
    (rows : list (list string)) : result (gmap string (gmap string value)) :=
  match rows with
  | [] => Ok town_data
  | row :: rest =>
      town_data' ← process_row pf metric_key target_towns idx town_data row;
      process_rows pf metric_key target_towns idx town_data' rest
  end.

(** The end of the function: the bookkeeping date is deleted from every
    town's dictionary, and the towns without data are filtered out. *)
Definition clean_up_and_filter (town_data : gmap string (gmap string value))
  : gmap string (gmap string value) :=
  let town_data : gmap string (gmap string value) :=
    delete "_DateTimeObject" <$> town_data in
  filter (fun kv : string * gmap string value => kv.2 ≠ ∅) town_data.

(** [http_get] stands for the network: the response to a GET of a URL. *)
Definition scrape_streeteasy_data (pf : platform) (http_get : string -> csv_response)
    (url_key metric_key : string) (target_towns : gset string) (idx : csv_indexes)
  : result (gmap string (gmap string value)) :=
  url ← assoc_getitem STREETEASY_CSV_URLS url_key;
  let town_data : gmap string (gmap string value) := gset_to_gmap ∅ target_towns in
  match
    match http_get url with
    | CsvRequestFailed => Raise RequestException
    | CsvRows [] reader_fails => Raise (if reader_fails then CsvError else StopIteration)
    | CsvRows (_ :: rows) reader_fails =>
        town_data ← process_rows pf metric_key target_towns idx town_data rows;
        if reader_fails then Raise CsvError
        else mret (clean_up_and_filter town_data)
    end
  with
  | Ok r => Ok r
  | Raise _ => Ok ∅
  end.

(** ** The Redfin market page parser *)

(** What the ten selectors of [MARKET_SELECTORS] find in a page. *)
Record page : Type := mk_page {
  long_date_elem : option Tag;
  sale_price_elem : option Tag;
  ratio_elem : option Tag;
  median_dom_elem : option Tag;
  avg_avg_premium_elem : option Tag;
  avg_avg_dom_elem : option Tag;
  hot_avg_premium_elem : option Tag;
  hot_avg_dom_elem : option Tag;
  num_of_homes_sold_elem : option Tag;
  compete_score_elem : option Tag
}.

Inductive html_response : Type :=
  | HtmlRequestFailed
  | HtmlPage (p : page).

(** A match of [In\s+([A-Za-z]+\s+\d{4})] at the head of [s]: its group.
    The classes that follow one another are disjoint, so each repetition
    takes all it can and there is nothing to try again. *)
Definition match_In_month_year (s : string) : option string :=
  match s with
  | String "I" (String "n" r) =>
      let '(sp1, r1) := span py_isspace r in
      let '(word, r2) := span is_letter r1 in
      let '(sp2, r3) := span py_isspace r2 in
      match sp1, word, sp2, r3 with
      | String _ _, String _ _, String _ _, String a (String b (String c (String d _))) =>
          if is_digit a && is_digit b && is_digit c && is_digit d
          then Some (word +:+ sp2 +:+ String a (String b (String c (String d EmptyString))))
          else None
      | _, _, _, _ => None
      end
  | _ => None
  end.

(** [re.search(r'In\s+([A-Za-z]+\s+\d{4})', s)]: the group of the leftmost
    match. *)
Fixpoint search_In_month_year (s : string) : option string :=
  match match_In_month_year s with
  | Some g => Some g
  | None =>
      match s with
      | String _ r => search_In_month_year r
      | EmptyString => None
      end
  end.

(** The core of the parser, the inner [try] block: [Ok None] is its
    [return None]. *)
Definition core_extraction (pf : platform) (p : page)
  : result (option (string * Z * spec_float)) :=
  match long_date_elem p with
  | None => Ok None
  | Some e =>
      let long_date_text := get_text_strip e in
      match search_In_month_year long_date_text with
      | None => Ok None
      | Some month_year_str =>
          formatted_date ← get_last_day_of_month pf month_year_str;
          match formatted_date with
          | None => Ok None
          | Some formatted_date =>
              sale_price_raw ← get_text (sale_price_elem p);
              median_sale_price ← int_of_digits (keep_digits sale_price_raw);
              ratio_raw ← get_text (ratio_elem p);
              x ← py_float (remove_char "%" ratio_raw);
              mret (Some (formatted_date, median_sale_price, Float.div x Float.hundred))
          end
      end
  end.

Definition scrape_market_summary (pf : platform) (http_get : string -> html_response)
    (town region city_url : string) : result (option (gmap string value)) :=
  match
    match http_get city_url with
    | HtmlRequestFailed => Raise RequestException
    | HtmlPage p =>
        match core_extraction pf p with
        | Raise AttributeError => Ok None
        | Raise e => Raise e
        | Ok None => Ok None
        | Ok (Some (formatted_date, median_sale_price, original_sale_to_list_ratio)) =>
            quotient ← Float.int_truediv median_sale_price original_sale_to_list_ratio;
            median_list_price ← Float.to_int quotient;
            let overall_average_premium_paid :=
              Float.round_ndigits (Float.sub original_sale_to_list_ratio Float.one) 4 in
            median_dom ← get_clean_number (median_dom_elem p) (VInt 0);
            avg_home_premium ←
              get_clean_premium_percentage (avg_avg_premium_elem p) (VFloat (S754_zero false));
            avg_home_dom ← get_clean_number (avg_avg_dom_elem p) (VInt 0);
            hot_home_premium ←
              get_clean_premium_percentage (hot_avg_premium_elem p) (VFloat (S754_zero false));
            hot_home_dom ← get_clean_number (hot_avg_dom_elem p) (VInt 0);
            compete_score ← get_clean_number (compete_score_elem p) (VInt 0);
            let num_homes_sold :=
              match num_of_homes_sold_elem p with
              | Some t => VStr (strip (text t))
              | None => VNone
              end in
            mret (Some (list_to_map
              [("Date", VStr formatted_date);
               ("Town", VStr town);
               ("Region", VStr region);
               ("Median_Sale_Price", VInt median_sale_price);
               ("Median_List_Price", VInt median_list_price);
               ("Overall_Average_Premium_Paid", VFloat overall_average_premium_paid);
               ("Median_DOM", median_dom);
               ("Avg_Home_Premium", avg_home_premium);
               ("Avg_Home_DOM", avg_home_dom);
               ("Hot_Home_Premium", hot_home_premium);
               ("Hot_Home_DOM", hot_home_dom);
               ("Num_of_Homes_Sold", num_homes_sold);
               ("Compete_Score", compete_score)]))
        end
    end
  with
  | Ok r => Ok r
  | Raise _ => Ok None
  end.

(* ===================================================================== *)
(** * 4. Main block: StreetEasy merge and calculation step                *)
(* ===================================================================== *)

(** The loop that merges the result of one metric into the master
    dictionary: [all[town].update(data)] for a town already there,
    [all[town] = data] for a new one. *)
Definition merge_metric (all_nyc_market_data current_metric_data : gmap string (gmap string value))
  : gmap string (gmap string value) :=
  map_fold (fun town data (acc : gmap string (gmap string value)) =>
              match acc !! town with
              | Some old => <[town := data ∪ old]> acc
              | None => <[town := data]> acc
              end)
           all_nyc_market_data current_metric_data.

(** The master dictionary after the results of the metrics, in the order
    they were processed. *)
Definition merge_all (results : list (gmap string (gmap string value)))
  : gmap string (gmap string value) :=
  fold_left merge_metric results ∅.

(** The loop over [STREETEASY_METRIC_MAP]. *)
Fixpoint collect_metrics (pf : platform) (http_get : string -> csv_response)
    (neighborhoods : gset string) (metrics : list (string * string))
    (all_nyc_market_data : gmap string (gmap string value))
  : result (gmap string (gmap string value)) :=
  match metrics with
  | [] => Ok all_nyc_market_data
  | (url_key, metric_key) :: rest =>
      current_metric_data ←
        scrape_streeteasy_data pf http_get url_key metric_key neighborhoods CSV_COL_INDEXES;
      collect_metrics pf http_get neighborhoods rest
        (merge_metric all_nyc_market_data current_metric_data)
  end.

(** [float(v)] *)
Definition float_of_value (v : value) : result spec_float :=
  match v with
  | VStr s => py_float s
  | VFloat x => Ok x
  | VInt n =>
      match Float.of_Z n with
      | S754_infinity _ => Raise OverflowError
      | x => Ok x
      end
  | VNone | VDateTime _ => Raise TypeError
  end.

(** The body of the calculation loop for one town's dictionary. *)
Definition recompute_premium (data : gmap string value) : result (gmap string value) :=
  match default VNone (data !! RATIO_KEY) with
  | VNone => Ok data
  | raw_ratio =>
      match float_of_value raw_ratio with
      | Ok ratio_value =>
          let premium := Float.sub ratio_value Float.one in
          Ok (<[RATIO_KEY := VFloat premium]> data)
      | Raise ValueError => Ok (<[RATIO_KEY := VNone]> data)
      | Raise e => Raise e
      end
  end.

(** The calculation loop, run once after the merge. *)
Definition calculation_step (all_nyc_market_data : gmap string (gmap string value))
  : result (gmap string (gmap string value)) :=
  map_fold (fun town data (acc : result (gmap string (gmap string value))) =>
              all ← acc;
              data' ← recompute_premium data;
              mret (<[town := data']> all))
           (Ok all_nyc_market_data) all_nyc_market_data.

(** Parts 2 and 2' of the main block: collection, merge, calculation. *)
Definition nyc_market_data (pf : platform) (http_get : string -> csv_response)
    (neighborhoods : gset string) : result (gmap string (gmap string value)) :=
  all ← collect_metrics pf http_get neighborhoods STREETEASY_METRIC_MAP ∅;
  calculation_step all.


(* ===================================================================== *)
(** * 5. Grist API communication                                          *)
(* ===================================================================== *)

(** [data_row[key]] on a dictionary in insertion order. *)
Definition odict_getitem (d : list (string * value)) (key : string) : result value :=
  match odict_get d key with
  | Some v => Ok v
  | None => Raise KeyError
  end.

(** The ["fields"] object of the payload, in the order of the source. *)
Definition grist_fields (data_row : list (string * value))
  : result (list (string * value)) :=
  date ← odict_getitem data_row "Date";
  town ← odict_getitem data_row "Town";
  region ← odict_getitem data_row "Region";
  median_sale_price ← odict_getitem data_row "Median_Sale_Price";
  median_list_price ← odict_getitem data_row "Median_List_Price";
  overall_average_premium_paid ← odict_getitem data_row "Overall_Average_Premium_Paid";
  median_dom ← odict_getitem data_row "Median_DOM";
  avg_home_premium ← odict_getitem data_row "Avg_Home_Premium";
  avg_home_dom ← odict_getitem data_row "Avg_Home_DOM";
  hot_home_premium ← odict_getitem data_row "Hot_Home_Premium";
  hot_home_dom ← odict_getitem data_row "Hot_Home_DOM";
  num_of_homes_sold ← odict_getitem data_row "Num_of_Homes_Sold";
  compete_score ← odict_getitem data_row "Compete_Score";
  mret [("Date", date);
        ("Town", town);
        ("Region", region);
        ("Median_Sale_Price", median_sale_price);
        ("Median_List_Price", median_list_price);
        ("Overall_Average_Premium_Paid", overall_average_premium_paid);
        ("Median_DOM", median_dom);
        ("Avg_Home_Premium", avg_home_premium);
        ("Avg_Home_DOM", avg_home_dom);
        ("Hot_Home_Premium", hot_home_premium);
        ("Hot_Home_DOM", hot_home_dom);
        ("Num_of_Homes_Sold", num_of_homes_sold);
        ("Compete_Score", compete_score)].

(** What [requests.post] does with a payload: it raises (a
    [RequestException] such as a timeout, or something else), or it returns
    a response with a status code. *)
Inductive post_response : Type :=
  | PostRaises (e : exn)
  | PostStatus (status_code : Z).

(** The line the function prints. *)
Inductive push_message : Type :=
  | Successfully_added
  | Failed_to_push
  | Error_communicating
  | Unexpected_error.

(** What a call of [push_market_data_to_grist] does: the call of
    [requests.post] it makes, if any, given by the fields of the one record
    of the payload, and the line it prints. The function returns nothing. *)
Record push_effect : Type := mk_push_effect {
  request : option (list (string * value));
  message : push_message
}.

(** [post] stands for the network: the answer to the POST of a payload.
    [response.raise_for_status()] raises on the status codes from 400 to
    599. *)
Definition push_market_data_to_grist
    (post : list (string * value) -> post_response) (data_row : list (string * value))
  : push_effect :=
  match grist_fields data_row with
  | Raise _ => mk_push_effect None Unexpected_error
  | Ok fields =>
      match post fields with
      | PostRaises RequestException => mk_push_effect (Some fields) Error_communicating
      | PostRaises _ => mk_push_effect (Some fields) Unexpected_error
      | PostStatus status_code =>
          if (400 <=? status_code) && (status_code <? 600)
          then mk_push_effect (Some fields) Error_communicating
          else if status_code =? 200
               then mk_push_effect (Some fields) Successfully_added
               else mk_push_effect (Some fields) Failed_to_push
      end
  end.

(* ===================================================================== *)
(** * 6. Main execution: the towns, and the final push                    *)
(* ===================================================================== *)

(** [if market_data:] on what [scrape_market_summary] returned: [None] and
    the empty dictionary are false. *)
Definition truthy (market_data : option (gmap string value)) : bool :=
  match market_data with
  | Some record => negb (bool_decide (record = ∅))
  | None => false
  end.

(** Part 1, the loop over [TOWNS_TO_TRACK.items()]: every value of the
    configuration is a list [[region, url]]. The state of the loop is the
    list of the records collected and the flag [all_data_successful]. *)
Fixpoint redfin_loop (pf : platform) (http_get : string -> html_response)
    (towns : list (string * list string))
    (all_redfin_data : list (gmap string value)) (all_data_successful : bool)
  : result (list (gmap string value) * bool) :=
  match towns with
  | [] => Ok (all_redfin_data, all_data_successful)
  | (town, region_url_list) :: rest =>
      region ← list_getitem region_url_list 0;
      url ← list_getitem region_url_list 1;
      market_data ← scrape_market_summary pf http_get town region url;
      if truthy market_data then
        redfin_loop pf http_get rest
          (all_redfin_data ++ [default ∅ market_data]) all_data_successful
      else redfin_loop pf http_get rest all_redfin_data false
  end.

(** The order of the keys. A Python dictionary keeps its keys in insertion
    order, and the neighborhoods enter [town_data] by an iteration of the set
    [target_towns]; [set_order] is the order in which Python iterates that
    set, which depends on the hashes of the strings and changes from run to
    run. The keys of a result of [scrape_streeteasy_data] are the towns of
    that order that the result holds. *)
Definition result_keys (set_order : list string)
    (current_metric_data : gmap string (gmap string value)) : list string :=
  List.filter (fun town => bool_decide (is_Some (current_metric_data !! town))) set_order.

(** The keys of the master dictionary through one merge: a town that is
    not there yet is inserted after the others. *)
Definition merge_keys (keys current_keys : list string) : list string :=
  fold_left (fun (keys : list string) town =>
               if bool_decide (town ∈ keys) then keys else keys ++ [town])
            current_keys keys.

(** The keys of the master dictionary, in insertion order, through the
    loop over [STREETEASY_METRIC_MAP]; [collect_metrics] gives the content
    of the dictionary through the same loop. The calculation step assigns
    to keys that are there and leaves the order as it is. *)
Fixpoint collect_keys (pf : platform) (http_get : string -> csv_response)
    (neighborhoods : gset string) (set_order : list string)
    (metrics : list (string * string)) (keys : list string) : result (list string) :=
  match metrics with
  | [] => Ok keys
  | (url_key, metric_key) :: rest =>
      current_metric_data ←
        scrape_streeteasy_data pf http_get url_key metric_key neighborhoods CSV_COL_INDEXES;
      collect_keys pf http_get neighborhoods set_order rest
        (merge_keys keys (result_keys set_order current_metric_data))
  end.

(** Parts 1 to 3 of the main block: what is pushed, record by record.
    [post i] is the network's answer to the POST made for the record of
    rank [i]. The records of the neighborhoods follow those of the towns,
    in the order of the keys of the master dictionary:
    [list(all_nyc_market_data.values())]. *)
Definition main (pf : platform) (html_get : string -> html_response)
    (csv_get : string -> csv_response)
    (post : nat -> list (string * value) -> post_response)
    (set_order : list string)
    (TOWNS_TO_TRACK : list (string * list string)) (NYC_NEIGHBORHOODS : gset string)
  : result (list push_effect) :=
  redfin ← redfin_loop pf html_get TOWNS_TO_TRACK [] true;
  all_nyc_market_data ← nyc_market_data pf csv_get NYC_NEIGHBORHOODS;
  keys ← collect_keys pf csv_get NYC_NEIGHBORHOODS set_order STREETEASY_METRIC_MAP [];
  let final_nyc_data_list := omap (fun town => all_nyc_market_data !! town) keys in
  let all_market_data_to_push := redfin.1 ++ final_nyc_data_list in
  mret (imap (fun i record =>
                let normalized_record :=
                  normalize_record_for_grist record GRIST_MASTER_SCHEMA in
                push_market_data_to_grist (post i) normalized_record)
             all_market_data_to_push).

(* ===================================================================== *)
(** * Notions used to state the properties                                *)
(* ===================================================================== *)

(** An element holding one text node. *)
Definition tag_of (s : string) : Tag := mk_Tag [s].

(** The text the premium extractor hands to [float]: the text without its
    percent signs, and without its plus signs when it has one. *)
Definition premium_number_text (t : Tag) : string :=
  let clean_text := remove_char "%" (get_text_strip t) in
  if contains "+" clean_text then remove_char "+" clean_text else clean_text.

(** [calendar.month_name] in English. *)
Definition english_month_name (m : Z) : string :=
  nth (Z.to_nat m)
      [""; "January"; "February"; "March"; "April"; "May"; "June"; "July";
       "August"; "September"; "October"; "November"; "December"] "".

(** The last day of a month of the Gregorian calendar: February has 29
    days in the years divisible by 400, or by 4 and not by 100. *)
Definition gregorian_last_day (y m : Z) : Z :=
  if m =? 2 then
    if (y mod 400 =? 0) || ((y mod 4 =? 0) && negb (y mod 100 =? 0)) then 29 else 28
  else if (m =? 4) || (m =? 6) || (m =? 9) || (m =? 11) then 30
  else 31.

(** [s] is the decimal numeral of [n] without a leading zero. *)
Definition numeral_of (n : Z) (s : string) : bool :=
  all_digits s && (digits_value 0 s =? n)
  && match s with
     | String c _ => negb (Ascii.eqb c "0")
     | EmptyString => false
     end.

(** A market page on which the three critical extractions succeed: the
    summary names October 2025, the sale price is 500,000 and the
    sale-to-list ratio 103%. The optional elements are the arguments. *)
Definition sample_page (median_dom compete_score : option Tag) : page :=
  {| long_date_elem := Some (tag_of "In October 2025, Ridgewood home prices were up 4.2%");
     sale_price_elem := Some (tag_of "$500,000");
     ratio_elem := Some (tag_of "103%");
     median_dom_elem := median_dom;
     avg_avg_premium_elem := Some (tag_of "+2%");
     avg_avg_dom_elem := Some (tag_of "32");
     hot_avg_premium_elem := Some (tag_of "+8%");
     hot_avg_dom_elem := Some (tag_of "9");
     num_of_homes_sold_elem := Some (tag_of " 41 ");
     compete_score_elem := compete_score |}.

(** The three columns the parser reads in a row, when the row has them. *)
Definition row_fields (idx : csv_indexes) (row : list string)
  : option (string * string * string) :=
  match list_getitem row (NEIGHBORHOOD idx),
        list_getitem row (DATE idx),
        list_getitem row (VALUE idx) with
  | Ok town, Ok date_str, Ok value => Some (town, date_str, value)
  | _, _, _ => None
  end.

(** The observations of a town in a feed: date and value of the rows that
    have the columns, name the town and carry a date [strptime] accepts,
    in the order of the feed. *)
Fixpoint observations (idx : csv_indexes) (town : string) (rows : list (list string))
  : list (datetime * string) :=
  match rows with
  | [] => []
  | row :: rest =>
      match row_fields idx row with
      | Some (t, date_str, value) =>
          if String.eqb t town then
            match strptime_Ymd date_str with
            | Ok d => (d, value) :: observations idx town rest
            | Raise _ => observations idx town rest
            end
          else observations idx town rest
      | None => observations idx town rest
      end
  end.

(** Every row of a target town that has the columns carries a date that
    [strptime] accepts. *)
Definition dates_parse (idx : csv_indexes) (target_towns : gset string)
    (rows : list (list string)) : Prop :=
  forall row town date_str value,
    row ∈ rows -> row_fields idx row = Some (town, date_str, value) ->
    town ∈ target_towns -> exists d, strptime_Ymd date_str = Ok d.

(** The observation retained after one more: the new one when there was
    none or when it is strictly later. *)
Definition newer (kept : option (datetime * string)) (o : datetime * string)
  : option (datetime * string) :=
  match kept with
  | None => Some o
  | Some (d0, _) => if datetime_ltb d0 o.1 then Some o else kept
  end.

(** [(d, v)] is the first of the observations that bears the latest
    date. *)
Definition first_latest (obs : list (datetime * string)) (d : datetime) (v : string) : Prop :=
  exists i : nat,
    obs !! i = Some (d, v)
    /\ (forall j d' v', obs !! j = Some (d', v') -> datetime_ltb d d' = false)
    /\ (forall j d' v', (j < i)%nat -> obs !! j = Some (d', v') -> datetime_ltb d' d = true).

(** The last day of the month of [d]. *)
Definition month_end (d : datetime) : datetime :=
  mk_datetime (year d) (month d) (days_in_month (year d) (month d)).

(** The keys the parser writes besides the metric. *)
Definition reserved_keys : list string := ["_DateTimeObject"; "Date"; "Town"; "Region"].

(** A town's dictionary during the loop, once an observation is kept. *)
Definition tracked_record (pf : platform) (metric_key town : string)
    (d : datetime) (v : string) : gmap string value :=
  <[metric_key := VStr v]>
  (<["Region" := VStr "New York City"]>
  (<["Town" := VStr town]>
  (<["Date" := VStr (strftime_mdY pf (month_end d))]>
  (<["_DateTimeObject" := VDateTime d]> ∅)))).

(** A town's dictionary in the returned mapping. *)
Definition published_record (pf : platform) (metric_key town : string)
    (d : datetime) (v : string) : gmap string value :=
  <[metric_key := VStr v]>
  (<["Region" := VStr "New York City"]>
  (<["Town" := VStr town]>
  (<["Date" := VStr (strftime_mdY pf (month_end d))]> ∅))).

Definition entry_of (pf : platform) (metric_key town : string)
    (kept : option (datetime * string)) : gmap string value :=
  match kept with
  | None => ∅
  | Some (d, v) => tracked_record pf metric_key town d v
  end.

(** [town_data] holds, for every target town, the dictionary of the
    observation [kept] says, and nothing else. *)
Definition represents (pf : platform) (metric_key : string) (target_towns : gset string)
    (town_data : gmap string (gmap string value))
    (kept : string -> option (datetime * string)) : Prop :=
  forall town,
    town_data !! town =
      if decide (town ∈ target_towns) then Some (entry_of pf metric_key town (kept town))
      else None.

(** A feed of three rows for Chelsea, in January, March and February. *)
Definition sample_rows : list (list string) :=
  [["Chelsea"; "Manhattan"; "2025-01-31"; "neighborhood"; "100"];
   ["Chelsea"; "Manhattan"; "2025-03-31"; "neighborhood"; "300"];
   ["Chelsea"; "Manhattan"; "2025-02-28"; "neighborhood"; "200"]].

Definition csv_header : list string :=
  ["areaName"; "Borough"; "date"; "areaType"; "value"].

(** [dates_parse], as a check of the rows one by one. *)
Definition dates_parse_check (idx : csv_indexes) (target_towns : gset string)
    (rows : list (list string)) : bool :=
  forallb (fun row =>
             match row_fields idx row with
             | Some (town, date_str, _) =>
                 if decide (town ∈ target_towns) then
                   match strptime_Ymd date_str with Ok _ => true | Raise _ => false end
                 else true
             | None => true
             end) rows.

(** A field of the record the market parser returns, when it returns
    one. *)
Definition record_field (r : result (option (gmap string value))) (key : string)
  : option value :=
  match r with
  | Ok (Some record) => record !! key
  | _ => None
  end.

(** A field of a town's record in the mapping the CSV parser returns. *)
Definition town_field (r : result (gmap string (gmap string value))) (town key : string)
  : option value :=
  match r with
  | Ok result => result !! town ≫= (.!! key)
  | Raise _ => None
  end.

(** A field of a town's record in a mapping of records. *)
Definition field_of (m : gmap string (gmap string value)) (town key : string)
  : option value :=
  m !! town ≫= (.!! key).

(** The value of a field of a town in the last of the results that
    defines it. *)
Fixpoint last_defined (results : list (gmap string (gmap string value)))
    (town key : string) : option value :=
  match results with
  | [] => None
  | r :: rest =>
      match last_defined rest town key with
      | Some v => Some v
      | None => field_of r town key
      end
  end.

(** What the calculation step makes of a stored ratio. *)
Definition premium_of (raw_ratio : string) : value :=
  match py_float raw_ratio with
  | Ok ratio_value => VFloat (Float.sub ratio_value Float.one)
  | Raise _ => VNone
  end.

(** The stored ratio of every town is text, as the CSV parser leaves
    it, or absent. *)
Definition ratios_are_text (all : gmap string (gmap string value)) : Prop :=
  forall town data v,
    all !! town = Some data -> data !! RATIO_KEY = Some v -> exists s, v = VStr s.

(** Two results of the parser for one neighborhood, each with its
    metric. *)
Definition sample_price_result : gmap string (gmap string value) :=
  {[ "Chelsea" := published_record (mk_platform false false) "Median_Sale_Price"
                    "Chelsea" (mk_datetime 2025 3 31) "1450000" ]}.

Definition sample_ratio_result : gmap string (gmap string value) :=
  {[ "Chelsea" := published_record (mk_platform false false) RATIO_KEY
                    "Chelsea" (mk_datetime 2025 3 31) "0.97" ]}.

(** Every value of every record is text. *)
Definition all_text (m : gmap string (gmap string value)) : Prop :=
  forall town data key v,
    m !! town = Some data -> data !! key = Some v -> exists s, v = VStr s.

(** A master dictionary holding one neighborhood with a stored ratio. *)
Definition sample_master : gmap string (gmap string value) :=
  {[ "Chelsea" := {[ RATIO_KEY := VStr "0.97" ]} ]}.

(** A row the CSV parser looks at: it has the indexed columns and names
    a target neighborhood. *)
Definition relevant_row (idx : csv_indexes) (target_towns : gset string)
    (row : list string) : bool :=
  match row_fields idx row with
  | Some (town, _, _) => bool_decide (town ∈ target_towns)
  | None => false
  end.

(** The keys of the record of a neighborhood: the three the CSV parser
    sets for every metric, and the metric keys of the program. *)
Definition nyc_keys : list string :=
  ["Date"; "Town"; "Region"] ++ map snd STREETEASY_METRIC_MAP.

(** The columns of the schema that only a market page fills. *)
Definition redfin_only_keys : list string :=
  ["Avg_Home_Premium"; "Avg_Home_DOM"; "Hot_Home_Premium"; "Hot_Home_DOM"; "Compete_Score"].

(** The record of one entry of the configuration, when its page gives
    one. *)
Definition redfin_record (pf : platform) (http_get : string -> html_response)
    (entry : string * list string) : option (gmap string value) :=
  match entry with
  | (town, region :: url :: _) =>
      match scrape_market_summary pf http_get town region url with
      | Ok (Some record) => Some record
      | _ => None
      end
  | _ => None
  end.

(** Every entry of the configuration has its region and its URL. *)
Definition well_formed (towns : list (string * list string)) : Prop :=
  Forall (fun entry : string * list string => (2 <= length entry.2)%nat) towns.

(** The sample rows under their header, served for every URL. *)
Definition sample_feed (url : string) : csv_response :=
  CsvRows (csv_header :: sample_rows) false.

(** A configuration of one town. *)
Definition sample_towns : list (string * list string) :=
  [("Ridgewood", ["New Jersey"; "https://www.redfin.com/city/ridgewood"])].

(** The record of a neighborhood as the collection builds it: the
    neighborhood is a target, the three fields of the CSV parser are there,
    every key is one of [nyc_keys] and every value is text. *)
Definition nyc_record (neighborhoods : gset string) (town : string)
    (data : gmap string value) : Prop :=
  town ∈ neighborhoods
  /\ data !! "Town" = Some (VStr town)
  /\ data !! "Region" = Some (VStr "New York City")
  /\ (exists date, data !! "Date" = Some (VStr date))
  /\ (forall key v, data !! key = Some v -> key ∈ nyc_keys /\ exists s, v = VStr s).

(** A response whose reading breaks off after the sample rows. *)
Definition broken_feed (url : string) : csv_response :=
  CsvRows (csv_header :: sample_rows) true.

(** The floats of the examples, bit for bit: sign, 53-bit mantissa and
    exponent of two. *)

(** [0.08], that is [0x1.47ae147ae147bp-4]. *)
Definition double_0_08 : spec_float := S754_finite false 5764607523034235 (-56).

(** [-0.08]. *)
Definition double_minus_0_08 : spec_float := S754_finite true 5764607523034235 (-56).

(** [0.0812], that is [0x1.4c985f06f6944p-4]. *)
Definition double_0_0812 : spec_float := S754_finite false 5851076635879748 (-56).

(** [-0.0812]. *)
Definition double_minus_0_0812 : spec_float := S754_finite true 5851076635879748 (-56).

(** [0.1235], that is [0x1.f9db22d0e5604p-4]. *)
Definition double_0_1235 : spec_float := S754_finite false 8899112863684100 (-56).

(** [-0.025], that is [-0x1.999999999999ap-6]. *)
Definition double_minus_0_025 : spec_float := S754_finite true 7205759403792794 (-58).

(** [0.97 - 1.0], which Python prints as [-0.030000000000000027]:
    [-0x1.eb851eb851ec0p-6]. *)
Definition double_0_97_minus_1 : spec_float := S754_finite true 8646911284551360 (-58).

(** [1.03 - 1.0], which Python prints as [0.030000000000000027]. *)
Definition double_1_03_minus_1 : spec_float := S754_finite false 8646911284551360 (-58).

(** [x] is a double nearest to the fraction [num / den]: a finite float
    with a mantissa of 53 bits at most half a unit in the last place away
    from the fraction. *)
Definition nearest_double (x : spec_float) (num den : Z) : bool :=
  match x with
  | S754_finite s m e =>
      let v := (if s then - Z.pos m else Z.pos m) * 2 ^ Z.max 0 e in
      let scale := 2 ^ Z.max 0 (- e) in
      (2 ^ 52 <=? Z.pos m) && (Z.pos m <? 2 ^ 53) && (0 <? den)
      && (2 * Z.abs (v * den - num * scale) <=? den * 2 ^ Z.max 0 e)
  | _ => false
  end.

(** A master dictionary whose stored ratio is no number, and one whose
    stored ratio is above one. *)
Definition unparsable_master : gmap string (gmap string value) :=
  {[ "Chelsea" := {[ RATIO_KEY := VStr "n/a" ]} ]}.

Definition above_master : gmap string (gmap string value) :=
  {[ "Chelsea" := {[ RATIO_KEY := VStr "1.03" ]} ]}.

(* ===================================================================== *)
(** * Properties                                                          *)
(* ===================================================================== *)

(** A decidable closed proposition, settled by evaluating its decision
    procedure. *)
Ltac by_compute := apply (bool_decide_unpack _); vm_compute; exact I.

(** Case analysis on everything the goal matches on. *)
Ltac case_matches :=
  repeat match goal with
         | |- context [match ?x with _ => _ end] => destruct x eqn:?
         end.

(** [1 <= m <= 12] as twelve cases. *)
Ltac month_cases m :=
  let Hc := fresh "Hc" in
  assert (m = 1 \/ m = 2 \/ m = 3 \/ m = 4 \/ m = 5 \/ m = 6 \/ m = 7
          \/ m = 8 \/ m = 9 \/ m = 10 \/ m = 11 \/ m = 12) as Hc by lia;
  repeat (destruct Hc as [Hc|Hc]; [subst m|]); [..|subst m].

Ltac leb_true := repeat (rewrite (proj2 (Z.leb_le _ _)) by lia).

(** ** The record normalizer *)

Section Normalizer.

Variable record : gmap string value.

Lemma odict_get_set d key v k :
  odict_get (odict_set d key v) k = if String.eqb k key then Some v else odict_get d k.
Proof.
  induction d as [|[k' w] d IH]; simpl.
  - destruct (String.eqb k key); reflexivity.
  - destruct (String.eqb key k') eqn:E; simpl.
    + apply String.eqb_eq in E. subst k'.
      destruct (String.eqb k key); reflexivity.
    + rewrite IH. destruct (String.eqb k k') eqn:E'; [|reflexivity].
      apply String.eqb_eq in E'. subst k'.
      rewrite String.eqb_sym, E. reflexivity.
Qed.

Lemma odict_keys_set_new d key v :
  key ∉ odict_keys d -> odict_keys (odict_set d key v) = odict_keys d ++ [key].
Proof.
  induction d as [|[k' w] d IH]; simpl; intros Hnew; [reflexivity|].
  apply not_elem_of_cons in Hnew as [Hne Hnew].
  destruct (String.eqb key k') eqn:E.
  - apply String.eqb_eq in E. contradiction.
  - simpl. f_equal. apply IH, Hnew.
Qed.

Lemma odict_get_fold schema : forall acc k,
  odict_get (fold_left (normalize_step record) schema acc) k =
  if decide (k ∈ schema) then Some (default VNone (record !! k)) else odict_get acc k.
Proof.
  induction schema as [|key schema IH]; intros acc k; simpl.
  - destruct (decide (k ∈ [])) as [H|_]; [inversion H|reflexivity].
  - rewrite IH. unfold normalize_step. rewrite odict_get_set.
    destruct (decide (k ∈ schema)) as [Hin|Hnin].
    + rewrite decide_True by (right; exact Hin). reflexivity.
    + destruct (String.eqb k key) eqn:E.
      * apply String.eqb_eq in E. subst key.
        rewrite decide_True by left. reflexivity.
      * rewrite decide_False; [reflexivity|].
        intros Hin. apply elem_of_cons in Hin as [->|Hin]; [|contradiction].
        rewrite String.eqb_refl in E. discriminate.
Qed.

Lemma odict_keys_fold schema : forall acc,
  NoDup schema -> (forall k, k ∈ schema -> k ∉ odict_keys acc) ->
  odict_keys (fold_left (normalize_step record) schema acc) = odict_keys acc ++ schema.
Proof.
  induction schema as [|key schema IH]; intros acc Hnd Hfresh; simpl.
  - rewrite app_nil_r. reflexivity.
  - apply NoDup_cons in Hnd as [Hkey Hnd].
    rewrite IH; [|exact Hnd|].
    + unfold normalize_step. rewrite odict_keys_set_new by (apply Hfresh; left).
      rewrite <- app_assoc. reflexivity.
    + intros k Hk. unfold normalize_step.
      rewrite odict_keys_set_new by (apply Hfresh; left).
      intros Hin. apply elem_of_app in Hin as [Hin|Hin].
      * apply (Hfresh k); [right; exact Hk|exact Hin].
      * apply list_elem_of_singleton in Hin. subst k. contradiction.
Qed.

End Normalizer.

Lemma GRIST_MASTER_SCHEMA_NoDup : NoDup GRIST_MASTER_SCHEMA.
Proof. by_compute. Qed.

(** C1. For every input record, the normalizer run on the master schema
    returns a record whose keys are exactly the thirteen schema keys, in
    schema order; a schema key present in the input keeps its input value,
    a schema key absent from the input is mapped to [None], a key outside
    the schema is not in the output. The normalizer is a total function:
    it has no failing case. *)
Theorem normalize_record_for_grist_spec (record : gmap string value) :
  let normalized := normalize_record_for_grist record GRIST_MASTER_SCHEMA in
  odict_keys normalized = GRIST_MASTER_SCHEMA
  /\ (forall key v, key ∈ GRIST_MASTER_SCHEMA -> record !! key = Some v ->
        odict_get normalized key = Some v)
  /\ (forall key, key ∈ GRIST_MASTER_SCHEMA -> record !! key = None ->
        odict_get normalized key = Some VNone)
  /\ (forall key, key ∉ GRIST_MASTER_SCHEMA -> odict_get normalized key = None).
Proof.
  cbv zeta. unfold normalize_record_for_grist. split; [|split; [|split]].
  - rewrite odict_keys_fold; [reflexivity|apply GRIST_MASTER_SCHEMA_NoDup|].
    intros k _ Hin. inversion Hin.
  - intros key v Hin Hv. rewrite odict_get_fold, decide_True, Hv by exact Hin.
    reflexivity.
  - intros key Hin Hv. rewrite odict_get_fold, decide_True, Hv by exact Hin.
    reflexivity.
  - intros key Hnin. rewrite odict_get_fold, decide_False by exact Hnin.
    reflexivity.
Qed.

(** A record holding one schema field and one field outside the schema. *)
Lemma normalize_record_for_grist_witness :
  let record : gmap string value :=
    <["Town" := VStr "Ridgewood"]> (<["Listing_Id" := VInt 7]> ∅) in
  let normalized := normalize_record_for_grist record GRIST_MASTER_SCHEMA in
  odict_get normalized "Town" = Some (VStr "Ridgewood")
  /\ odict_get normalized "Median_DOM" = Some VNone
  /\ odict_get normalized "Listing_Id" = None.
Proof.
  cbv zeta.
  pose proof (normalize_record_for_grist_spec
                (<["Town" := VStr "Ridgewood"]> (<["Listing_Id" := VInt 7]> ∅)))
    as (_ & Hpresent & Habsent & Houtside).
  split; [|split].
  - apply Hpresent; [by_compute|vm_compute; reflexivity].
  - apply Habsent; [by_compute|vm_compute; reflexivity].
  - apply Houtside. by_compute.
Defined.

(** ** The field extractors *)

Lemma parse_decimal_raises neg s e : parse_decimal neg s = Raise e -> e = ValueError.
Proof. unfold parse_decimal. case_matches; congruence. Qed.

Lemma parse_number_raises s e : parse_number s = Raise e -> e = ValueError.
Proof.
  unfold parse_number.
  destruct (split_sign s) as [neg r].
  destruct (strip_prefix_ci "inf" r) as [r1|].
  - case_matches; congruence.
  - destruct (strip_prefix_ci "nan" r) as [[|c r1]|]; try congruence.
    apply parse_decimal_raises.
Qed.

(** [float(s)] raises nothing but [ValueError]. *)
Lemma py_float_raises s e : py_float s = Raise e -> e = ValueError.
Proof.
  unfold py_float.
  destruct (contains "_" _).
  - destruct (drop_underscores _ _ _); [apply parse_number_raises|congruence].
  - apply parse_number_raises.
Qed.

Lemma py_float_cases s : (exists x, py_float s = Ok x) \/ py_float s = Raise ValueError.
Proof.
  destruct (py_float s) as [x|e] eqn:E; [left; eauto|right].
  apply py_float_raises in E. congruence.
Qed.

(** [int(s)] raises nothing but [ValueError]. *)
Lemma int_of_digits_raises s e : int_of_digits s = Raise e -> e = ValueError.
Proof. unfold int_of_digits. case_matches; congruence. Qed.

(** What [get_clean_number] returns on the inputs of the specification:
    ["103.0%"] gives [0.03], ["65"] gives [65], an absent element the
    default. *)
Lemma get_clean_number_examples (default : value) :
  get_clean_number (Some (tag_of "103.0%")) default = Ok (VFloat (lit "0.03"))
  /\ get_clean_number (Some (tag_of "65")) default = Ok (VInt 65)
  /\ get_clean_number None default = Ok default.
Proof. repeat split. Qed.

(** Without a percent sign the extractor never raises: it returns the
    integer written by the digits of the text, or the default. *)
Lemma get_clean_number_without_percent (t : Tag) (default : value) :
  contains "%" (get_text_strip t) = false ->
  get_clean_number (Some t) default =
    Ok (match int_of_digits (keep_digits (get_text_strip t)) with
        | Ok n => VInt n
        | Raise _ => default
        end).
Proof.
  intros Hno. unfold get_clean_number. rewrite Hno.
  destruct (int_of_digits _) as [n|e] eqn:E; [reflexivity|].
  apply int_of_digits_raises in E. subst e. reflexivity.
Qed.

(** With a percent sign and a number around it, the extractor applies the
    ratio formula. *)
Lemma get_clean_number_with_percent (t : Tag) (default : value) (x : spec_float) :
  contains "%" (get_text_strip t) = true ->
  py_float (remove_char "-" (remove_char "+" (remove_char "%" (get_text_strip t)))) = Ok x ->
  get_clean_number (Some t) default =
    Ok (VFloat (Float.round_ndigits (Float.sub (Float.div x Float.hundred) Float.one) 4)).
Proof.
  intros Hpc Hx. unfold get_clean_number. rewrite Hpc, Hx. reflexivity.
Qed.

(** With a percent sign and no number around it, the extractor raises. *)
Lemma get_clean_number_percent_raises (t : Tag) (default : value) (e : exn) :
  contains "%" (get_text_strip t) = true ->
  py_float (remove_char "-" (remove_char "+" (remove_char "%" (get_text_strip t)))) = Raise e ->
  get_clean_number (Some t) default = Raise ValueError.
Proof.
  intros Hpc He. unfold get_clean_number. rewrite Hpc, He.
  apply py_float_raises in He. subst e. reflexivity.
Qed.

(** C3. The numeric-with-percent extractor is to return the default on
    any parse failure and never raise. On a text with a percent sign whose
    remainder is not a number -- here ["N/A%"] -- the conversion to a float
    stands outside the [try] of the function, and the call raises
    [ValueError] whatever the default. *)
Theorem get_clean_number_percent_unparsable_raises :
  forall default : value,
    get_clean_number (Some (tag_of "N/A%")) default = Raise ValueError.
Proof. intros default. reflexivity. Qed.

Lemma get_clean_premium_percentage_eq (t : Tag) (default : value) :
  get_clean_premium_percentage (Some t) default =
    match py_float (premium_number_text t) with
    | Ok x => Ok (VFloat (Float.round_ndigits (Float.div x Float.hundred) 4))
    | Raise _ => Ok default
    end.
Proof.
  unfold get_clean_premium_percentage, premium_number_text. cbv zeta.
  destruct (contains "+" _).
  - destruct (py_float _) as [x|e] eqn:E; simpl; [reflexivity|].
    apply py_float_raises in E. subst e. reflexivity.
  - destruct (contains "-" _);
      (destruct (py_float _) as [x|e] eqn:E; simpl; [reflexivity|];
       apply py_float_raises in E; subst e; reflexivity).
Qed.

(** The floats of the examples are the doubles nearest to the decimals
    they stand for. *)
Lemma example_doubles :
  nearest_double double_0_08 8 100 = true
  /\ nearest_double double_minus_0_08 (-8) 100 = true
  /\ nearest_double double_0_0812 812 10000 = true
  /\ nearest_double double_minus_0_0812 (-812) 10000 = true
  /\ nearest_double double_0_1235 1235 10000 = true
  /\ nearest_double double_minus_0_025 (-25) 1000 = true.
Proof. repeat split. Qed.

(** C4. The premium extractor: ["+8%"] gives [0.08], ["-8%"] gives
    [-0.08], ["8%"] gives [0.08]; an absent element gives the default.
    The result is rounded to 4 decimals: ["+8.12345%"] gives [0.0812],
    ["-8.12355%"] gives [-0.0812] and ["12.3456%"] gives [0.1235], each
    float being given by its bits. The text ["n/a"] gives the default.
    The extractor never raises; when the text is not a number the default
    is returned; when it is the number [x], with its sign, the result is
    [x / 100] rounded to 4 decimals (no [- 1.0] as in the ratio
    formula). *)
Theorem get_clean_premium_percentage_spec :
  (forall default,
      get_clean_premium_percentage (Some (tag_of "+8%")) default = Ok (VFloat double_0_08)
      /\ get_clean_premium_percentage (Some (tag_of "-8%")) default
         = Ok (VFloat double_minus_0_08)
      /\ get_clean_premium_percentage (Some (tag_of "8%")) default = Ok (VFloat double_0_08)
      /\ get_clean_premium_percentage None default = Ok default
      /\ get_clean_premium_percentage (Some (tag_of "+8.12345%")) default
         = Ok (VFloat double_0_0812)
      /\ get_clean_premium_percentage (Some (tag_of "-8.12355%")) default
         = Ok (VFloat double_minus_0_0812)
      /\ get_clean_premium_percentage (Some (tag_of "12.3456%")) default
         = Ok (VFloat double_0_1235)
      /\ get_clean_premium_percentage (Some (tag_of "n/a")) default = Ok default)
  /\ (forall element default, exists v, get_clean_premium_percentage element default = Ok v)
  /\ (forall t default e,
        py_float (premium_number_text t) = Raise e ->
        get_clean_premium_percentage (Some t) default = Ok default)
  /\ (forall t default x,
        py_float (premium_number_text t) = Ok x ->
        get_clean_premium_percentage (Some t) default =
          Ok (VFloat (Float.round_ndigits (Float.div x Float.hundred) 4))).
Proof.
  split; [|split; [|split]].
  - intros default.
    split; [vm_compute; reflexivity|]. split; [vm_compute; reflexivity|].
    split; [vm_compute; reflexivity|]. split; [reflexivity|].
    split; [vm_compute; reflexivity|]. split; [vm_compute; reflexivity|].
    split; vm_compute; reflexivity.
  - intros [t|] default; [|eexists; reflexivity].
    rewrite get_clean_premium_percentage_eq.
    destruct (py_float _); eexists; reflexivity.
  - intros t default e He. rewrite get_clean_premium_percentage_eq, He. reflexivity.
  - intros t default x Hx. rewrite get_clean_premium_percentage_eq, Hx. reflexivity.
Qed.

(** The text ["n/a"] is no number and gives the default; ["-2.5%"] is the
    number [-2.5] and gives [-0.025]. *)
Lemma get_clean_premium_percentage_witness :
  get_clean_premium_percentage (Some (tag_of "n/a")) (VFloat (S754_zero false))
    = Ok (VFloat (S754_zero false))
  /\ get_clean_premium_percentage (Some (tag_of "-2.5%")) (VFloat (S754_zero false))
    = Ok (VFloat double_minus_0_025).
Proof.
  destruct get_clean_premium_percentage_spec as (_ & _ & Hfail & Hnum).
  split.
  - apply (Hfail (tag_of "n/a") _ ValueError). vm_compute. reflexivity.
  - rewrite (Hnum (tag_of "-2.5%") _ (lit "-2.5")) by (vm_compute; reflexivity).
    vm_compute. reflexivity.
Defined.

(** ** The last-day-of-month conversion *)

Lemma digit_char_facts d :
  0 <= d <= 9 ->
  is_digit (digit_char d) = true /\ py_isspace (digit_char d) = false
  /\ digit_val (digit_char d) = d.
Proof.
  intros H.
  assert (d = 0 \/ d = 1 \/ d = 2 \/ d = 3 \/ d = 4 \/ d = 5 \/ d = 6 \/ d = 7
          \/ d = 8 \/ d = 9) as Hd by lia.
  repeat (destruct Hd as [->|Hd]; [repeat split|]). subst. repeat split.
Qed.

Lemma four_digits_of_parse y r :
  0 <= y <= 9999 -> four_digits (four_digits_of y +:+ r) = Some (y, r).
Proof.
  intros Hy. unfold four_digits_of, two_digits, four_digits. simpl.
  destruct (digit_char_facts (y / 1000)) as (-> & _ & H3);
    [Z.to_euclidean_division_equations; lia|].
  destruct (digit_char_facts (y / 100 mod 10)) as (-> & _ & H2);
    [Z.to_euclidean_division_equations; lia|].
  destruct (digit_char_facts (y mod 100 / 10)) as (-> & _ & H1);
    [Z.to_euclidean_division_equations; lia|].
  destruct (digit_char_facts (y mod 100 mod 10)) as (-> & _ & H0);
    [Z.to_euclidean_division_equations; lia|].
  simpl. rewrite H3, H2, H1, H0. do 2 f_equal.
  Z.to_euclidean_division_equations; lia.
Qed.

Lemma lstrip_four_digits_of y :
  0 <= y <= 9999 -> lstrip (four_digits_of y) = four_digits_of y.
Proof.
  intros Hy. unfold four_digits_of. simpl.
  destruct (digit_char_facts (y / 1000)) as (_ & -> & _);
    [Z.to_euclidean_division_equations; lia|reflexivity].
Qed.

Lemma days_in_month_gregorian y m :
  1 <= m <= 12 -> days_in_month y m = gregorian_last_day y m.
Proof.
  intros Hm. unfold days_in_month, gregorian_last_day, isleap.
  month_cases m; try reflexivity.
  simpl.
  destruct (y mod 4 =? 0) eqn:E4, (y mod 100 =? 0) eqn:E100, (y mod 400 =? 0) eqn:E400;
    simpl; try reflexivity; exfalso;
    rewrite ?Z.eqb_eq, ?Z.eqb_neq in *; Z.to_euclidean_division_equations; lia.
Qed.

Lemma gregorian_last_day_range y m : 28 <= gregorian_last_day y m <= 31.
Proof. unfold gregorian_last_day. case_matches; lia. Qed.

Lemma date_new_valid y m d :
  1 <= y <= 9999 -> 1 <= m <= 12 -> 1 <= d <= gregorian_last_day y m ->
  date_new y m d = Ok (mk_datetime y m d).
Proof.
  intros Hy Hm Hd. unfold date_new. rewrite days_in_month_gregorian by assumption.
  leb_true. reflexivity.
Qed.

(** A month name of the calendar, a blank and four digits are read back
    as the first day of that month. *)
Lemma strptime_BY_valid m y :
  1 <= m <= 12 -> 1 <= y <= 9999 ->
  strptime_BY (english_month_name m +:+ " " +:+ four_digits_of y) = Ok (mk_datetime y m 1).
Proof.
  intros Hm Hy.
  assert (Hparse : four_digits (lstrip (four_digits_of y)) = Some (y, "")).
  { rewrite lstrip_four_digits_of by lia. apply (four_digits_of_parse y ""). lia. }
  assert (Hdate : forall m', 1 <= m' <= 12 -> date_new y m' 1 = Ok (mk_datetime y m' 1)).
  { intros m' Hm'. apply date_new_valid; try lia.
    pose proof (gregorian_last_day_range y m'). lia. }
  unfold strptime_BY, match_BY.
  remember (four_digits_of y) as ys eqn:Hys.
  month_cases m;
    (simpl; change ("" +:+ ys) with ys; rewrite Hparse; apply Hdate; lia).
Qed.

Lemma date_new_raises y m d e : date_new y m d = Raise e -> e = ValueError.
Proof. unfold date_new. case_matches; congruence. Qed.

Lemma monthrange_raises y m e : monthrange y m = Raise e -> e = ValueError.
Proof. unfold monthrange. case_matches; congruence. Qed.

Lemma strptime_BY_raises s e : strptime_BY s = Raise e -> e = ValueError.
Proof.
  unfold strptime_BY.
  destruct (match_BY s) as [[[y m] [|c r]]|]; try congruence.
  apply date_new_raises.
Qed.

Lemma get_last_day_of_month_valid pf m y :
  1 <= m <= 12 -> 1 <= y <= 9999 ->
  get_last_day_of_month pf (english_month_name m +:+ " " +:+ four_digits_of y)
  = Ok (Some (strftime_hash_mdY pf (mk_datetime y m (gregorian_last_day y m)))).
Proof.
  intros Hm Hy. unfold get_last_day_of_month.
  rewrite strptime_BY_valid by assumption. simpl.
  unfold monthrange. leb_true. simpl.
  rewrite days_in_month_gregorian by assumption.
  pose proof (gregorian_last_day_range y m).
  rewrite date_new_valid by lia. reflexivity.
Qed.

Lemma get_last_day_of_month_total pf s : exists r, get_last_day_of_month pf s = Ok r.
Proof.
  unfold get_last_day_of_month.
  destruct (strptime_BY s) as [dt|e] eqn:E1; simpl.
  - destruct (monthrange _ _) as [ld|e] eqn:E2; simpl.
    + destruct (date_new _ _ ld) as [fd|e] eqn:E3; simpl; [eauto|].
      apply date_new_raises in E3. subst e. eauto.
    + apply monthrange_raises in E2. subst e. eauto.
  - apply strptime_BY_raises in E1. subst e. eauto.
Qed.

(** From the year 1000 on the numeral of a year has four digits. *)
Lemma decimal_four_digits y : 1000 <= y <= 9999 -> decimal y = four_digits_of y.
Proof.
  intros Hy. unfold decimal, four_digits_of, two_digits. simpl.
  assert (Hd : 1 <= y / 1000 <= 9) by (Z.to_euclidean_division_equations; lia).
  assert (y / 1000 = 1 \/ y / 1000 = 2 \/ y / 1000 = 3 \/ y / 1000 = 4 \/ y / 1000 = 5
          \/ y / 1000 = 6 \/ y / 1000 = 7 \/ y / 1000 = 8 \/ y / 1000 = 9) as Hc by lia.
  repeat (destruct Hc as [->|Hc]; [reflexivity|]). rewrite Hc. reflexivity.
Qed.

(** [decimal] writes the numeral without a leading zero. *)
Lemma decimal_numeral n : 1 <= n <= 9999 -> numeral_of n (decimal n) = true.
Proof.
  intros Hn.
  assert (Hall : forallb (fun k => numeral_of k (decimal k)) (seqZ 1 9999) = true)
    by (vm_compute; reflexivity).
  rewrite forallb_forall in Hall. apply Hall.
  apply list_elem_of_In, elem_of_seqZ. lia.
Qed.

(** The date is right on every platform. For every "Month Year" string
    made of an English month name, a blank and a four-digit year from 0001
    to 9999, the conversion returns the last calendar day of that month, 29
    February in leap years, as [strftime('%#m/%#d/%Y')] writes it. Where
    the platform's [strftime] takes [#] as the flag that drops the leading
    zero, and writes the year with four digits (any platform from the year
    1000 on), that is M/D/YYYY with the numerals of month and day free of
    leading zeros. For a string that [strptime] rejects the conversion
    returns [None]; it never raises. *)
Lemma get_last_day_of_month_date :
  (forall pf m y, 1 <= m <= 12 -> 1 <= y <= 9999 ->
     get_last_day_of_month pf (english_month_name m +:+ " " +:+ four_digits_of y)
     = Ok (Some (strftime_hash_mdY pf (mk_datetime y m (gregorian_last_day y m))))
     /\ (hash_strips_zero pf = true -> pads_year pf = true \/ 1000 <= y ->
         strftime_hash_mdY pf (mk_datetime y m (gregorian_last_day y m))
         = decimal m +:+ "/" +:+ decimal (gregorian_last_day y m) +:+ "/" +:+ four_digits_of y
         /\ numeral_of m (decimal m) = true
         /\ numeral_of (gregorian_last_day y m) (decimal (gregorian_last_day y m)) = true))
  /\ (forall pf s e, strptime_BY s = Raise e -> get_last_day_of_month pf s = Ok None)
  /\ (forall pf s, exists r, get_last_day_of_month pf s = Ok r).
Proof.
  split; [|split].
  - intros pf m y Hm Hy. split; [apply get_last_day_of_month_valid; assumption|].
    intros Hhash Hyear. pose proof (gregorian_last_day_range y m). split; [|split].
    + unfold strftime_hash_mdY, format_hash, format_Y. simpl. rewrite Hhash.
      destruct (pads_year pf); [reflexivity|].
      destruct Hyear as [?|Hyear]; [discriminate|].
      rewrite (decimal_four_digits y) by lia. reflexivity.
    + apply decimal_numeral. lia.
    + apply decimal_numeral. lia.
  - intros pf s e He. unfold get_last_day_of_month. rewrite He.
    apply strptime_BY_raises in He. subst e. reflexivity.
  - apply get_last_day_of_month_total.
Qed.

(** February 2024 on a platform that honours the flag; a month name in
    lower case and more than one blank, which [strptime] accepts; a month
    that does not exist; and the four digits 0000, which are no year of the
    calendar. *)
Lemma get_last_day_of_month_examples :
  get_last_day_of_month (mk_platform true true) "February 2024" = Ok (Some "2/29/2024")
  /\ get_last_day_of_month (mk_platform true true) "october 2025" = Ok (Some "10/31/2025")
  /\ get_last_day_of_month (mk_platform true true) "October   2025" = Ok (Some "10/31/2025")
  /\ get_last_day_of_month (mk_platform true true) "Brumaire 2024" = Ok None
  /\ get_last_day_of_month (mk_platform true true) "September 0000" = Ok None.
Proof.
  destruct get_last_day_of_month_date as (Hvalid & Hinvalid & _).
  split; [|split; [|split; [|split]]].
  - destruct (Hvalid (mk_platform true true) 2 2024) as [Hdate Hshape]; [lia|lia|].
    destruct Hshape as (Hfmt & _); [reflexivity|left; reflexivity|].
    change "February 2024" with (english_month_name 2 +:+ " " +:+ four_digits_of 2024).
    rewrite Hdate, Hfmt. vm_compute. reflexivity.
  - vm_compute. reflexivity.
  - vm_compute. reflexivity.
  - apply (Hinvalid _ "Brumaire 2024" ValueError). vm_compute. reflexivity.
  - apply (Hinvalid _ "September 0000" ValueError). vm_compute. reflexivity.
Qed.

(** C9. The conversion is to write the date without leading zeros on
    month and day, as its docstring has it: ['September 2025'] is to give
    ['9/30/2025']. The code leaves this to the flag [#] of the format
    ['%#m/%#d/%Y'], which its comment marks "if supported". Where the
    platform's [strftime] ignores the flag, as glibc does, the code returns
    ['09/30/2025'] for September 2025, whatever the platform does about the
    year; where the flag is honoured it returns ['9/30/2025']. *)
Theorem get_last_day_of_month_leading_zero_kept :
  forall pads_year,
    get_last_day_of_month (mk_platform false pads_year) "September 2025"
    = Ok (Some "09/30/2025")
    /\ get_last_day_of_month (mk_platform false pads_year) "September 2025"
       <> Ok (Some "9/30/2025")
    /\ get_last_day_of_month (mk_platform true pads_year) "September 2025"
       = Ok (Some "9/30/2025").
Proof.
  intros [|]; (split; [vm_compute; reflexivity|]);
    (split; [vm_compute; discriminate|vm_compute; reflexivity]).
Qed.

(** ** The market page parser *)

Lemma bind_Ok {A B} (m : result A) (k : A -> result B) (b : B) :
  m ≫= k = Ok b -> exists a, m = Ok a /\ k a = Ok b.
Proof. destruct m as [a|e]; simpl; [eauto|discriminate]. Qed.

Lemma catch_all_Some {A} (body : result (option A)) (a : A) :
  match body with Ok r => Ok r | Raise _ => Ok None end = Ok (Some a) ->
  body = Ok (Some a).
Proof. destruct body; congruence. Qed.

(** The parser turns every exception into [None]. *)
Lemma scrape_market_summary_total pf http_get town region city_url :
  exists r, scrape_market_summary pf http_get town region city_url = Ok r.
Proof. unfold scrape_market_summary. case_matches; eauto. Qed.

(** A failed request gives [None]. *)
Lemma scrape_market_summary_request_failed pf http_get town region city_url :
  http_get city_url = HtmlRequestFailed ->
  scrape_market_summary pf http_get town region city_url = Ok None.
Proof. intros H. unfold scrape_market_summary. rewrite H. reflexivity. Qed.

(** A page on which the core extraction does not give its three values
    gives [None]. *)
Lemma scrape_market_summary_core_failed pf http_get town region city_url p :
  http_get city_url = HtmlPage p ->
  (forall core, core_extraction pf p <> Ok (Some core)) ->
  scrape_market_summary pf http_get town region city_url = Ok None.
Proof.
  intros H Hcore. unfold scrape_market_summary. rewrite H.
  destruct (core_extraction pf p) as [[[[fd s] r]|]|e].
  - destruct (Hcore (fd, s, r)). reflexivity.
  - reflexivity.
  - destruct e; reflexivity.
Qed.

(** Without the summary paragraph, the sale price element or the ratio
    element the core extraction gives nothing. *)
Lemma core_extraction_needs pf p core :
  core_extraction pf p = Ok (Some core) ->
  is_Some (long_date_elem p) /\ is_Some (sale_price_elem p) /\ is_Some (ratio_elem p).
Proof.
  unfold core_extraction. intros H.
  destruct (long_date_elem p) as [e|]; [|discriminate].
  destruct (search_In_month_year _) as [mys|]; [|discriminate].
  destruct (get_last_day_of_month pf mys) as [[fd|]|]; simpl in H; try discriminate.
  destruct (sale_price_elem p) as [pt|]; [|discriminate]. simpl in H.
  destruct (int_of_digits _) as [n|]; [|discriminate]. simpl in H.
  destruct (ratio_elem p) as [rt|]; [|discriminate].
  repeat split; eauto.
Qed.

(** With the six optional elements and the homes-sold element absent, a
    page whose core values give a list price gives a record with the
    defaults. *)
Lemma scrape_market_summary_absent_optionals
    pf http_get town region city_url p fd s r quotient list_price :
  http_get city_url = HtmlPage p ->
  core_extraction pf p = Ok (Some (fd, s, r)) ->
  Float.int_truediv s r = Ok quotient ->
  Float.to_int quotient = Ok list_price ->
  median_dom_elem p = None -> avg_avg_premium_elem p = None ->
  avg_avg_dom_elem p = None -> hot_avg_premium_elem p = None ->
  hot_avg_dom_elem p = None -> compete_score_elem p = None ->
  num_of_homes_sold_elem p = None ->
  let r := scrape_market_summary pf http_get town region city_url in
  record_field r "Median_DOM" = Some (VInt 0)
  /\ record_field r "Avg_Home_Premium" = Some (VFloat (S754_zero false))
  /\ record_field r "Avg_Home_DOM" = Some (VInt 0)
  /\ record_field r "Hot_Home_Premium" = Some (VFloat (S754_zero false))
  /\ record_field r "Hot_Home_DOM" = Some (VInt 0)
  /\ record_field r "Compete_Score" = Some (VInt 0)
  /\ record_field r "Num_of_Homes_Sold" = Some VNone.
Proof.
  intros Hget Hcore Hq Hn H1 H2 H3 H4 H5 H6 H7. cbv zeta.
  unfold scrape_market_summary.
  rewrite Hget, Hcore, Hq. simpl. rewrite Hn. simpl.
  rewrite H1, H2, H3, H4, H5, H6, H7. simpl.
  repeat split;
    repeat (rewrite lookup_insert_ne by discriminate); apply lookup_insert_eq.
Qed.

(** What the core extraction returns is what steps 4 and 5 read in the
    sale price element and in the ratio element. *)
Lemma core_extraction_Some pf p fd s r :
  core_extraction pf p = Ok (Some (fd, s, r)) ->
  exists price_tag ratio_tag x,
    sale_price_elem p = Some price_tag
    /\ int_of_digits (keep_digits (get_text_strip price_tag)) = Ok s
    /\ ratio_elem p = Some ratio_tag
    /\ py_float (remove_char "%" (get_text_strip ratio_tag)) = Ok x
    /\ r = Float.div x Float.hundred.
Proof.
  unfold core_extraction. intros H.
  destruct (long_date_elem p) as [e|]; [|discriminate].
  destruct (search_In_month_year _) as [mys|]; [|discriminate].
  apply bind_Ok in H as ([fd'|] & _ & H); [|discriminate].
  apply bind_Ok in H as (raw & Hraw & H).
  apply bind_Ok in H as (s' & Hs & H).
  apply bind_Ok in H as (raw' & Hraw' & H).
  apply bind_Ok in H as (x & Hx & H).
  destruct (sale_price_elem p) as [pt|]; [|discriminate].
  destruct (ratio_elem p) as [rt|]; [|discriminate].
  simpl in Hraw, Hraw'. injection Hraw as <-. injection Hraw' as <-.
  injection H as <- <- <-.
  exists pt, rt, x. repeat split; assumption.
Qed.

(** C5, as the code has it. Whenever the critical extractions give the
    sale price [s] and the sale-to-list ratio [r] and a record is emitted,
    its [Median_List_Price] is [int(s / r)], the quotient truncated
    towards zero, and its [Overall_Average_Premium_Paid] is [r - 1.0]
    rounded to 4 decimals; [s] and [r] are the digits of the sale price
    element and the hundredth of the number in the ratio element. *)
Theorem scrape_market_summary_derived_fields
    pf http_get town region city_url p fd s r record :
  http_get city_url = HtmlPage p ->
  core_extraction pf p = Ok (Some (fd, s, r)) ->
  scrape_market_summary pf http_get town region city_url = Ok (Some record) ->
  (exists quotient median_list_price,
      Float.int_truediv s r = Ok quotient
      /\ Float.to_int quotient = Ok median_list_price
      /\ record !! "Median_List_Price" = Some (VInt median_list_price))
  /\ record !! "Overall_Average_Premium_Paid"
     = Some (VFloat (Float.round_ndigits (Float.sub r Float.one) 4))
  /\ (exists price_tag ratio_tag x,
        sale_price_elem p = Some price_tag
        /\ int_of_digits (keep_digits (get_text_strip price_tag)) = Ok s
        /\ ratio_elem p = Some ratio_tag
        /\ py_float (remove_char "%" (get_text_strip ratio_tag)) = Ok x
        /\ r = Float.div x Float.hundred).
Proof.
  intros Hget Hcore Hrec. unfold scrape_market_summary in Hrec.
  rewrite Hget, Hcore in Hrec. apply catch_all_Some in Hrec.
  apply bind_Ok in Hrec as (q & Hq & Hrec).
  apply bind_Ok in Hrec as (n & Hn & Hrec).
  apply bind_Ok in Hrec as (v1 & _ & Hrec).
  apply bind_Ok in Hrec as (v2 & _ & Hrec).
  apply bind_Ok in Hrec as (v3 & _ & Hrec).
  apply bind_Ok in Hrec as (v4 & _ & Hrec).
  apply bind_Ok in Hrec as (v5 & _ & Hrec).
  apply bind_Ok in Hrec as (v6 & _ & Hrec).
  injection Hrec as <-.
  split; [|split].
  - exists q, n. split; [assumption|split; [assumption|]].
    simpl. repeat (rewrite lookup_insert_ne by discriminate).
    apply lookup_insert_eq.
  - simpl. repeat (rewrite lookup_insert_ne by discriminate).
    apply lookup_insert_eq.
  - eapply core_extraction_Some, Hcore.
Qed.

(** The sample page: 500,000 at 103% gives the list price 485,436. *)
Lemma scrape_market_summary_derived_fields_witness :
  exists record,
    scrape_market_summary (mk_platform false false)
      (fun _ => HtmlPage (sample_page (Some (tag_of "65")) (Some (tag_of "88"))))
      "Ridgewood" "New Jersey" "https://www.redfin.com/city/ridgewood" = Ok (Some record)
    /\ record !! "Median_List_Price" = Some (VInt 485436)
    /\ record !! "Overall_Average_Premium_Paid" = Some (VFloat (lit "0.03")).
Proof.
  assert (Hsome : record_field
            (scrape_market_summary (mk_platform false false)
               (fun _ => HtmlPage (sample_page (Some (tag_of "65")) (Some (tag_of "88"))))
               "Ridgewood" "New Jersey" "https://www.redfin.com/city/ridgewood")
            "Town" = Some (VStr "Ridgewood")) by (vm_compute; reflexivity).
  destruct (scrape_market_summary _ _ _ _ _) as [[record|]|e] eqn:E;
    [|discriminate Hsome|discriminate Hsome].
  exists record. split; [reflexivity|].
  destruct (scrape_market_summary_derived_fields (mk_platform false false)
              (fun _ => HtmlPage (sample_page (Some (tag_of "65")) (Some (tag_of "88"))))
              "Ridgewood" "New Jersey" "https://www.redfin.com/city/ridgewood"
              (sample_page (Some (tag_of "65")) (Some (tag_of "88")))
              "10/31/2025" 500000 (lit "1.03") record)
    as ((q & n & Hq & Hn & Hprice) & Hpremium & _);
    [reflexivity|vm_compute; reflexivity|exact E|].
  split.
  - rewrite Hprice. vm_compute in Hq. injection Hq as <-.
    vm_compute in Hn. injection Hn as <-. reflexivity.
  - rewrite Hpremium. vm_compute. reflexivity.
Defined.

(** C5, as stated, fails: on the sample page the quotient 500000 / 1.03
    is 485436.89..., which rounds to 485437, and the record holds
    485436. *)
Lemma scrape_market_summary_list_price_not_rounded :
  record_field
    (scrape_market_summary (mk_platform false false)
       (fun _ => HtmlPage (sample_page (Some (tag_of "65")) (Some (tag_of "88"))))
       "Ridgewood" "New Jersey" "https://www.redfin.com/city/ridgewood")
    "Median_List_Price" = Some (VInt 485436)
  /\ exists fd r quotient,
       core_extraction (mk_platform false false)
         (sample_page (Some (tag_of "65")) (Some (tag_of "88"))) = Ok (Some (fd, 500000, r))
       /\ Float.int_truediv 500000 r = Ok quotient
       /\ Float.round_int quotient = Ok 485437.
Proof.
  split; [vm_compute; reflexivity|].
  do 3 eexists. repeat split; vm_compute; reflexivity.
Qed.

(** C2. An optional metric that cannot be parsed is to leave the record
    in place with the default. On the sample page, whose three critical
    extractions succeed, a median-days element reading ["N/A%"] makes
    [get_clean_number] raise, and the parser returns [None]; the same page
    without that element gives a record with the default. The defect is
    the one of C3. *)
Theorem scrape_market_summary_optional_metric_aborts :
  forall pf town region city_url,
    let page_bad := sample_page (Some (tag_of "N/A%")) (Some (tag_of "88")) in
    let page_absent := sample_page None (Some (tag_of "88")) in
    (exists fd r, core_extraction pf page_bad = Ok (Some (fd, 500000, r)))
    /\ scrape_market_summary pf (fun _ => HtmlPage page_bad) town region city_url = Ok None
    /\ record_field
         (scrape_market_summary pf (fun _ => HtmlPage page_absent) town region city_url)
         "Median_DOM" = Some (VInt 0).
Proof.
  intros [[|] [|]] town region city_url; cbv zeta;
    (split; [do 2 eexists; vm_compute; reflexivity|]);
    (split; [vm_compute; reflexivity|]);
    vm_compute; reflexivity.
Qed.

(** ** The CSV time-series parser *)

(** *** The order of dates *)

Lemma datetime_ltb_spec a b :
  datetime_ltb a b = true <->
  year a < year b
  \/ (year a = year b
      /\ (month a < month b \/ (month a = month b /\ day a < day b))).
Proof.
  unfold datetime_ltb.
  rewrite !orb_true_iff, !andb_true_iff, !orb_true_iff, !andb_true_iff,
    !Z.ltb_lt, !Z.eqb_eq.
  tauto.
Qed.

Lemma datetime_ltb_trans a b c :
  datetime_ltb a b = true -> datetime_ltb b c = true -> datetime_ltb a c = true.
Proof. rewrite !datetime_ltb_spec. lia. Qed.

Lemma datetime_leb_ltb_trans a b c :
  datetime_ltb b a = false -> datetime_ltb b c = true -> datetime_ltb a c = true.
Proof.
  intros Hab Hbc. apply not_true_iff_false in Hab.
  rewrite datetime_ltb_spec in *. lia.
Qed.

Lemma datetime_leb_trans a b c :
  datetime_ltb b a = false -> datetime_ltb c b = false -> datetime_ltb c a = false.
Proof.
  intros Hab Hbc. apply not_true_iff_false in Hab, Hbc. apply not_true_iff_false.
  rewrite datetime_ltb_spec in *. lia.
Qed.

Lemma datetime_ltb_asym a b : datetime_ltb a b = true -> datetime_ltb b a = false.
Proof.
  intros Hab. apply not_true_iff_false. rewrite datetime_ltb_spec in *. lia.
Qed.

Lemma datetime_ltb_irrefl a : datetime_ltb a a = false.
Proof. apply not_true_iff_false. rewrite datetime_ltb_spec. lia. Qed.

(** *** The retained observation *)

Lemma fold_newer_Some obs : forall o,
  exists d v, fold_left newer obs (Some o) = Some (d, v).
Proof.
  induction obs as [|o' obs IH]; intros [d0 v0]; simpl; [eauto|].
  destruct (datetime_ltb d0 o'.1); apply IH.
Qed.

(** Scanning from the left with [newer] retains the first observation of
    the latest date. *)
Lemma fold_newer_first_latest obs :
  match fold_left newer obs None with
  | Some (d, v) => first_latest obs d v
  | None => obs = []
  end.
Proof.
  induction obs as [|o obs IH] using rev_ind; [reflexivity|].
  rewrite fold_left_app. simpl. destruct o as [d' v'].
  destruct (fold_left newer obs None) as [[d v]|] eqn:E.
  - destruct IH as (i & Hi & Hmax & Hfirst). simpl.
    destruct (datetime_ltb d d') eqn:Hlt.
    + exists (length obs). split; [|split].
      * rewrite lookup_app_r by lia. rewrite Nat.sub_diag. reflexivity.
      * intros j d'' v'' Hj.
        destruct (decide (j < length obs)%nat) as [Hlen|Hlen].
        -- rewrite lookup_app_l in Hj by exact Hlen.
           apply datetime_ltb_asym.
           eapply datetime_leb_ltb_trans; [eapply Hmax, Hj|exact Hlt].
        -- rewrite lookup_app_r in Hj by lia.
           destruct (j - length obs)%nat; [|discriminate].
           injection Hj as <- <-. apply datetime_ltb_irrefl.
      * intros j d'' v'' Hj Hobs.
        rewrite lookup_app_l in Hobs by exact Hj.
        eapply datetime_leb_ltb_trans; [eapply Hmax, Hobs|exact Hlt].
    + exists i. split; [|split].
      * apply lookup_app_l_Some, Hi.
      * intros j d'' v'' Hj.
        destruct (decide (j < length obs)%nat) as [Hlen|Hlen].
        -- rewrite lookup_app_l in Hj by exact Hlen. eapply Hmax, Hj.
        -- rewrite lookup_app_r in Hj by lia.
           destruct (j - length obs)%nat; [|discriminate].
           injection Hj as <- <-. exact Hlt.
      * intros j d'' v'' Hj Hobs.
        apply lookup_lt_Some in Hi.
        rewrite lookup_app_l in Hobs by lia. eapply Hfirst; eassumption.
  - subst obs. simpl. exists 0%nat. split; [reflexivity|split].
    + intros [|j] d'' v'' Hj; [|discriminate].
      injection Hj as <- <-. apply datetime_ltb_irrefl.
    + intros j d'' v'' Hj. lia.
Qed.

(** *** Dates read by [strptime] *)

Lemma date_new_Ok y m d dt :
  date_new y m d = Ok dt ->
  dt = mk_datetime y m d
  /\ 1 <= y <= 9999 /\ 1 <= m <= 12 /\ 1 <= d <= days_in_month y m.
Proof.
  unfold date_new. destruct (_ && _) eqn:E; [|discriminate].
  rewrite !andb_true_iff, !Z.leb_le in E. intros [= <-]. repeat split; lia.
Qed.

Lemma strptime_Ymd_valid s d :
  strptime_Ymd s = Ok d ->
  1 <= year d <= 9999 /\ 1 <= month d <= 12 /\ 1 <= day d <= days_in_month (year d) (month d).
Proof.
  unfold strptime_Ymd.
  destruct (match_Ymd s) as [[[[y m] d'] [|c r]]|]; try discriminate.
  intros H. apply date_new_Ok in H as (-> & Hy & Hm & Hd). simpl. repeat split; lia.
Qed.

Lemma strptime_Ymd_raises s e : strptime_Ymd s = Raise e -> e = ValueError.
Proof.
  unfold strptime_Ymd.
  destruct (match_Ymd s) as [[[[y m] d'] [|c r]]|]; try congruence.
  apply date_new_raises.
Qed.

(** The last day of the month of a valid date is a date. *)
Lemma month_end_date d :
  1 <= year d <= 9999 -> 1 <= month d <= 12 ->
  monthrange (year d) (month d) = Ok (days_in_month (year d) (month d))
  /\ date_new (year d) (month d) (days_in_month (year d) (month d)) = Ok (month_end d).
Proof.
  intros Hy Hm. split.
  - unfold monthrange. leb_true. reflexivity.
  - unfold date_new, month_end.
    pose proof (gregorian_last_day_range (year d) (month d)) as Hr.
    rewrite <- days_in_month_gregorian in Hr by assumption.
    leb_true. reflexivity.
Qed.

(** *** One row of the feed *)

Lemma list_getitem_raises {A} (l : list A) i e : list_getitem l i = Raise e -> e = IndexError.
Proof. unfold list_getitem. case_matches; congruence. Qed.

Lemma row_fields_bind idx row :
  (town ← list_getitem row (NEIGHBORHOOD idx);
   date_str ← list_getitem row (DATE idx);
   value ← list_getitem row (VALUE idx);
   mret (town, date_str, value))
  = match row_fields idx row with
    | Some fields => Ok fields
    | None => Raise IndexError
    end.
Proof.
  unfold row_fields.
  destruct (list_getitem row (NEIGHBORHOOD idx)) as [t|e] eqn:E1; simpl;
    [|apply list_getitem_raises in E1; subst e; reflexivity].
  destruct (list_getitem row (DATE idx)) as [ds|e] eqn:E2; simpl;
    [|apply list_getitem_raises in E2; subst e; reflexivity].
  destruct (list_getitem row (VALUE idx)) as [v|e] eqn:E3; simpl;
    [|apply list_getitem_raises in E3; subst e; reflexivity].
  reflexivity.
Qed.

(** With the column positions of the program, a row has the columns when
    it has five of them. *)
Lemma row_fields_CSV_COL_INDEXES row :
  row_fields CSV_COL_INDEXES row =
    match row with
    | town :: _ :: date_str :: _ :: value :: _ => Some (town, date_str, value)
    | _ => None
    end.
Proof. destruct row as [|a [|b [|c [|d [|e r]]]]]; reflexivity. Qed.

Section CsvLoop.

Variable pf : platform.
Variable metric_key : string.
Variable target_towns : gset string.
Variable idx : csv_indexes.
Hypothesis metric_key_free : metric_key ∉ reserved_keys.

Lemma metric_key_neq k : k ∈ reserved_keys -> metric_key <> k.
Proof. intros Hk ->. contradiction. Qed.

Lemma tracked_record_lookup_date town d v :
  tracked_record pf metric_key town d v !! "_DateTimeObject" = Some (VDateTime d).
Proof.
  unfold tracked_record.
  rewrite lookup_insert_ne by (apply metric_key_neq; by_compute).
  repeat (rewrite lookup_insert_ne by discriminate).
  apply lookup_insert_eq.
Qed.

Lemma tracked_record_nonempty town d v : tracked_record pf metric_key town d v <> ∅.
Proof. apply insert_non_empty. Qed.

(** Writing the five keys over a town's dictionary gives the dictionary
    of the new observation, whatever was kept before. *)
Lemma tracked_record_overwrite town kept d v :
  <[metric_key := VStr v]>
  (<["Region" := VStr "New York City"]>
  (<["Town" := VStr town]>
  (<["Date" := VStr (strftime_mdY pf (month_end d))]>
  (<["_DateTimeObject" := VDateTime d]> (entry_of pf metric_key town kept)))))
  = tracked_record pf metric_key town d v.
Proof.
  destruct kept as [[d0 v0]|]; [|reflexivity].
  apply map_eq. intros k. unfold entry_of, tracked_record.
  rewrite !lookup_insert. repeat case_decide; reflexivity.
Qed.

Lemma published_record_delete town d v :
  delete "_DateTimeObject" (tracked_record pf metric_key town d v)
  = published_record pf metric_key town d v.
Proof.
  unfold tracked_record, published_record.
  rewrite delete_insert_ne by (intros E; symmetry in E; revert E; apply metric_key_neq; by_compute).
  repeat (rewrite delete_insert_ne by discriminate).
  rewrite delete_insert_eq, delete_empty. reflexivity.
Qed.

Lemma process_row_skipped town_data row :
  row_fields idx row = None ->
  process_row pf metric_key target_towns idx town_data row = Ok town_data.
Proof. intros H. unfold process_row. rewrite row_fields_bind, H. reflexivity. Qed.

Lemma process_row_other_town town_data row town date_str value :
  row_fields idx row = Some (town, date_str, value) -> town ∉ target_towns ->
  process_row pf metric_key target_towns idx town_data row = Ok town_data.
Proof.
  intros H Hout. unfold process_row. rewrite row_fields_bind, H.
  rewrite decide_False by exact Hout. reflexivity.
Qed.

Lemma process_row_bad_date town_data row town date_str value e :
  row_fields idx row = Some (town, date_str, value) -> town ∈ target_towns ->
  strptime_Ymd date_str = Raise e ->
  process_row pf metric_key target_towns idx town_data row = Raise ValueError.
Proof.
  intros H Hin He. unfold process_row. rewrite row_fields_bind, H.
  rewrite decide_True by exact Hin. rewrite He.
  apply strptime_Ymd_raises in He. subst e. reflexivity.
Qed.

Lemma process_row_target town_data kept row town date_str value d :
  row_fields idx row = Some (town, date_str, value) -> town ∈ target_towns ->
  strptime_Ymd date_str = Ok d ->
  represents pf metric_key target_towns town_data kept ->
  exists town_data',
    process_row pf metric_key target_towns idx town_data row = Ok town_data'
    /\ represents pf metric_key target_towns town_data'
         (fun t => if decide (t = town) then newer (kept town) (d, value) else kept t).
Proof.
  intros H Hin Hd Hrep. unfold process_row. rewrite row_fields_bind, H.
  rewrite decide_True by exact Hin. rewrite Hd. simpl.
  destruct (strptime_Ymd_valid _ _ Hd) as (Hy & Hm & _).
  destruct (month_end_date d Hy Hm) as [Hrange Hend].
  pose proof (Hrep town) as Htown. rewrite decide_True in Htown by exact Hin.
  unfold dict_getitem. rewrite Htown. simpl.
  assert (Hnew : represents pf metric_key target_towns
            (<[town := tracked_record pf metric_key town d value]> town_data)
            (fun t => if decide (t = town) then Some (d, value) else kept t)).
  { intros t. destruct (decide (t = town)) as [->|Hne].
    - rewrite lookup_insert_eq, decide_True by exact Hin. reflexivity.
    - rewrite lookup_insert_ne by congruence. apply Hrep. }
  destruct (kept town) as [[d0 v0]|] eqn:Hkept; simpl.
  - rewrite decide_False by apply tracked_record_nonempty.
    rewrite tracked_record_lookup_date. simpl.
    destruct (datetime_ltb d0 d) eqn:Hlt.
    + rewrite Hrange. simpl. rewrite Hend. simpl.
      rewrite (tracked_record_overwrite town (Some (d0, v0))).
      eexists. split; [reflexivity|exact Hnew].
    + eexists. split; [reflexivity|].
      intros t. rewrite (Hrep t). destruct (decide (t ∈ target_towns)); [|reflexivity].
      destruct (decide (t = town)) as [->|_]; [rewrite Hkept|]; reflexivity.
  - rewrite decide_True by reflexivity.
    rewrite Hrange. simpl. rewrite Hend. simpl.
    rewrite (tracked_record_overwrite town None).
    eexists. split; [reflexivity|exact Hnew].
Qed.

End CsvLoop.

(** *** The loop over the rows *)

Section CsvRows.

Variable pf : platform.
Variable metric_key : string.
Variable target_towns : gset string.
Variable idx : csv_indexes.
Hypothesis metric_key_free : metric_key ∉ reserved_keys.

Lemma represents_ext town_data kept kept' :
  (forall town, town ∈ target_towns -> kept town = kept' town) ->
  represents pf metric_key target_towns town_data kept ->
  represents pf metric_key target_towns town_data kept'.
Proof.
  intros Hext Hrep town. rewrite (Hrep town).
  destruct (decide (town ∈ target_towns)) as [Hin|_]; [|reflexivity].
  rewrite (Hext town Hin). reflexivity.
Qed.

Lemma dates_parse_cons row rows :
  dates_parse idx target_towns (row :: rows) <->
  (forall town date_str value,
      row_fields idx row = Some (town, date_str, value) -> town ∈ target_towns ->
      exists d, strptime_Ymd date_str = Ok d)
  /\ dates_parse idx target_towns rows.
Proof.
  unfold dates_parse. split.
  - intros H. split.
    + intros town ds v. apply H. left.
    + intros r town ds v Hr. apply H. right. exact Hr.
  - intros [Hrow Hrest] r town ds v Hr.
    apply elem_of_cons in Hr as [->|Hr]; [apply Hrow|apply Hrest, Hr].
Qed.

(** The loop either goes through all the rows, and then every town holds
    the observation that a scan of its observations with [newer] retains,
    or it raises [ValueError] at a target row whose date does not parse. *)
Lemma process_rows_cases rows : forall town_data kept,
  represents pf metric_key target_towns town_data kept ->
  (exists town_data',
      process_rows pf metric_key target_towns idx town_data rows = Ok town_data'
      /\ represents pf metric_key target_towns town_data'
           (fun town => fold_left newer (observations idx town rows) (kept town))
      /\ dates_parse idx target_towns rows)
  \/ (process_rows pf metric_key target_towns idx town_data rows = Raise ValueError
      /\ ~ dates_parse idx target_towns rows).
Proof.
  induction rows as [|row rows IH]; intros town_data kept Hrep.
  - left. exists town_data. split; [reflexivity|split; [exact Hrep|]].
    intros row town ds v Hin. inversion Hin.
  - simpl process_rows.
    destruct (row_fields idx row) as [[[t ds] v]|] eqn:Hf.
    + destruct (decide (t ∈ target_towns)) as [Hin|Hout].
      * destruct (strptime_Ymd ds) as [d|e] eqn:Hd.
        -- destruct (process_row_target pf metric_key target_towns idx metric_key_free
                       town_data kept row t ds v d Hf Hin Hd Hrep)
             as (town_data1 & -> & Hrep1).
           simpl. destruct (IH _ _ Hrep1) as [(town_data' & -> & Hrep' & Hparse)|[-> Hbad]].
           ++ left. exists town_data'. split; [reflexivity|split].
              ** eapply represents_ext; [|exact Hrep'].
                 intros town _. simpl. rewrite Hf.
                 destruct (String.eqb_spec t town) as [->|Hne].
                 --- rewrite Hd, decide_True by reflexivity. reflexivity.
                 --- rewrite decide_False by congruence. reflexivity.
              ** apply dates_parse_cons. split; [|exact Hparse].
                 intros town ds' v' Hf' _. rewrite Hf in Hf'. injection Hf' as <- <- <-. eauto.
           ++ right. split; [reflexivity|]. intros [_ Hparse]%dates_parse_cons. contradiction.
        -- right.
           rewrite (process_row_bad_date pf metric_key target_towns idx
                      town_data row t ds v e Hf Hin Hd).
           split; [reflexivity|].
           intros [Hrow _]%dates_parse_cons. destruct (Hrow t ds v Hf Hin) as [d Hd'].
           congruence.
      * rewrite (process_row_other_town pf metric_key target_towns idx
                   town_data row t ds v Hf Hout).
        simpl. destruct (IH _ _ Hrep) as [(town_data' & -> & Hrep' & Hparse)|[-> Hbad]].
        -- left. exists town_data'. split; [reflexivity|split].
           ++ eapply represents_ext; [|exact Hrep'].
              intros town Hin. simpl. rewrite Hf.
              destruct (String.eqb_spec t town) as [->|Hne]; [contradiction|reflexivity].
           ++ apply dates_parse_cons. split; [|exact Hparse].
              intros town ds' v' Hf' Hin. rewrite Hf in Hf'. injection Hf' as <- <- <-. contradiction.
        -- right. split; [reflexivity|]. intros [_ Hparse]%dates_parse_cons. contradiction.
    + rewrite (process_row_skipped pf metric_key target_towns idx town_data row Hf).
      simpl. destruct (IH _ _ Hrep) as [(town_data' & -> & Hrep' & Hparse)|[-> Hbad]].
      * left. exists town_data'. split; [reflexivity|split].
        -- eapply represents_ext; [|exact Hrep'].
           intros town _. simpl. rewrite Hf. reflexivity.
        -- apply dates_parse_cons. split; [|exact Hparse]. intros town ds v Hf'. rewrite Hf in Hf'. discriminate.
      * right. split; [reflexivity|]. intros [_ Hparse]%dates_parse_cons. contradiction.
Qed.

(** The dictionaries before the first row. *)
Lemma represents_initial :
  represents pf metric_key target_towns (gset_to_gmap ∅ target_towns) (fun _ => None).
Proof.
  intros town. rewrite lookup_gset_to_gmap.
  destruct (decide (town ∈ target_towns)) as [Hin|Hout].
  - rewrite option_guard_True by exact Hin. reflexivity.
  - rewrite option_guard_False by exact Hout. reflexivity.
Qed.

Lemma published_record_nonempty town d v : published_record pf metric_key town d v <> ∅.
Proof. apply insert_non_empty. Qed.

(** The returned mapping: the towns with a retained observation, each
    with its dictionary less the bookkeeping date. *)
Lemma clean_up_and_filter_lookup town_data kept town :
  represents pf metric_key target_towns town_data kept ->
  clean_up_and_filter town_data !! town =
    if decide (town ∈ target_towns) then
      match kept town with
      | Some (d, v) => Some (published_record pf metric_key town d v)
      | None => None
      end
    else None.
Proof.
  intros Hrep. unfold clean_up_and_filter.
  rewrite map_lookup_filter, lookup_fmap, (Hrep town).
  destruct (decide (town ∈ target_towns)) as [Hin|Hout]; [|reflexivity].
  destruct (kept town) as [[d v]|]; simpl.
  - rewrite (published_record_delete pf metric_key metric_key_free).
    rewrite option_guard_True by apply published_record_nonempty. reflexivity.
  - rewrite delete_empty. rewrite option_guard_False by (intros H; apply H; reflexivity).
    reflexivity.
Qed.

End CsvRows.

(** *** The parser *)

Lemma dates_parse_check_sound idx target_towns rows :
  dates_parse_check idx target_towns rows = true -> dates_parse idx target_towns rows.
Proof.
  unfold dates_parse_check. rewrite forallb_forall.
  intros Hall row town ds v Hrow Hf Hin.
  apply list_elem_of_In, Hall in Hrow. rewrite Hf, decide_True in Hrow by exact Hin.
  destruct (strptime_Ymd ds) as [d|e]; [eauto|discriminate].
Qed.

Lemma observations_valid idx town rows d v :
  (d, v) ∈ observations idx town rows ->
  1 <= year d <= 9999 /\ 1 <= month d <= 12.
Proof.
  induction rows as [|row rows IH]; simpl; [intros H; inversion H|].
  destruct (row_fields idx row) as [[[t ds] v']|]; [|exact IH].
  destruct (String.eqb t town); [|exact IH].
  destruct (strptime_Ymd ds) as [d'|e] eqn:Hd; [|exact IH].
  intros H. apply elem_of_cons in H as [[= <- <-]|H]; [|exact (IH H)].
  apply strptime_Ymd_valid in Hd. tauto.
Qed.

(** The parser on a feed with a header that the reader reads to the end. *)
Lemma scrape_streeteasy_data_rows
    pf http_get url_key metric_key target_towns idx url header rows :
  assoc_getitem STREETEASY_CSV_URLS url_key = Ok url ->
  http_get url = CsvRows (header :: rows) false ->
  scrape_streeteasy_data pf http_get url_key metric_key target_towns idx =
    Ok (match process_rows pf metric_key target_towns idx
                (gset_to_gmap ∅ target_towns) rows with
        | Ok town_data => clean_up_and_filter town_data
        | Raise _ => ∅
        end).
Proof.
  intros Hurl Hget. unfold scrape_streeteasy_data. rewrite Hurl. simpl. rewrite Hget.
  destruct (process_rows _ _ _ _ _ rows); reflexivity.
Qed.

(** A failed request, and a response without a line, give the empty
    mapping. *)
Lemma scrape_streeteasy_data_no_feed
    pf http_get url_key metric_key target_towns idx url :
  assoc_getitem STREETEASY_CSV_URLS url_key = Ok url ->
  http_get url = CsvRequestFailed \/ (exists fails, http_get url = CsvRows [] fails) ->
  scrape_streeteasy_data pf http_get url_key metric_key target_towns idx = Ok ∅.
Proof.
  intros Hurl Hget. unfold scrape_streeteasy_data. rewrite Hurl. simpl.
  destruct Hget as [->|[fails ->]]; reflexivity.
Qed.

(** Whatever the response, the parser returns the empty mapping or the
    cleaned dictionaries of a loop that went through. *)
Lemma scrape_streeteasy_data_result
    pf http_get url_key metric_key target_towns idx result :
  metric_key ∉ reserved_keys ->
  scrape_streeteasy_data pf http_get url_key metric_key target_towns idx = Ok result ->
  result = ∅
  \/ exists town_data kept,
       represents pf metric_key target_towns town_data kept
       /\ result = clean_up_and_filter town_data.
Proof.
  intros Hfree. unfold scrape_streeteasy_data.
  destruct (assoc_getitem STREETEASY_CSV_URLS url_key) as [url|e]; [|discriminate].
  simpl. destruct (http_get url) as [|[|header rows] fails].
  - intros [= <-]. left. reflexivity.
  - intros [= <-]. left. reflexivity.
  - destruct (process_rows_cases pf metric_key target_towns idx Hfree rows _ _
                (represents_initial pf metric_key target_towns))
      as [(town_data & -> & Hrep & _)|[-> _]]; simpl.
    + destruct fails; intros [= <-]; [left; reflexivity|right; eauto].
    + intros [= <-]. left. reflexivity.
Qed.

(** A target row whose date does not parse empties the result of the
    whole feed. *)
Lemma scrape_streeteasy_data_unparsed_date
    pf http_get url_key metric_key target_towns idx url header rows :
  metric_key ∉ reserved_keys ->
  assoc_getitem STREETEASY_CSV_URLS url_key = Ok url ->
  http_get url = CsvRows (header :: rows) false ->
  ~ dates_parse idx target_towns rows ->
  scrape_streeteasy_data pf http_get url_key metric_key target_towns idx = Ok ∅.
Proof.
  intros Hfree Hurl Hget Hbad.
  rewrite (scrape_streeteasy_data_rows _ _ _ _ _ _ _ _ _ Hurl Hget).
  destruct (process_rows_cases pf metric_key target_towns idx Hfree rows _ _
              (represents_initial pf metric_key target_towns))
    as [(town_data & _ & _ & Hparse)|[-> _]]; [contradiction|reflexivity].
Qed.

Lemma published_record_fields pf metric_key town d v :
  metric_key ∉ reserved_keys ->
  let record := published_record pf metric_key town d v in
  record !! metric_key = Some (VStr v)
  /\ record !! "Town" = Some (VStr town)
  /\ record !! "Region" = Some (VStr "New York City")
  /\ record !! "Date" = Some (VStr (strftime_mdY pf (month_end d)))
  /\ record !! "_DateTimeObject" = None.
Proof.
  intros Hfree. cbv zeta. unfold published_record.
  split; [apply lookup_insert_eq|].
  rewrite !(lookup_insert_ne _ metric_key)
    by (apply (metric_key_neq metric_key Hfree); by_compute).
  repeat split;
    repeat (rewrite lookup_insert_ne by discriminate);
    try apply lookup_insert_eq; apply lookup_empty.
Qed.

(** C6, as the code has it. For a feed that is read to the end and in
    which every row of a target neighborhood that has the columns carries
    a date in the format YYYY-MM-DD: the header row is skipped; no
    neighborhood outside the target set is in the result; rows without
    the columns do not count; a target neighborhood with no row left is
    not in the result; any other target neighborhood holds the value of
    the first of its rows that bears its latest date, with, as date, the
    last day of the month of that date as [strftime('%m/%d/%Y')] writes
    it: month and day on two digits, the year on four from the year 1000
    on, or where the platform pads it. *)
Theorem scrape_streeteasy_data_latest
    pf http_get url_key metric_key target_towns idx url header rows :
  metric_key ∉ reserved_keys ->
  assoc_getitem STREETEASY_CSV_URLS url_key = Ok url ->
  http_get url = CsvRows (header :: rows) false ->
  dates_parse idx target_towns rows ->
  exists result,
    scrape_streeteasy_data pf http_get url_key metric_key target_towns idx = Ok result
    /\ (forall town, town ∉ target_towns -> result !! town = None)
    /\ (forall town, town ∈ target_towns -> observations idx town rows = [] ->
          result !! town = None)
    /\ (forall town, town ∈ target_towns -> observations idx town rows <> [] ->
          exists d v record,
            first_latest (observations idx town rows) d v
            /\ result !! town = Some record
            /\ record !! metric_key = Some (VStr v)
            /\ record !! "Date" =
                 Some (VStr (two_digits (month d) +:+ "/"
                             +:+ two_digits (gregorian_last_day (year d) (month d)) +:+ "/"
                             +:+ format_Y pf (year d)))
            /\ (pads_year pf = true \/ 1000 <= year d ->
                format_Y pf (year d) = four_digits_of (year d))).
Proof.
  intros Hfree Hurl Hget Hparse.
  rewrite (scrape_streeteasy_data_rows _ _ _ _ _ _ _ _ _ Hurl Hget).
  destruct (process_rows_cases pf metric_key target_towns idx Hfree rows _ _
              (represents_initial pf metric_key target_towns))
    as [(town_data & -> & Hrep & _)|[_ Hbad]]; [|contradiction].
  eexists. split; [reflexivity|].
  pose proof (fun town =>
                clean_up_and_filter_lookup pf metric_key target_towns Hfree _ _ town Hrep)
    as Hlook.
  split; [|split].
  - intros town Hout. rewrite (Hlook town), decide_False by exact Hout. reflexivity.
  - intros town Hin Hnone. rewrite (Hlook town), decide_True by exact Hin.
    rewrite Hnone. reflexivity.
  - intros town Hin Hsome. rewrite (Hlook town), decide_True by exact Hin.
    pose proof (fold_newer_first_latest (observations idx town rows)) as Hlatest.
    destruct (fold_left newer _ None) as [[d v]|]; [|contradiction].
    exists d, v, (published_record pf metric_key town d v).
    destruct (published_record_fields pf metric_key town d v Hfree)
      as (Hvalue & _ & _ & Hdate & _).
    split; [exact Hlatest|split; [reflexivity|split; [exact Hvalue|split]]].
    + rewrite Hdate. destruct Hlatest as (i & Hi & _).
      apply list_elem_of_lookup_2, observations_valid in Hi as [_ Hm].
      unfold strftime_mdY, month_end. simpl.
      rewrite days_in_month_gregorian by exact Hm. reflexivity.
    + intros Hyear. unfold format_Y. destruct (pads_year pf); [reflexivity|].
      destruct Hyear as [?|Hyear]; [discriminate|].
      destruct Hlatest as (i & Hi & _).
      apply list_elem_of_lookup_2, observations_valid in Hi as [Hy _].
      apply decimal_four_digits. lia.
Qed.

(** The sample feed: Chelsea in January, March and February. *)
Lemma scrape_streeteasy_data_latest_witness :
  exists result d v record,
    scrape_streeteasy_data (mk_platform false false)
      (fun _ => CsvRows (csv_header :: sample_rows) false)
      "STREETEASY_MEDIAN_DOM" "Median_DOM" {["Chelsea"]} CSV_COL_INDEXES = Ok result
    /\ first_latest (observations CSV_COL_INDEXES "Chelsea" sample_rows) d v
    /\ result !! "Chelsea" = Some record
    /\ record !! "Median_DOM" = Some (VStr v).
Proof.
  destruct (scrape_streeteasy_data_latest (mk_platform false false)
              (fun _ => CsvRows (csv_header :: sample_rows) false)
              "STREETEASY_MEDIAN_DOM" "Median_DOM" {["Chelsea"]} CSV_COL_INDEXES
              "https://cdn-charts.streeteasy.com/chart/v2/data/sub/ddp-medianDaysMarket.csv"
              csv_header sample_rows)
    as (result & Hresult & _ & _ & Hlatest);
    [by_compute|vm_compute; reflexivity|reflexivity
    |apply dates_parse_check_sound; vm_compute; reflexivity|].
  destruct (Hlatest "Chelsea") as (d & v & record & Hfirst & Hrecord & Hvalue & _);
    [by_compute|vm_compute; discriminate|].
  exists result, d, v, record. repeat split; assumption.
Defined.

(** On the sample feed the value retained for Chelsea is the one of
    March. *)
Lemma scrape_streeteasy_data_sample :
  let r := scrape_streeteasy_data (mk_platform false false)
             (fun _ => CsvRows (csv_header :: sample_rows) false)
             "STREETEASY_MEDIAN_DOM" "Median_DOM" {["Chelsea"]} CSV_COL_INDEXES in
  town_field r "Chelsea" "Median_DOM" = Some (VStr "300")
  /\ town_field r "Chelsea" "Date" = Some (VStr "03/31/2025").
Proof. split; vm_compute; reflexivity. Qed.

(** C6, as stated, fails. A fourth row for Chelsea whose date is written
    2025/04/30 leaves Chelsea, which has three dated rows, out of the
    result; and where the platform does not pad the year, a row of the
    year 999 is dated 03/31/999. *)
Lemma scrape_streeteasy_data_not_every_feed :
  let rows := sample_rows ++ [["Chelsea"; "Manhattan"; "2025/04/30"; "neighborhood"; "400"]] in
  observations CSV_COL_INDEXES "Chelsea" rows <> []
  /\ scrape_streeteasy_data (mk_platform false false)
       (fun _ => CsvRows (csv_header :: rows) false)
       "STREETEASY_MEDIAN_DOM" "Median_DOM" {["Chelsea"]} CSV_COL_INDEXES = Ok ∅
  /\ town_field
       (scrape_streeteasy_data (mk_platform false false)
          (fun _ => CsvRows
                      [csv_header; ["Chelsea"; "Manhattan"; "0999-03-15"; "neighborhood"; "7"]]
                      false)
          "STREETEASY_MEDIAN_DOM" "Median_DOM" {["Chelsea"]} CSV_COL_INDEXES)
       "Chelsea" "Date" = Some (VStr "03/31/999").
Proof.
  cbv zeta. split; [vm_compute; discriminate|].
  split; vm_compute; reflexivity.
Qed.

(** C7. A row that fails to parse is to be skipped alone. The sample
    feed gives Chelsea its March value; with one more row for Chelsea
    whose date is not in the format YYYY-MM-DD, [strptime] raises outside
    the [try] that skips short rows, and the parser returns the empty
    mapping: the rows read before are lost. *)
Theorem scrape_streeteasy_data_bad_row_is_fatal :
  forall pf,
    let bad_row := ["Chelsea"; "Manhattan"; "31.03.2025"; "neighborhood"; "350"] in
    let parse rows :=
      scrape_streeteasy_data pf (fun _ => CsvRows (csv_header :: rows) false)
        "STREETEASY_MEDIAN_ASKING_PRICE" "Median_List_Price" {["Chelsea"]}
        CSV_COL_INDEXES in
    town_field (parse sample_rows) "Chelsea" "Median_List_Price" = Some (VStr "300")
    /\ parse (sample_rows ++ [bad_row]) = Ok ∅
    /\ parse (bad_row :: sample_rows) = Ok ∅.
Proof.
  intros [[|] [|]]; cbv zeta; repeat split; vm_compute; reflexivity.
Qed.

(** C10. Whatever the feed and the target set, for a metric key that is
    none of the parser's own keys (as the five of the program are): every
    key of the returned mapping is a target neighborhood; the record under
    it has that key as [Town], ['New York City'] as [Region], a [Date],
    and no ['_DateTimeObject']. *)
Theorem scrape_streeteasy_data_invariants
    pf http_get url_key metric_key target_towns idx result :
  metric_key ∉ reserved_keys ->
  scrape_streeteasy_data pf http_get url_key metric_key target_towns idx = Ok result ->
  forall town record,
    result !! town = Some record ->
    town ∈ target_towns
    /\ record !! "Town" = Some (VStr town)
    /\ record !! "Region" = Some (VStr "New York City")
    /\ (exists date, record !! "Date" = Some (VStr date))
    /\ record !! "_DateTimeObject" = None.
Proof.
  intros Hfree Hresult town record Hrecord.
  apply scrape_streeteasy_data_result in Hresult as [->|(town_data & kept & Hrep & ->)];
    [| |exact Hfree].
  - rewrite lookup_empty in Hrecord. discriminate.
  - rewrite (clean_up_and_filter_lookup pf metric_key target_towns Hfree _ _ _ Hrep)
      in Hrecord.
    destruct (decide (town ∈ target_towns)) as [Hin|_]; [|discriminate].
    destruct (kept town) as [[d v]|]; [|discriminate].
    injection Hrecord as <-.
    destruct (published_record_fields pf metric_key town d v Hfree)
      as (_ & Htown & Hregion & Hdate & Hstamp).
    repeat split; try assumption. eauto.
Qed.

(** The five metric keys of the program are none of the parser's keys,
    and their URL keys are in [STREETEASY_CSV_URLS]. *)
Lemma STREETEASY_METRIC_MAP_keys url_key metric_key :
  elem_of (url_key, metric_key) STREETEASY_METRIC_MAP ->
  (metric_key ∉ reserved_keys)
  /\ (exists url, assoc_getitem STREETEASY_CSV_URLS url_key = Ok url).
Proof.
  intros Hin. unfold STREETEASY_METRIC_MAP in Hin.
  repeat (apply elem_of_cons in Hin as [[= -> ->]|Hin];
          [split; [by_compute|eexists; reflexivity]|]).
  inversion Hin.
Qed.

(** The sample feed, parsed for the metric [Median_DOM]. *)
Lemma scrape_streeteasy_data_invariants_witness :
  exists result record,
    scrape_streeteasy_data (mk_platform false false)
      (fun _ => CsvRows (csv_header :: sample_rows) false)
      "STREETEASY_MEDIAN_DOM" "Median_DOM" {["Chelsea"; "Tribeca"]} CSV_COL_INDEXES
    = Ok result
    /\ result !! "Chelsea" = Some record
    /\ "Chelsea" ∈ ({["Chelsea"; "Tribeca"]} : gset string)
    /\ record !! "Town" = Some (VStr "Chelsea")
    /\ record !! "Region" = Some (VStr "New York City")
    /\ (exists date, record !! "Date" = Some (VStr date))
    /\ record !! "_DateTimeObject" = None.
Proof.
  assert (Hsome : town_field
            (scrape_streeteasy_data (mk_platform false false)
               (fun _ => CsvRows (csv_header :: sample_rows) false)
               "STREETEASY_MEDIAN_DOM" "Median_DOM" {["Chelsea"; "Tribeca"]}
               CSV_COL_INDEXES)
            "Chelsea" "Town" = Some (VStr "Chelsea")) by (vm_compute; reflexivity).
  destruct (scrape_streeteasy_data _ _ _ _ _ _) as [result|e] eqn:E; [|discriminate Hsome].
  simpl in Hsome.
  destruct (result !! "Chelsea") as [record|] eqn:Hrecord; [|discriminate Hsome].
  exists result, record. split; [reflexivity|]. split; [exact Hrecord|].
  apply (scrape_streeteasy_data_invariants (mk_platform false false)
           (fun _ => CsvRows (csv_header :: sample_rows) false)
           "STREETEASY_MEDIAN_DOM" "Median_DOM" {["Chelsea"; "Tribeca"]} CSV_COL_INDEXES
           result); [by_compute|exact E|exact Hrecord].
Defined.

(** ** The merge and calculation step *)

Lemma merge_metric_lookup (all current : gmap string (gmap string value)) town :
  merge_metric all current !! town =
    match current !! town with
    | Some data => Some (match all !! town with Some old => data ∪ old | None => data end)
    | None => all !! town
    end.
Proof.
  unfold merge_metric. revert town.
  apply (map_fold_weak_ind
           (fun (r m : gmap string (gmap string value)) =>
              forall town,
                r !! town =
                  match m !! town with
                  | Some data =>
                      Some (match all !! town with Some old => data ∪ old | None => data end)
                  | None => all !! town
                  end)).
  - intros town. rewrite lookup_empty. reflexivity.
  - intros i x m r Hfresh IH town.
    pose proof (IH i) as Hi. rewrite Hfresh in Hi.
    destruct (decide (i = town)) as [->|Hne].
    + rewrite lookup_insert_eq, Hi.
      destruct (all !! town); rewrite lookup_insert_eq; reflexivity.
    + rewrite (lookup_insert_ne m) by exact Hne. rewrite <- IH.
      destruct (r !! i); rewrite lookup_insert_ne by exact Hne; reflexivity.
Qed.

(** Update wins: a field of the merged record is the one of the current
    metric when it defines it, the one already there otherwise. *)
Lemma merge_metric_field (all current : gmap string (gmap string value)) town key :
  field_of (merge_metric all current) town key =
    match field_of current town key with
    | Some v => Some v
    | None => field_of all town key
    end.
Proof.
  unfold field_of. rewrite merge_metric_lookup.
  destruct (current !! town) as [data|]; simpl; [|reflexivity].
  destruct (all !! town) as [old|]; simpl.
  - rewrite lookup_union. destruct (data !! key), (old !! key); reflexivity.
  - destruct (data !! key); reflexivity.
Qed.

Lemma fold_merge_metric_field results : forall all town key,
  field_of (fold_left merge_metric results all) town key =
    match last_defined results town key with
    | Some v => Some v
    | None => field_of all town key
    end.
Proof.
  induction results as [|r results IH]; intros all town key; simpl; [reflexivity|].
  rewrite IH, merge_metric_field.
  destruct (last_defined results town key); [reflexivity|].
  destruct (field_of r town key); reflexivity.
Qed.

Lemma last_defined_None results town key :
  (forall (j : nat) r', results !! j = Some r' -> field_of r' town key = None) ->
  last_defined results town key = None.
Proof.
  induction results as [|r0 results IH]; intros Hnone; [reflexivity|].
  simpl. rewrite IH.
  - apply (Hnone 0%nat). reflexivity.
  - intros j r' Hj. apply (Hnone (S j)). exact Hj.
Qed.

Lemma last_defined_Some results : forall (i : nat) r town key v,
  results !! i = Some r -> field_of r town key = Some v ->
  (forall (j : nat) r', (i < j)%nat -> results !! j = Some r' -> field_of r' town key = None) ->
  last_defined results town key = Some v.
Proof.
  induction results as [|r0 results IH]; intros i r town key v Hi Hv Hlast;
    [discriminate|].
  simpl. destruct i as [|i]; simpl in Hi.
  - injection Hi as ->. rewrite last_defined_None; [exact Hv|].
    intros j r' Hj. apply (Hlast (S j)); [lia|exact Hj].
  - rewrite (IH i r town key v Hi Hv); [reflexivity|].
    intros j r' Hj Hr'. apply (Hlast (S j)); [lia|exact Hr'].
Qed.

Lemma last_defined_is_Some results : forall (i : nat) r town key v,
  results !! i = Some r -> field_of r town key = Some v ->
  is_Some (last_defined results town key).
Proof.
  induction results as [|r0 results IH]; intros i r town key v Hi Hv; [discriminate|].
  simpl. destruct (last_defined results town key) as [w|] eqn:E; [eauto|].
  destruct i as [|i]; simpl in Hi.
  - injection Hi as ->. rewrite Hv. eauto.
  - destruct (IH i r town key v Hi Hv) as [w Hw]. congruence.
Qed.

(** *** The calculation step *)

Lemma float_of_text_raises s e : float_of_value (VStr s) = Raise e -> e = ValueError.
Proof. apply py_float_raises. Qed.

(** On a record whose stored ratio is text or absent, the body of the
    loop does not raise: the ratio becomes [premium_of] it, the rest is
    untouched. *)
Lemma recompute_premium_text data :
  (forall v, data !! RATIO_KEY = Some v -> exists s, v = VStr s) ->
  recompute_premium data =
    Ok (match data !! RATIO_KEY with
        | Some (VStr s) => <[RATIO_KEY := premium_of s]> data
        | _ => data
        end).
Proof.
  intros Htext. unfold recompute_premium.
  destruct (data !! RATIO_KEY) as [v|] eqn:E; [|reflexivity].
  destruct (Htext v eq_refl) as [s ->]. simpl. unfold premium_of.
  destruct (py_float s) as [x|e] eqn:Hs; [reflexivity|].
  apply py_float_raises in Hs. subst e. reflexivity.
Qed.

Lemma calculation_step_lookup all :
  (forall town data, all !! town = Some data -> exists data', recompute_premium data = Ok data') ->
  exists all',
    calculation_step all = Ok all'
    /\ forall town,
         all' !! town =
           match all !! town with
           | Some data =>
               match recompute_premium data with Ok data' => Some data' | Raise _ => None end
           | None => None
           end.
Proof.
  intros Hok. unfold calculation_step.
  assert (Hgen : forall m : gmap string (gmap string value),
             (forall town data, m !! town = Some data ->
                                exists data', recompute_premium data = Ok data') ->
             exists all',
               map_fold (fun town data (acc : result (gmap string (gmap string value))) =>
                           all0 ← acc; data' ← recompute_premium data;
                           mret (<[town := data']> all0))
                        (Ok all) m = Ok all'
               /\ forall town,
                    all' !! town =
                      match m !! town with
                      | Some data =>
                          match recompute_premium data with
                          | Ok data' => Some data'
                          | Raise _ => None
                          end
                      | None => all !! town
                      end).
  { intros m. apply (map_fold_weak_ind
      (fun (r : result (gmap string (gmap string value)))
           (m : gmap string (gmap string value)) =>
         (forall town data, m !! town = Some data ->
                            exists data', recompute_premium data = Ok data') ->
         exists all',
           r = Ok all'
           /\ forall town,
                all' !! town =
                  match m !! town with
                  | Some data =>
                      match recompute_premium data with
                      | Ok data' => Some data'
                      | Raise _ => None
                      end
                  | None => all !! town
                  end)).
    - intros _. exists all. split; [reflexivity|].
      intros town. rewrite lookup_empty. reflexivity.
    - intros i x m0 r Hfresh IH Hm.
      destruct IH as (all0 & -> & Hall0).
      { intros town data Hd. apply (Hm town data).
        rewrite lookup_insert_ne; [exact Hd|]. intros ->. congruence. }
      destruct (Hm i x) as [x' Hx]; [apply lookup_insert_eq|].
      simpl. rewrite Hx. simpl. eexists. split; [reflexivity|].
      intros town. destruct (decide (i = town)) as [->|Hne].
      + rewrite !lookup_insert_eq, Hx. reflexivity.
      + rewrite !lookup_insert_ne by exact Hne. apply Hall0. }
  destruct (Hgen all Hok) as (all' & Hrun & Hall').
  exists all'. split; [exact Hrun|].
  intros town. rewrite Hall'. destruct (all !! town); reflexivity.
Qed.

(** With stored ratios that are text the calculation step runs to its
    end, town by town. *)
Lemma calculation_step_text all :
  ratios_are_text all ->
  exists all',
    calculation_step all = Ok all'
    /\ forall town,
         all' !! town =
           match all !! town with
           | Some data =>
               Some (match data !! RATIO_KEY with
                     | Some (VStr s) => <[RATIO_KEY := premium_of s]> data
                     | _ => data
                     end)
           | None => None
           end.
Proof.
  intros Htext.
  destruct (calculation_step_lookup all) as (all' & Hrun & Hall').
  { intros town data Hd. eexists. apply recompute_premium_text.
    intros v Hv. exact (Htext town data v Hd Hv). }
  exists all'. split; [exact Hrun|].
  intros town. rewrite Hall'. destruct (all !! town) as [data|] eqn:Hd; [|reflexivity].
  rewrite recompute_premium_text by (intros v Hv; exact (Htext town data v Hd Hv)).
  reflexivity.
Qed.

(** C8. The merge is an update-wins union: in the master dictionary made
    of the results of the metrics, a field of a neighborhood holds the
    value of the last result, in processing order, that defines it; it is
    absent when no result defines it and present as soon as one does. The calculation step then, for
    stored ratios that are text (or absent), does not raise: a stored
    ratio [s] is replaced by [float(s) - 1.0], by [None] when [s] is not a
    number; the other fields and the neighborhoods stay as they are. On
    the stored text ["0.97"] the step leaves the float [0.97 - 1.0], given
    by its bits, on ["1.03"] the float [1.03 - 1.0], and on ["n/a"] it
    leaves [None]. *)
Theorem merge_and_calculation_spec :
  (forall results town key,
      (forall (i : nat) r v,
          results !! i = Some r -> field_of r town key = Some v ->
          (forall (j : nat) r', (i < j)%nat -> results !! j = Some r' ->
                                field_of r' town key = None) ->
          field_of (merge_all results) town key = Some v)
      /\ ((forall (i : nat) r, results !! i = Some r -> field_of r town key = None) ->
          field_of (merge_all results) town key = None)
      /\ (forall (i : nat) r v,
            results !! i = Some r -> field_of r town key = Some v ->
            is_Some (field_of (merge_all results) town key)))
  /\ (forall all,
        ratios_are_text all ->
        exists all',
          calculation_step all = Ok all'
          /\ forall town,
               match all !! town with
               | None => all' !! town = None
               | Some data =>
                   exists data',
                     all' !! town = Some data'
                     /\ (forall key, key <> RATIO_KEY -> data' !! key = data !! key)
                     /\ (forall s, data !! RATIO_KEY = Some (VStr s) ->
                                   data' !! RATIO_KEY = Some (premium_of s))
                     /\ (data !! RATIO_KEY = None -> data' !! RATIO_KEY = None)
               end)
  /\ town_field (calculation_step sample_master) "Chelsea" RATIO_KEY
     = Some (VFloat double_0_97_minus_1)
  /\ town_field (calculation_step above_master) "Chelsea" RATIO_KEY
     = Some (VFloat double_1_03_minus_1)
  /\ town_field (calculation_step unparsable_master) "Chelsea" RATIO_KEY = Some VNone.
Proof.
  split; [|split; [|split; [vm_compute; reflexivity|split; vm_compute; reflexivity]]].
  - intros results town key. unfold merge_all. split; [|split].
    + intros i r v Hi Hv Hlast. rewrite fold_merge_metric_field.
      rewrite (last_defined_Some results i r town key v Hi Hv Hlast). reflexivity.
    + intros Hnone. rewrite fold_merge_metric_field.
      rewrite (last_defined_None results town key Hnone).
      unfold field_of. rewrite lookup_empty. reflexivity.
    + intros i r v Hi Hv. rewrite fold_merge_metric_field.
      destruct (last_defined_is_Some results i r town key v Hi Hv) as [w ->]. eauto.
  - intros all Htext.
    destruct (calculation_step_text all Htext) as (all' & Hrun & Hall').
    exists all'. split; [exact Hrun|].
    intros town. rewrite Hall'. destruct (all !! town) as [data|] eqn:Hd; [|reflexivity].
    eexists. split; [reflexivity|].
    destruct (data !! RATIO_KEY) as [v|] eqn:Hv.
    + destruct (Htext town data v Hd Hv) as [s ->].
      split; [|split].
      * intros key Hne. apply lookup_insert_ne. congruence.
      * intros s' [= <-]. apply lookup_insert_eq.
      * discriminate.
    + split; [reflexivity|split; [discriminate|]]. intros _. exact Hv.
Qed.

(** Two results for Chelsea, the second with the ratio; and a master
    dictionary whose stored ratio is the text 0.97. *)
Lemma merge_and_calculation_witness :
  field_of (merge_all [sample_price_result; sample_ratio_result]) "Chelsea" RATIO_KEY
    = Some (VStr "0.97")
  /\ field_of (merge_all [sample_price_result; sample_ratio_result]) "Chelsea" "Median_DOM"
    = None
  /\ exists all' data',
       calculation_step sample_master = Ok all'
       /\ all' !! "Chelsea" = Some data'
       /\ data' !! RATIO_KEY = Some (VFloat double_0_97_minus_1).
Proof.
  destruct merge_and_calculation_spec as (Hmerge & Hcalc & _).
  split; [|split].
  - apply (proj1 (Hmerge _ "Chelsea" RATIO_KEY) 1%nat sample_ratio_result);
      [reflexivity|vm_compute; reflexivity|].
    intros [|[|j]] r' Hj Hr'; [lia|lia|discriminate].
  - apply (proj1 (proj2 (Hmerge _ "Chelsea" "Median_DOM"))).
    intros [|[|[|i]]] r [= <-]; vm_compute; reflexivity.
  - destruct (Hcalc sample_master) as (all' & Hrun & Hall').
    + intros town data v Hd Hv. unfold sample_master in Hd.
      apply lookup_singleton_Some in Hd as [_ <-].
      apply lookup_singleton_Some in Hv as [_ <-]. eauto.
    + specialize (Hall' "Chelsea"). unfold sample_master in Hall'.
      rewrite lookup_singleton_eq in Hall'.
      destruct Hall' as (data' & Hdata' & _ & Hratio & _).
      exists all', data'. split; [exact Hrun|split; [exact Hdata'|]].
      rewrite (Hratio "0.97") by apply lookup_singleton_eq.
      vm_compute. reflexivity.
Defined.

(** *** The whole collection *)

Lemma scrape_streeteasy_data_text
    pf http_get url_key metric_key target_towns idx result :
  metric_key ∉ reserved_keys ->
  scrape_streeteasy_data pf http_get url_key metric_key target_towns idx = Ok result ->
  all_text result.
Proof.
  intros Hfree Hresult town data key v Hd Hv.
  apply scrape_streeteasy_data_result in Hresult as [->|(town_data & kept & Hrep & ->)];
    [| |exact Hfree].
  - rewrite lookup_empty in Hd. discriminate.
  - rewrite (clean_up_and_filter_lookup pf metric_key target_towns Hfree _ _ _ Hrep) in Hd.
    destruct (decide (town ∈ target_towns)); [|discriminate].
    destruct (kept town) as [[d w]|]; [|discriminate].
    injection Hd as <-. unfold published_record in Hv.
    repeat (rewrite lookup_insert in Hv; case_decide; [injection Hv as <-; eauto|]).
    rewrite lookup_empty in Hv. discriminate.
Qed.

Lemma scrape_streeteasy_data_total
    pf http_get url_key metric_key target_towns idx url :
  assoc_getitem STREETEASY_CSV_URLS url_key = Ok url ->
  exists result,
    scrape_streeteasy_data pf http_get url_key metric_key target_towns idx = Ok result.
Proof.
  intros Hurl. unfold scrape_streeteasy_data. rewrite Hurl. simpl.
  case_matches; eauto.
Qed.

Lemma merge_metric_text all current :
  all_text all -> all_text current -> all_text (merge_metric all current).
Proof.
  intros Hall Hcur town data key v Hd Hv.
  rewrite merge_metric_lookup in Hd.
  destruct (current !! town) as [new|] eqn:Hnew; [|exact (Hall town data key v Hd Hv)].
  injection Hd as <-.
  destruct (all !! town) as [old|] eqn:Hold; [|exact (Hcur town new key v Hnew Hv)].
  apply lookup_union_Some_raw in Hv as [Hv|[_ Hv]].
  - exact (Hcur town new key v Hnew Hv).
  - exact (Hall town old key v Hold Hv).
Qed.

Lemma collect_metrics_text pf http_get neighborhoods metrics : forall all,
  Forall (fun km => (km.2 ∉ reserved_keys)
                    /\ (exists url, assoc_getitem STREETEASY_CSV_URLS km.1 = Ok url))
         metrics ->
  all_text all ->
  exists all',
    collect_metrics pf http_get neighborhoods metrics all = Ok all' /\ all_text all'.
Proof.
  induction metrics as [|[url_key metric_key] metrics IH]; intros all Hkeys Hall.
  - exists all. split; [reflexivity|exact Hall].
  - apply Forall_cons in Hkeys as [[Hfree [url Hurl]] Hkeys]. simpl in Hfree, Hurl.
    destruct (scrape_streeteasy_data_total pf http_get url_key metric_key neighborhoods
                CSV_COL_INDEXES url Hurl) as [current Hcurrent].
    simpl. rewrite Hcurrent. simpl. apply IH; [exact Hkeys|].
    apply merge_metric_text; [exact Hall|].
    eapply scrape_streeteasy_data_text; eassumption.
Qed.

(** Whatever the network answers, collection, merge and calculation run
    to their end without raising. *)
Lemma nyc_market_data_total pf http_get neighborhoods :
  exists all, nyc_market_data pf http_get neighborhoods = Ok all.
Proof.
  unfold nyc_market_data.
  destruct (collect_metrics_text pf http_get neighborhoods STREETEASY_METRIC_MAP ∅)
    as (all & -> & Htext).
  - apply Forall_forall. intros [url_key metric_key] Hin.
    apply STREETEASY_METRIC_MAP_keys, Hin.
  - intros town data key v Hd. rewrite lookup_empty in Hd. discriminate.
  - simpl.
    destruct (calculation_step_text all) as (all' & Hrun & _); [|eauto].
    intros town data v Hd Hv. exact (Htext town data RATIO_KEY v Hd Hv).
Qed.

(** ** The normalizer and the push, together *)

Lemma list_to_map_odict_get (l : list (string * value)) (k : string) :
  (list_to_map l : gmap string value) !! k = odict_get l k.
Proof.
  induction l as [|[k' w] l IH]; simpl; [apply lookup_empty|].
  rewrite lookup_insert. destruct (String.eqb k k') eqn:E.
  - apply String.eqb_eq in E. subst k'. rewrite decide_True by reflexivity. reflexivity.
  - rewrite decide_False; [exact IH|].
    intros ->. rewrite String.eqb_refl in E. discriminate.
Qed.

Lemma odict_get_is_Some (l : list (string * value)) (k : string) :
  is_Some (odict_get l k) <-> k ∈ odict_keys l.
Proof.
  unfold odict_keys. induction l as [|[k' w] l IH]; simpl.
  - split; [intros [? [=]]|intros H; inversion H].
  - destruct (String.eqb k k') eqn:E.
    + apply String.eqb_eq in E. subst k'. split; [left|eauto].
    + rewrite IH. split; [right; assumption|].
      intros [->|H]%elem_of_cons; [|exact H].
      rewrite String.eqb_refl in E. discriminate.
Qed.

Lemma normalize_record_for_grist_ext (r1 r2 : gmap string value) schema :
  (forall k, k ∈ schema -> default VNone (r1 !! k) = default VNone (r2 !! k)) ->
  normalize_record_for_grist r1 schema = normalize_record_for_grist r2 schema.
Proof.
  unfold normalize_record_for_grist. generalize (@nil (string * value)).
  induction schema as [|key schema IH]; intros acc H; simpl; [reflexivity|].
  unfold normalize_step at 2 4. rewrite (H key) by left.
  apply IH. intros k Hk. apply H. right. exact Hk.
Qed.

(** X1. Normalizing a record that is already normalized changes nothing:
    the normalizer is idempotent, for every record and every schema. *)
Theorem normalize_record_for_grist_idempotent (record : gmap string value) schema :
  normalize_record_for_grist
    (list_to_map (normalize_record_for_grist record schema)) schema
  = normalize_record_for_grist record schema.
Proof.
  apply normalize_record_for_grist_ext. intros k Hk.
  rewrite list_to_map_odict_get. unfold normalize_record_for_grist.
  rewrite odict_get_fold, decide_True by exact Hk. reflexivity.
Qed.

Lemma elem_of_GRIST_MASTER_SCHEMA (key : string) :
  key ∈ GRIST_MASTER_SCHEMA <->
  key = "Date" \/ key = "Town" \/ key = "Region" \/ key = "Median_Sale_Price"
  \/ key = "Median_List_Price" \/ key = "Overall_Average_Premium_Paid"
  \/ key = "Median_DOM" \/ key = "Avg_Home_Premium" \/ key = "Avg_Home_DOM"
  \/ key = "Hot_Home_Premium" \/ key = "Hot_Home_DOM" \/ key = "Num_of_Homes_Sold"
  \/ key = "Compete_Score".
Proof.
  unfold GRIST_MASTER_SCHEMA. rewrite !elem_of_cons, elem_of_nil. tauto.
Qed.

Lemma grist_fields_Ok data_row fields :
  grist_fields data_row = Ok fields ->
  Forall2 (fun key field => field.1 = key /\ odict_get data_row key = Some field.2)
          GRIST_MASTER_SCHEMA fields.
Proof.
  unfold grist_fields. intros H.
  repeat (apply bind_Ok in H as (? & ? & H)). injection H as <-.
  unfold odict_getitem in *.
  repeat match goal with
         | H : match odict_get ?d ?k with _ => _ end = Ok _ |- _ =>
             destruct (odict_get d k) eqn:?; [injection H as ->|discriminate H]
         end.
  repeat constructor; assumption.
Qed.

Lemma grist_fields_Raise data_row e :
  grist_fields data_row = Raise e ->
  e = KeyError /\ exists key, key ∈ GRIST_MASTER_SCHEMA /\ odict_get data_row key = None.
Proof.
  unfold grist_fields, odict_getitem. intros H.
  repeat match type of H with
         | context [odict_get data_row ?k] =>
             destruct (odict_get data_row k) eqn:?; simpl in H;
             [|split; [congruence|exists k; split;
                                  [apply elem_of_GRIST_MASTER_SCHEMA; tauto|assumption]]]
         end.
  discriminate H.
Qed.

(** X2. The push makes its request exactly when the record has every
    one of the thirteen keys of the payload; the fields it sends are then
    these keys, in the order of the schema, each with the value of the
    record, and nothing else of the record. When a key is missing no
    request is made and the error is reported, not raised. *)
Theorem push_market_data_to_grist_request post data_row :
  (is_Some (request (push_market_data_to_grist post data_row)) <->
   forall key, key ∈ GRIST_MASTER_SCHEMA -> is_Some (odict_get data_row key))
  /\ (forall fields,
        request (push_market_data_to_grist post data_row) = Some fields ->
        Forall2 (fun key field => field.1 = key /\ odict_get data_row key = Some field.2)
                GRIST_MASTER_SCHEMA fields)
  /\ (request (push_market_data_to_grist post data_row) = None ->
      message (push_market_data_to_grist post data_row) = Unexpected_error).
Proof.
  unfold push_market_data_to_grist.
  destruct (grist_fields data_row) as [fields|e] eqn:E.
  - pose proof (grist_fields_Ok _ _ E) as Hf.
    assert (Hreq : forall eff,
               eff = match post fields with
                     | PostRaises RequestException =>
                         mk_push_effect (Some fields) Error_communicating
                     | PostRaises _ => mk_push_effect (Some fields) Unexpected_error
                     | PostStatus status_code =>
                         if (400 <=? status_code) && (status_code <? 600)
                         then mk_push_effect (Some fields) Error_communicating
                         else if status_code =? 200
                              then mk_push_effect (Some fields) Successfully_added
                              else mk_push_effect (Some fields) Failed_to_push
                     end ->
               request eff = Some fields).
    { intros eff ->. case_matches; reflexivity. }
    rewrite (Hreq _ eq_refl). split; [|split].
    + split; [|eauto]. intros _ key Hkey.
      apply list_elem_of_lookup in Hkey as [i Hi].
      destruct (Forall2_lookup_l _ _ _ _ _ Hf Hi) as (field & _ & _ & Hget).
      rewrite Hget. eauto.
    + intros fields' [= <-]. exact Hf.
    + discriminate.
  - apply grist_fields_Raise in E as (-> & key & Hkey & Hnone). simpl.
    split; [|split].
    + split; [intros [? [=]]|].
      intros H. destruct (H key Hkey) as [v Hv]. congruence.
    + discriminate.
    + reflexivity.
Qed.

Lemma normalize_record_for_grist_master (record : gmap string value) :
  normalize_record_for_grist record GRIST_MASTER_SCHEMA
  = map (fun key => (key, default VNone (record !! key))) GRIST_MASTER_SCHEMA.
Proof. reflexivity. Qed.

Lemma grist_fields_normalized (record : gmap string value) :
  grist_fields (normalize_record_for_grist record GRIST_MASTER_SCHEMA)
  = Ok (normalize_record_for_grist record GRIST_MASTER_SCHEMA).
Proof. rewrite normalize_record_for_grist_master. reflexivity. Qed.

Lemma push_request_Ok post data_row fields :
  grist_fields data_row = Ok fields ->
  request (push_market_data_to_grist post data_row) = Some fields.
Proof.
  intros E. unfold push_market_data_to_grist. rewrite E. case_matches; reflexivity.
Qed.

(** X3. A record that went through the normalizer is always pushed,
    whatever record went in: the request is made, its fields are the
    normalized record itself, key by key and in its order, and the missing
    key branch of the push cannot be reached from the main block. *)
Theorem push_market_data_to_grist_normalized post (record : gmap string value) :
  request (push_market_data_to_grist post
             (normalize_record_for_grist record GRIST_MASTER_SCHEMA))
  = Some (normalize_record_for_grist record GRIST_MASTER_SCHEMA).
Proof. apply push_request_Ok, grist_fields_normalized. Qed.

(** ** The record of a town *)

Lemma digits_value_nonneg s : forall acc,
  all_digits s = true -> 0 <= acc -> 0 <= digits_value acc s.
Proof.
  induction s as [|c s IH]; intros acc Hs Hacc; simpl in *; [exact Hacc|].
  apply andb_true_iff in Hs as [Hc Hs]. apply IH; [exact Hs|].
  assert (0 <= digit_val c); [|lia].
  unfold is_digit, in_range in Hc. unfold digit_val.
  apply andb_true_iff in Hc as [Hc _]. apply N.leb_le in Hc. lia.
Qed.

Lemma int_of_digits_nonneg s n : int_of_digits s = Ok n -> 0 <= n.
Proof.
  unfold int_of_digits. destruct (all_digits s) eqn:Hs; [|discriminate].
  intros H. assert (n = digits_value 0 s) as ->.
  { destruct s; [discriminate|].
    destruct (Nat.ltb _ _); [discriminate|]. congruence. }
  apply digits_value_nonneg; [exact Hs|lia].
Qed.

(** What the parser returns when it returns a record. *)
Lemma scrape_market_summary_record pf http_get town region city_url record :
  scrape_market_summary pf http_get town region city_url = Ok (Some record) ->
  exists p fd s r list_price premium dom ahp ahd hhp hhd sold score,
    http_get city_url = HtmlPage p
    /\ core_extraction pf p = Ok (Some (fd, s, r))
    /\ record = list_to_map
         [("Date", VStr fd); ("Town", VStr town); ("Region", VStr region);
          ("Median_Sale_Price", VInt s); ("Median_List_Price", VInt list_price);
          ("Overall_Average_Premium_Paid", VFloat premium); ("Median_DOM", dom);
          ("Avg_Home_Premium", ahp); ("Avg_Home_DOM", ahd); ("Hot_Home_Premium", hhp);
          ("Hot_Home_DOM", hhd); ("Num_of_Homes_Sold", sold); ("Compete_Score", score)].
Proof.
  unfold scrape_market_summary. intros H.
  destruct (http_get city_url) as [|p]; [discriminate|].
  destruct (core_extraction pf p) as [[[[fd s] r]|]|e] eqn:Hcore;
    [|discriminate|destruct e; discriminate].
  apply catch_all_Some in H.
  apply bind_Ok in H as (q & Hq & H).
  apply bind_Ok in H as (n & Hn & H).
  apply bind_Ok in H as (v1 & _ & H).
  apply bind_Ok in H as (v2 & _ & H).
  apply bind_Ok in H as (v3 & _ & H).
  apply bind_Ok in H as (v4 & _ & H).
  apply bind_Ok in H as (v5 & _ & H).
  apply bind_Ok in H as (v6 & _ & H).
  injection H as <-.
  exists p, fd, s, r. do 9 eexists.
  split; [reflexivity|]. split; [exact Hcore|reflexivity].
Qed.

Lemma core_extraction_date pf p fd s r :
  core_extraction pf p = Ok (Some (fd, s, r)) ->
  exists e month_year_str,
    long_date_elem p = Some e
    /\ search_In_month_year (get_text_strip e) = Some month_year_str
    /\ get_last_day_of_month pf month_year_str = Ok (Some fd).
Proof.
  unfold core_extraction. intros H.
  destruct (long_date_elem p) as [e|]; [|discriminate]. cbv zeta in H.
  destruct (search_In_month_year (get_text_strip e)) as [mys|] eqn:Hsearch;
    [|discriminate].
  apply bind_Ok in H as ([fd'|] & Hfd & H); [|discriminate].
  apply bind_Ok in H as (raw & _ & H).
  apply bind_Ok in H as (s' & _ & H).
  apply bind_Ok in H as (raw' & _ & H).
  apply bind_Ok in H as (x & _ & H).
  injection H as <- <- <-.
  exists e, mys. split; [reflexivity|]. split; [exact Hsearch|exact Hfd].
Qed.

(** The sample page gives a record. *)
Lemma sample_page_record :
  exists record,
    scrape_market_summary (mk_platform false false)
      (fun _ => HtmlPage (sample_page (Some (tag_of "65")) (Some (tag_of "88"))))
      "Ridgewood" "New Jersey" "https://www.redfin.com/city/ridgewood" = Ok (Some record).
Proof.
  assert (Hsome : record_field
            (scrape_market_summary (mk_platform false false)
               (fun _ => HtmlPage (sample_page (Some (tag_of "65")) (Some (tag_of "88"))))
               "Ridgewood" "New Jersey" "https://www.redfin.com/city/ridgewood")
            "Town" = Some (VStr "Ridgewood")) by (vm_compute; reflexivity).
  destruct (scrape_market_summary _ _ _ _ _) as [[record|]|e];
    [|discriminate Hsome|discriminate Hsome].
  exists record. reflexivity.
Qed.

(** X4. A record the market parser emits has exactly the thirteen keys
    of the master schema; its town and region are the arguments of the call,
    its date is text, and its sale price is an integer that is not
    negative, the sign and every other non-digit of the element being
    dropped. *)
Theorem scrape_market_summary_record_shape pf http_get town region city_url record :
  scrape_market_summary pf http_get town region city_url = Ok (Some record) ->
  (forall key, is_Some (record !! key) <-> key ∈ GRIST_MASTER_SCHEMA)
  /\ record !! "Town" = Some (VStr town)
  /\ record !! "Region" = Some (VStr region)
  /\ (exists formatted_date, record !! "Date" = Some (VStr formatted_date))
  /\ (exists median_sale_price,
        record !! "Median_Sale_Price" = Some (VInt median_sale_price)
        /\ 0 <= median_sale_price).
Proof.
  intros H.
  apply scrape_market_summary_record in H
    as (p & fd & s & r & lp & pr & dom & ahp & ahd & hhp & hhd & sold & score
        & _ & Hcore & ->).
  split; [|split; [|split; [|split]]].
  - intros key. rewrite list_to_map_odict_get, odict_get_is_Some. reflexivity.
  - rewrite list_to_map_odict_get. reflexivity.
  - rewrite list_to_map_odict_get. reflexivity.
  - exists fd. rewrite list_to_map_odict_get. reflexivity.
  - exists s. split; [rewrite list_to_map_odict_get; reflexivity|].
    apply core_extraction_Some in Hcore as (pt & rt & x & _ & Hs & _).
    eapply int_of_digits_nonneg, Hs.
Qed.

(** The record of the sample page. *)
Lemma scrape_market_summary_record_shape_witness :
  exists record,
    scrape_market_summary (mk_platform false false)
      (fun _ => HtmlPage (sample_page (Some (tag_of "65")) (Some (tag_of "88"))))
      "Ridgewood" "New Jersey" "https://www.redfin.com/city/ridgewood" = Ok (Some record)
    /\ is_Some (record !! "Compete_Score")
    /\ record !! "Town" = Some (VStr "Ridgewood")
    /\ record !! "Region" = Some (VStr "New Jersey").
Proof.
  destruct sample_page_record as [record E]. exists record.
  destruct (scrape_market_summary_record_shape _ _ _ _ _ _ E)
    as (Hkeys & Htown & Hregion & _).
  split; [exact E|]. split; [|split; assumption].
  apply Hkeys, elem_of_GRIST_MASTER_SCHEMA. tauto.
Defined.

(** X5. The normalizer gives back the record of a town as the parser
    emitted it: no field is added, dropped or changed, and the keys come
    out in the order of the schema. *)
Theorem normalize_record_for_grist_redfin pf http_get town region city_url record :
  scrape_market_summary pf http_get town region city_url = Ok (Some record) ->
  list_to_map (normalize_record_for_grist record GRIST_MASTER_SCHEMA) = record
  /\ odict_keys (normalize_record_for_grist record GRIST_MASTER_SCHEMA)
     = GRIST_MASTER_SCHEMA.
Proof.
  intros H. split; [|reflexivity].
  apply scrape_market_summary_record in H
    as (p & fd & s & r & lp & pr & dom & ahp & ahd & hhp & hhd & sold & score
        & _ & _ & ->).
  apply map_eq. intros key.
  rewrite !list_to_map_odict_get. unfold normalize_record_for_grist.
  rewrite odict_get_fold. destruct (decide (key ∈ GRIST_MASTER_SCHEMA)) as [Hin|Hnin].
  - rewrite list_to_map_odict_get.
    apply elem_of_GRIST_MASTER_SCHEMA in Hin.
    repeat (destruct Hin as [->|Hin]; [reflexivity|]). subst key. reflexivity.
  - change (odict_get [] key) with (@None value).
    symmetry. apply eq_None_not_Some.
    rewrite odict_get_is_Some. exact Hnin.
Qed.

Lemma normalize_record_for_grist_redfin_witness :
  exists record,
    scrape_market_summary (mk_platform false false)
      (fun _ => HtmlPage (sample_page (Some (tag_of "65")) (Some (tag_of "88"))))
      "Ridgewood" "New Jersey" "https://www.redfin.com/city/ridgewood" = Ok (Some record)
    /\ list_to_map (normalize_record_for_grist record GRIST_MASTER_SCHEMA) = record.
Proof.
  destruct sample_page_record as [record E]. exists record.
  split; [exact E|].
  apply (normalize_record_for_grist_redfin _ _ _ _ _ _ E).
Defined.

Lemma match_In_month_year_head m a b c d rest :
  1 <= m <= 12 ->
  is_digit a = true -> is_digit b = true -> is_digit c = true -> is_digit d = true ->
  py_isspace a = false ->
  match_In_month_year
    ("In " +:+ english_month_name m +:+ " "
       +:+ String a (String b (String c (String d rest))))
  = Some (english_month_name m +:+ " "
            +:+ String a (String b (String c (String d EmptyString)))).
Proof.
  intros Hm Ha Hb Hc Hd Hsp.
  month_cases m; simpl; rewrite Hsp; simpl; rewrite Ha, Hb, Hc, Hd; reflexivity.
Qed.

Lemma search_In_month_year_match s g :
  match_In_month_year s = Some g -> search_In_month_year s = Some g.
Proof.
  intros H. destruct s; cbn [search_In_month_year]; rewrite H; reflexivity.
Qed.

Lemma search_In_month_year_head m y rest :
  1 <= m <= 12 -> 0 <= y <= 9999 ->
  search_In_month_year
    ("In " +:+ english_month_name m +:+ " " +:+ four_digits_of y +:+ rest)
  = Some (english_month_name m +:+ " " +:+ four_digits_of y).
Proof.
  intros Hm Hy.
  destruct (digit_char_facts (y / 1000)) as (H3 & Hsp & _);
    [Z.to_euclidean_division_equations; lia|].
  destruct (digit_char_facts (y / 100 mod 10)) as (H2 & _ & _);
    [Z.to_euclidean_division_equations; lia|].
  destruct (digit_char_facts (y mod 100 / 10)) as (H1 & _ & _);
    [Z.to_euclidean_division_equations; lia|].
  destruct (digit_char_facts (y mod 100 mod 10)) as (H0 & _ & _);
    [Z.to_euclidean_division_equations; lia|].
  apply search_In_month_year_match.
  exact (match_In_month_year_head m _ _ _ _ rest Hm H3 H2 H1 H0 Hsp).
Qed.

(** X6. When the summary paragraph of the page begins with the word
    [In], an English month name and a four-digit year, the date of the
    record the parser emits is the last day of that month, written by
    [strftime] on the platform, whatever follows in the paragraph. *)
Theorem scrape_market_summary_date
    pf http_get town region city_url p e m y rest record :
  http_get city_url = HtmlPage p ->
  long_date_elem p = Some e ->
  get_text_strip e
    = "In " +:+ english_month_name m +:+ " " +:+ four_digits_of y +:+ rest ->
  1 <= m <= 12 -> 1 <= y <= 9999 ->
  scrape_market_summary pf http_get town region city_url = Ok (Some record) ->
  record !! "Date"
  = Some (VStr (strftime_hash_mdY pf (mk_datetime y m (gregorian_last_day y m)))).
Proof.
  intros Hget He Htext Hm Hy H.
  apply scrape_market_summary_record in H
    as (p' & fd & s & r & lp & pr & dom & ahp & ahd & hhp & hhd & sold & score
        & Hget' & Hcore & ->).
  rewrite Hget in Hget'. injection Hget' as <-.
  apply core_extraction_date in Hcore as (e' & mys & He' & Hsearch & Hfd).
  rewrite He in He'. injection He' as <-.
  rewrite Htext, search_In_month_year_head in Hsearch by lia.
  injection Hsearch as <-.
  rewrite get_last_day_of_month_valid in Hfd by lia. injection Hfd as <-.
  rewrite list_to_map_odict_get. reflexivity.
Qed.

(** The sample page, whose paragraph names October 2025. *)
Lemma scrape_market_summary_date_witness :
  exists record,
    scrape_market_summary (mk_platform false false)
      (fun _ => HtmlPage (sample_page (Some (tag_of "65")) (Some (tag_of "88"))))
      "Ridgewood" "New Jersey" "https://www.redfin.com/city/ridgewood" = Ok (Some record)
    /\ record !! "Date" = Some (VStr "10/31/2025").
Proof.
  destruct sample_page_record as [record E]. exists record.
  split; [exact E|].
  apply (scrape_market_summary_date (mk_platform false false)
           (fun _ => HtmlPage (sample_page (Some (tag_of "65")) (Some (tag_of "88"))))
           "Ridgewood" "New Jersey" "https://www.redfin.com/city/ridgewood"
           (sample_page (Some (tag_of "65")) (Some (tag_of "88")))
           (tag_of "In October 2025, Ridgewood home prices were up 4.2%")
           10 2025 ", Ridgewood home prices were up 4.2%" record);
    [reflexivity|reflexivity|reflexivity|lia|lia|exact E].
Defined.

(** ** The count extractor *)

Lemma all_digits_keep_digits s : all_digits (keep_digits s) = true.
Proof.
  induction s as [|c s IH]; simpl; [reflexivity|].
  destruct (is_digit c) eqn:E; simpl; [rewrite E|]; exact IH.
Qed.

(** X7. On a text without a percent sign the extractor reads the digits
    of the text and nothing else: with no digit at all, or with more than
    the 4300 digits [int] accepts, it returns the default; otherwise it
    returns the integer the digits write, which is never negative, a minus
    sign being dropped with the other characters. *)
Theorem get_clean_number_count (t : Tag) (default : value) :
  contains "%" (get_text_strip t) = false ->
  let digits := keep_digits (get_text_strip t) in
  get_clean_number (Some t) default
  = Ok (if bool_decide (digits = "") || Nat.ltb int_max_str_digits (String.length digits)
        then default else VInt (digits_value 0 digits))
  /\ 0 <= digits_value 0 digits.
Proof.
  intros Hno digits. split.
  - rewrite get_clean_number_without_percent by exact Hno. fold digits.
    unfold int_of_digits. unfold digits at 1. rewrite all_digits_keep_digits.
    destruct digits as [|c r]; [reflexivity|].
    rewrite bool_decide_eq_false_2 by discriminate. simpl orb.
    destruct (Nat.ltb _ _); reflexivity.
  - apply digits_value_nonneg; [apply all_digits_keep_digits|lia].
Qed.

(** A count with a sign, a separator and a unit; and a text without a
    digit. *)
Lemma get_clean_number_count_witness :
  get_clean_number (Some (tag_of "-1,234 homes")) (VInt 0) = Ok (VInt 1234)
  /\ get_clean_number (Some (tag_of "n/a")) (VInt 0) = Ok (VInt 0).
Proof.
  split.
  - apply (get_clean_number_count (tag_of "-1,234 homes") (VInt 0)). reflexivity.
  - apply (get_clean_number_count (tag_of "n/a") (VInt 0)). reflexivity.
Defined.

(** ** The rows the CSV parser does not look at *)

Lemma process_rows_relevant pf metric_key target_towns idx rows : forall town_data,
  process_rows pf metric_key target_towns idx town_data rows
  = process_rows pf metric_key target_towns idx town_data
      (List.filter (relevant_row idx target_towns) rows).
Proof.
  induction rows as [|row rows IH]; intros town_data; simpl; [reflexivity|].
  unfold relevant_row at 1.
  destruct (row_fields idx row) as [[[town date_str] value]|] eqn:Hf.
  - destruct (decide (town ∈ target_towns)) as [Hin|Hout].
    + rewrite bool_decide_eq_true_2 by exact Hin. simpl.
      destruct (process_row _ _ _ _ _ _); simpl; [apply IH|reflexivity].
    + rewrite bool_decide_eq_false_2 by exact Hout.
      rewrite (process_row_other_town _ _ _ _ _ _ _ _ _ Hf Hout). simpl. apply IH.
  - rewrite (process_row_skipped _ _ _ _ _ _ Hf). simpl. apply IH.
Qed.

(** X8. The result of a feed depends on the rows of the target
    neighborhoods alone: what the header row holds, the rows that lack one
    of the indexed columns and the rows of other neighborhoods can be
    changed or removed without changing what the parser returns, even when
    the feed is one the parser gives up on. *)
Theorem scrape_streeteasy_data_relevant_rows
    pf url_key metric_key target_towns idx header header' rows reader_fails :
  scrape_streeteasy_data pf (fun _ => CsvRows (header :: rows) reader_fails)
    url_key metric_key target_towns idx
  = scrape_streeteasy_data pf
      (fun _ => CsvRows (header' :: List.filter (relevant_row idx target_towns) rows)
                        reader_fails)
      url_key metric_key target_towns idx.
Proof.
  unfold scrape_streeteasy_data.
  destruct (assoc_getitem STREETEASY_CSV_URLS url_key); [|reflexivity].
  simpl. rewrite <- process_rows_relevant. reflexivity.
Qed.

(** ** The master dictionary of the neighborhoods *)

Lemma fold_merge_metric_is_Some results : forall all town,
  is_Some (fold_left merge_metric results all !! town) <->
  is_Some (all !! town) \/ exists r, r ∈ results /\ is_Some (r !! town).
Proof.
  induction results as [|r results IH]; intros all town; simpl.
  - split; [left; assumption|].
    intros [H|(r & Hr & _)]; [exact H|inversion Hr].
  - rewrite IH, merge_metric_lookup. split.
    + intros [H|(r' & Hr' & H)].
      * destruct (r !! town) eqn:E; [|left; exact H].
        right. exists r. split; [left|]. rewrite E. eauto.
      * right. exists r'. split; [right; exact Hr'|exact H].
    + intros [H|(r' & Hr' & H)].
      * left. destruct (r !! town); [eauto|exact H].
      * apply elem_of_cons in Hr' as [->|Hr'].
        -- left. destruct H as [data ->]. eauto.
        -- right. exists r'. split; assumption.
Qed.

(** X9. A neighborhood is in the merged dictionary exactly when at least
    one of the results of the metrics reports it: the merge neither loses a
    neighborhood nor makes one up. *)
Theorem merge_all_towns (results : list (gmap string (gmap string value))) town :
  is_Some (merge_all results !! town) <-> exists r, r ∈ results /\ is_Some (r !! town).
Proof.
  unfold merge_all. rewrite fold_merge_metric_is_Some, lookup_empty.
  split; [intros [[? [=]]|H]; exact H|right; assumption].
Qed.

(** X10. A feed that cannot be fetched, that is empty, or whose reading
    breaks off before its end contributes nothing, whatever rows were read
    before: the parser returns the empty mapping, and merging it leaves the
    master dictionary as it was. *)
Theorem scrape_streeteasy_data_failed_feed
    pf http_get url_key metric_key target_towns idx url
    (all : gmap string (gmap string value)) :
  assoc_getitem STREETEASY_CSV_URLS url_key = Ok url ->
  http_get url = CsvRequestFailed
  \/ (exists reader_fails, http_get url = CsvRows [] reader_fails)
  \/ (exists rows, http_get url = CsvRows rows true) ->
  scrape_streeteasy_data pf http_get url_key metric_key target_towns idx = Ok ∅
  /\ merge_metric all ∅ = all.
Proof.
  intros Hurl Hget. split; [|apply map_fold_empty].
  unfold scrape_streeteasy_data. rewrite Hurl. simpl.
  destruct Hget as [->|[[fails ->]|[rows ->]]]; [reflexivity|reflexivity|].
  destruct rows as [|header rows]; [reflexivity|].
  destruct (process_rows _ _ _ _ _ _); reflexivity.
Qed.

(** A feed that breaks off after three good rows. *)
Lemma scrape_streeteasy_data_failed_feed_witness :
  scrape_streeteasy_data (mk_platform false false) broken_feed
    "STREETEASY_MEDIAN_DOM" "Median_DOM" {["Chelsea"]} CSV_COL_INDEXES = Ok ∅
  /\ merge_metric sample_master ∅ = sample_master.
Proof.
  apply (scrape_streeteasy_data_failed_feed (mk_platform false false) broken_feed
           "STREETEASY_MEDIAN_DOM" "Median_DOM" {["Chelsea"]} CSV_COL_INDEXES
           "https://cdn-charts.streeteasy.com/chart/v2/data/sub/ddp-medianDaysMarket.csv"
           sample_master).
  - reflexivity.
  - right. right. exists (csv_header :: sample_rows). reflexivity.
Defined.

Lemma STREETEASY_METRIC_MAP_nyc_keys url_key metric_key :
  elem_of (url_key, metric_key) STREETEASY_METRIC_MAP -> metric_key ∈ nyc_keys.
Proof.
  intros Hin. unfold STREETEASY_METRIC_MAP in Hin.
  repeat (apply elem_of_cons in Hin as [[= -> ->]|Hin]; [by_compute|]).
  inversion Hin.
Qed.

Lemma scrape_streeteasy_data_nyc_record
    pf http_get url_key metric_key neighborhoods idx result town data :
  elem_of (url_key, metric_key) STREETEASY_METRIC_MAP ->
  scrape_streeteasy_data pf http_get url_key metric_key neighborhoods idx = Ok result ->
  result !! town = Some data ->
  nyc_record neighborhoods town data.
Proof.
  intros Hmap Hresult Hdata.
  destruct (STREETEASY_METRIC_MAP_keys _ _ Hmap) as [Hfree _].
  pose proof (STREETEASY_METRIC_MAP_nyc_keys _ _ Hmap) as Hkey.
  apply scrape_streeteasy_data_result in Hresult as [->|(town_data & kept & Hrep & ->)];
    [| |exact Hfree].
  - rewrite lookup_empty in Hdata. discriminate.
  - rewrite (clean_up_and_filter_lookup pf metric_key neighborhoods Hfree _ _ _ Hrep)
      in Hdata.
    destruct (decide (town ∈ neighborhoods)) as [Hin|_]; [|discriminate].
    destruct (kept town) as [[d v]|]; [|discriminate].
    injection Hdata as <-.
    destruct (published_record_fields pf metric_key town d v Hfree)
      as (_ & Htown & Hregion & Hdate & _).
    split; [exact Hin|]. split; [exact Htown|]. split; [exact Hregion|].
    split; [eauto|].
    intros key w Hw. unfold published_record in Hw.
    rewrite lookup_insert in Hw. case_decide; [subst key; injection Hw as <-; eauto|].
    repeat (rewrite lookup_insert in Hw;
            case_decide; [subst key; injection Hw as <-; split; [by_compute|eauto]|]).
    rewrite lookup_empty in Hw. discriminate.
Qed.

Lemma merge_metric_nyc_record neighborhoods all current :
  (forall town data, all !! town = Some data -> nyc_record neighborhoods town data) ->
  (forall town data, current !! town = Some data -> nyc_record neighborhoods town data) ->
  forall town data,
    merge_metric all current !! town = Some data -> nyc_record neighborhoods town data.
Proof.
  intros Hall Hcur town data Hd.
  rewrite merge_metric_lookup in Hd.
  destruct (current !! town) as [new|] eqn:Hnew; [|exact (Hall town data Hd)].
  injection Hd as <-.
  destruct (all !! town) as [old|] eqn:Hold; [|exact (Hcur town new Hnew)].
  destruct (Hcur town new Hnew) as (Hin & Htown & Hregion & [date Hdate] & Hkeys).
  destruct (Hall town old Hold) as (_ & _ & _ & _ & Hkeys').
  split; [exact Hin|].
  split; [apply lookup_union_Some_raw; left; exact Htown|].
  split; [apply lookup_union_Some_raw; left; exact Hregion|].
  split; [exists date; apply lookup_union_Some_raw; left; exact Hdate|].
  intros key v [Hv|[_ Hv]]%lookup_union_Some_raw; eauto.
Qed.

Lemma collect_metrics_nyc_record pf http_get neighborhoods metrics : forall all all',
  (forall km, km ∈ metrics -> km ∈ STREETEASY_METRIC_MAP) ->
  (forall town data, all !! town = Some data -> nyc_record neighborhoods town data) ->
  collect_metrics pf http_get neighborhoods metrics all = Ok all' ->
  forall town data, all' !! town = Some data -> nyc_record neighborhoods town data.
Proof.
  induction metrics as [|[url_key metric_key] metrics IH]; intros all all' Hsub Hall H.
  - injection H as <-. exact Hall.
  - simpl in H. apply bind_Ok in H as (current & Hcurrent & H).
    refine (IH _ _ (fun km Hkm => Hsub km (proj2 (elem_of_cons _ _ _) (or_intror Hkm)))
              _ H).
    apply merge_metric_nyc_record; [exact Hall|].
    intros town data Hd.
    eapply scrape_streeteasy_data_nyc_record; [|exact Hcurrent|exact Hd].
    apply Hsub. left.
Qed.

(** The records of the neighborhoods after the collection and the
    calculation step. *)
Lemma nyc_market_data_record pf http_get neighborhoods all town data :
  nyc_market_data pf http_get neighborhoods = Ok all ->
  all !! town = Some data ->
  exists collected,
    nyc_record neighborhoods town collected
    /\ data = match collected !! RATIO_KEY with
              | Some (VStr s) => <[RATIO_KEY := premium_of s]> collected
              | _ => collected
              end.
Proof.
  unfold nyc_market_data. intros H Hdata.
  apply bind_Ok in H as (all0 & Hcollect & Hcalc).
  assert (Hrec : forall town data, all0 !! town = Some data ->
                                   nyc_record neighborhoods town data).
  { eapply collect_metrics_nyc_record; [|
      |exact Hcollect]; [tauto|].
    intros t d Hd. rewrite lookup_empty in Hd. discriminate. }
  destruct (calculation_step_text all0) as (all' & Hrun & Hlookup).
  { intros t d v Hd Hv. destruct (Hrec t d Hd) as (_ & _ & _ & _ & Hkeys).
    apply (Hkeys RATIO_KEY v Hv). }
  rewrite Hrun in Hcalc. injection Hcalc as <-.
  rewrite Hlookup in Hdata.
  destruct (all0 !! town) as [collected|] eqn:Hc; [|discriminate].
  injection Hdata as <-. exists collected. split; [apply Hrec, Hc|reflexivity].
Qed.

Lemma sample_nyc_data :
  exists all data,
    nyc_market_data (mk_platform false false) sample_feed {["Chelsea"]} = Ok all
    /\ all !! "Chelsea" = Some data.
Proof.
  assert (Hsome : town_field
            (nyc_market_data (mk_platform false false) sample_feed {["Chelsea"]})
            "Chelsea" "Town" = Some (VStr "Chelsea")) by (vm_compute; reflexivity).
  destruct (nyc_market_data _ _ _) as [all|e]; [|discriminate Hsome].
  simpl in Hsome. destruct (all !! "Chelsea") as [data|] eqn:Hdata; [|discriminate Hsome].
  exists all, data. split; [reflexivity|exact Hdata].
Qed.

(** X11. After collection, merge and calculation, every record of the
    master dictionary is that of a target neighborhood filed under its own
    name, with the region ['New York City'] and a date; its keys are among
    the three of the CSV parser and the five metric keys; the premium is a
    float or [None], never the text of the feed any more, and every other
    value is still text, prices and counts included. *)
Theorem nyc_market_data_records pf http_get neighborhoods all town data :
  nyc_market_data pf http_get neighborhoods = Ok all ->
  all !! town = Some data ->
  town ∈ neighborhoods
  /\ data !! "Town" = Some (VStr town)
  /\ data !! "Region" = Some (VStr "New York City")
  /\ (exists date, data !! "Date" = Some (VStr date))
  /\ (forall key v,
        data !! key = Some v ->
        key ∈ nyc_keys
        /\ if decide (key = RATIO_KEY)
           then v = VNone \/ exists premium, v = VFloat premium
           else exists s, v = VStr s).
Proof.
  intros H Hdata.
  destruct (nyc_market_data_record _ _ _ _ _ _ H Hdata)
    as (collected & (Hin & Htown & Hregion & Hdate & Hkeys) & ->).
  split; [exact Hin|].
  destruct (collected !! RATIO_KEY) as [raw|] eqn:Hraw.
  - destruct (Hkeys _ _ Hraw) as [Hratio [s ->]].
    split; [rewrite lookup_insert_ne by discriminate; exact Htown|].
    split; [rewrite lookup_insert_ne by discriminate; exact Hregion|].
    split; [rewrite lookup_insert_ne by discriminate; exact Hdate|].
    intros key v Hv. rewrite lookup_insert in Hv.
    destruct (decide (key = RATIO_KEY)) as [->|Hne].
    + rewrite decide_True in Hv by reflexivity. injection Hv as <-.
      split; [exact Hratio|]. unfold premium_of. destruct (py_float s); eauto.
    + rewrite decide_False in Hv by congruence. apply Hkeys, Hv.
  - split; [exact Htown|]. split; [exact Hregion|]. split; [exact Hdate|].
    intros key v Hv. destruct (decide (key = RATIO_KEY)) as [->|Hne];
      [congruence|apply Hkeys, Hv].
Qed.

(** The sample feed served for the five metrics. *)
Lemma nyc_market_data_records_witness :
  exists all data,
    nyc_market_data (mk_platform false false) sample_feed {["Chelsea"]} = Ok all
    /\ all !! "Chelsea" = Some data
    /\ data !! "Town" = Some (VStr "Chelsea")
    /\ data !! "Region" = Some (VStr "New York City").
Proof.
  destruct sample_nyc_data as (all & data & E & Hdata). exists all, data.
  destruct (nyc_market_data_records _ _ _ _ _ _ E Hdata) as (_ & Htown & Hregion & _).
  split; [exact E|]. split; [exact Hdata|]. split; assumption.
Defined.

Lemma nyc_keys_schema key : key ∈ nyc_keys -> key ∈ GRIST_MASTER_SCHEMA.
Proof.
  unfold nyc_keys, STREETEASY_METRIC_MAP. simpl. intros Hin.
  repeat (apply elem_of_cons in Hin as [->|Hin]; [by_compute|]).
  inversion Hin.
Qed.

(** X12. What the normalizer makes of the record of a neighborhood:
    every field of the record comes out with its value, none is lost; and
    the five columns that only a market page fills come out as [None]. *)
Theorem normalize_record_for_grist_nyc pf http_get neighborhoods all town data :
  nyc_market_data pf http_get neighborhoods = Ok all ->
  all !! town = Some data ->
  let normalized_record := normalize_record_for_grist data GRIST_MASTER_SCHEMA in
  (forall key v, data !! key = Some v -> odict_get normalized_record key = Some v)
  /\ (forall key, key ∈ redfin_only_keys -> odict_get normalized_record key = Some VNone).
Proof.
  intros H Hdata normalized_record.
  assert (Hkeys : forall key, is_Some (data !! key) -> key ∈ nyc_keys).
  { destruct (nyc_market_data_record _ _ _ _ _ _ H Hdata)
      as (collected & (_ & _ & _ & _ & Hkeys) & ->).
    intros key [v Hv]. destruct (collected !! RATIO_KEY) as [[]|] eqn:Hraw;
      try (apply (Hkeys key v Hv)).
    rewrite lookup_insert in Hv. case_decide; [subst key|apply (Hkeys key v Hv)].
    apply (Hkeys _ _ Hraw). }
  unfold normalized_record, normalize_record_for_grist. split.
  - intros key v Hv. rewrite odict_get_fold, decide_True, Hv; [reflexivity|].
    apply nyc_keys_schema, Hkeys. eauto.
  - intros key Hin. rewrite odict_get_fold.
    assert (Hschema : key ∈ GRIST_MASTER_SCHEMA /\ key ∉ nyc_keys).
    { unfold redfin_only_keys in Hin.
      repeat (apply elem_of_cons in Hin as [->|Hin]; [split; by_compute|]).
      inversion Hin. }
    destruct Hschema as [Hschema Hout]. rewrite decide_True by exact Hschema.
    destruct (data !! key) as [v|] eqn:Hv; [|reflexivity].
    destruct Hout. apply Hkeys. eauto.
Qed.

Lemma normalize_record_for_grist_nyc_witness :
  exists all data,
    nyc_market_data (mk_platform false false) sample_feed {["Chelsea"]} = Ok all
    /\ all !! "Chelsea" = Some data
    /\ odict_get (normalize_record_for_grist data GRIST_MASTER_SCHEMA) "Compete_Score"
       = Some VNone.
Proof.
  destruct sample_nyc_data as (all & data & E & Hdata). exists all, data.
  split; [exact E|]. split; [exact Hdata|].
  apply (normalize_record_for_grist_nyc _ _ _ _ _ _ E Hdata). by_compute.
Defined.

(** ** The main block *)

Lemma scrape_market_summary_truthy pf http_get town region city_url record :
  scrape_market_summary pf http_get town region city_url = Ok (Some record) ->
  truthy (Some record) = true.
Proof.
  intros H.
  apply scrape_market_summary_record in H
    as (p & fd & s & r & lp & pr & dom & ahp & ahd & hhp & hhd & sold & score
        & _ & _ & ->).
  unfold truthy. rewrite bool_decide_eq_false_2; [reflexivity|].
  apply insert_non_empty.
Qed.

Lemma redfin_loop_acc pf http_get towns : forall all_redfin_data all_data_successful,
  well_formed towns ->
  redfin_loop pf http_get towns all_redfin_data all_data_successful
  = Ok (all_redfin_data ++ omap (redfin_record pf http_get) towns,
        all_data_successful
        && forallb (fun entry => bool_decide (is_Some (redfin_record pf http_get entry)))
                   towns).
Proof.
  induction towns as [|[town region_url_list] towns IH]; intros acc ok Hwf.
  - simpl. rewrite app_nil_r, andb_true_r. reflexivity.
  - apply Forall_cons in Hwf as [Hlen Hwf].
    destruct region_url_list as [|region [|url rest]]; simpl in Hlen; try lia.
    cbn [redfin_loop]. change (list_getitem (region :: url :: rest) 0) with (Ok region).
    change (list_getitem (region :: url :: rest) 1) with (Ok url).
    cbn [mbind result_bind].
    destruct (scrape_market_summary pf http_get town region url) as [[record|]|e] eqn:E.
    + cbn [mbind result_bind]. rewrite (scrape_market_summary_truthy _ _ _ _ _ _ E).
      rewrite IH by exact Hwf. cbn [omap list_omap forallb redfin_record].
      rewrite E. cbn [default]. rewrite <- app_assoc.
      rewrite bool_decide_eq_true_2 by eauto. reflexivity.
    + cbn [mbind result_bind truthy]. rewrite IH by exact Hwf.
      cbn [omap list_omap forallb redfin_record]. rewrite E.
      rewrite bool_decide_eq_false_2 by (intros [? [=]]).
      rewrite andb_false_r. reflexivity.
    + destruct (scrape_market_summary_total pf http_get town region url) as [r Hr].
      congruence.
Qed.

(** X13. With a configuration in which every town has its region and its
    URL, the loop over the towns collects the record of every town whose
    page gave one, in the order of the configuration; a town whose page
    fails is left out without stopping the loop, and the flag
    [all_data_successful] ends up true exactly when no town failed. *)
Theorem redfin_loop_collects pf http_get towns :
  well_formed towns ->
  redfin_loop pf http_get towns [] true
  = Ok (omap (redfin_record pf http_get) towns,
        forallb (fun entry => bool_decide (is_Some (redfin_record pf http_get entry)))
                towns).
Proof. intros Hwf. rewrite redfin_loop_acc by exact Hwf. reflexivity. Qed.

(** The configuration of one town, served the sample page. *)
Lemma redfin_loop_collects_witness :
  exists record,
    redfin_loop (mk_platform false false)
      (fun _ => HtmlPage (sample_page (Some (tag_of "65")) (Some (tag_of "88"))))
      sample_towns [] true = Ok ([record], true).
Proof.
  destruct sample_page_record as [record E]. exists record.
  rewrite (redfin_loop_collects (mk_platform false false)
             (fun _ => HtmlPage (sample_page (Some (tag_of "65")) (Some (tag_of "88"))))
             sample_towns).
  - unfold sample_towns. cbn [omap list_omap forallb redfin_record]. rewrite E.
    reflexivity.
  - repeat constructor.
Defined.

Lemma redfin_loop_malformed pf http_get towns entry :
  entry ∈ towns -> (length entry.2 < 2)%nat ->
  forall all_redfin_data all_data_successful,
    redfin_loop pf http_get towns all_redfin_data all_data_successful = Raise IndexError.
Proof.
  intros Hin Hlen. induction towns as [|[town region_url_list] towns IH];
    intros acc ok; [inversion Hin|].
  destruct (decide (length region_url_list < 2)%nat) as [Hbad|Hgood].
  - destruct region_url_list as [|region [|url rest]]; [reflexivity|reflexivity|].
    simpl in Hbad. lia.
  - assert (Hrest : entry ∈ towns).
    { apply elem_of_cons in Hin as [->|Hin]; [|exact Hin]. simpl in Hlen. lia. }
    destruct region_url_list as [|region [|url rest]]; simpl in Hgood; try lia.
    cbn [redfin_loop]. change (list_getitem (region :: url :: rest) 0) with (Ok region).
    change (list_getitem (region :: url :: rest) 1) with (Ok url).
    cbn [mbind result_bind].
    destruct (scrape_market_summary_total pf http_get town region url) as [r ->].
    cbn [mbind result_bind]. destruct (truthy r); apply IH, Hrest.
Qed.

(** X14. One entry of the configuration without its region or its URL
    stops the whole run with [IndexError] in the first loop: nothing is
    pushed, not even the towns configured before that entry, and the
    neighborhoods are not collected. *)
Theorem main_malformed_entry
    pf html_get csv_get post set_order TOWNS_TO_TRACK NYC_NEIGHBORHOODS entry :
  entry ∈ TOWNS_TO_TRACK -> (length entry.2 < 2)%nat ->
  main pf html_get csv_get post set_order TOWNS_TO_TRACK NYC_NEIGHBORHOODS
  = Raise IndexError.
Proof.
  intros Hin Hlen. unfold main.
  rewrite (redfin_loop_malformed _ _ _ _ Hin Hlen). reflexivity.
Qed.

(** A town with its region and no URL, after a good entry. *)
Lemma main_malformed_entry_witness :
  main (mk_platform false false)
    (fun _ => HtmlPage (sample_page (Some (tag_of "65")) (Some (tag_of "88"))))
    sample_feed (fun _ _ => PostStatus 200) ["Chelsea"]
    (sample_towns ++ [("Montclair", ["New Jersey"])]) {["Chelsea"]}
  = Raise IndexError.
Proof.
  apply (main_malformed_entry _ _ _ _ _ _ _ ("Montclair", ["New Jersey"])).
  - by_compute.
  - simpl. lia.
Defined.

Lemma Forall2_imap {A B} (P : A -> B -> Prop) (l : list A) : forall f : nat -> A -> B,
  (forall i x, P x (f i x)) -> Forall2 P l (imap f l).
Proof.
  induction l as [|x l IH]; intros f Hf; simpl; constructor; [apply Hf|].
  apply IH. intros i y. apply Hf.
Qed.

Lemma result_keys_elem set_order (current : gmap string (gmap string value)) town :
  town ∈ result_keys set_order current <-> town ∈ set_order /\ is_Some (current !! town).
Proof.
  unfold result_keys. rewrite !list_elem_of_In, filter_In, bool_decide_eq_true.
  reflexivity.
Qed.

Lemma merge_keys_spec current_keys : forall keys,
  NoDup keys ->
  NoDup (merge_keys keys current_keys)
  /\ forall town, town ∈ merge_keys keys current_keys <-> town ∈ keys \/ town ∈ current_keys.
Proof.
  unfold merge_keys.
  induction current_keys as [|k current_keys IH]; intros keys Hnd; simpl.
  - split; [exact Hnd|]. intros town. rewrite elem_of_nil. tauto.
  - destruct (decide (k ∈ keys)) as [Hin|Hout].
    + rewrite bool_decide_eq_true_2 by exact Hin.
      destruct (IH keys Hnd) as [Hnd' Hel]. split; [exact Hnd'|].
      intros town. rewrite Hel, elem_of_cons.
      split; [tauto|]. intros [H|[->|H]]; tauto.
    + rewrite bool_decide_eq_false_2 by exact Hout.
      destruct (IH (keys ++ [k])) as [Hnd' Hel].
      { apply NoDup_app. split; [exact Hnd|]. split; [|apply NoDup_singleton].
        intros x Hx ->%list_elem_of_singleton. contradiction. }
      split; [exact Hnd'|].
      intros town. rewrite Hel, elem_of_app, list_elem_of_singleton, elem_of_cons. tauto.
Qed.

(** The list of keys follows the content of the master dictionary through
    the loop over the metrics. *)
Lemma collect_keys_spec pf http_get neighborhoods set_order metrics :
  (forall town, town ∈ set_order <-> town ∈ neighborhoods) ->
  forall all keys all',
    (forall km, km ∈ metrics -> km ∈ STREETEASY_METRIC_MAP) ->
    NoDup keys -> (forall town, town ∈ keys <-> is_Some (all !! town)) ->
    collect_metrics pf http_get neighborhoods metrics all = Ok all' ->
    exists keys',
      collect_keys pf http_get neighborhoods set_order metrics keys = Ok keys'
      /\ NoDup keys' /\ forall town, town ∈ keys' <-> is_Some (all' !! town).
Proof.
  intros Horder.
  induction metrics as [|[url_key metric_key] metrics IH];
    intros all keys all' Hsub Hnd Hkeys H.
  - injection H as <-. exists keys. split; [reflexivity|]. split; assumption.
  - simpl in H. apply bind_Ok in H as (current & Hcurrent & H).
    simpl. rewrite Hcurrent. cbn [mbind result_bind].
    destruct (merge_keys_spec (result_keys set_order current) keys Hnd) as [Hnd' Hel].
    apply (IH (merge_metric all current) _ all'
              (fun km Hkm => Hsub km (proj2 (elem_of_cons _ _ _) (or_intror Hkm)))
              Hnd'); [|exact H].
    intros town. rewrite Hel, Hkeys, result_keys_elem, merge_metric_lookup.
    split.
    + intros [Hold|[_ [data Hnew]]]; [|rewrite Hnew; eauto].
      destruct (current !! town); [eauto|exact Hold].
    + destruct (current !! town) as [data|] eqn:Hnew; [|left; assumption].
      intros _. right. split; [|eauto]. apply Horder.
      assert (Hrec : nyc_record neighborhoods town data).
      { eapply scrape_streeteasy_data_nyc_record; [|exact Hcurrent|exact Hnew].
        apply Hsub. left. }
      exact (proj1 Hrec).
Qed.

(** The run of the StreetEasy part: its dictionary and the list of its
    keys, each neighborhood of the dictionary once. *)
Lemma nyc_keys_total pf csv_get neighborhoods set_order :
  (forall town, town ∈ set_order <-> town ∈ neighborhoods) ->
  exists all keys,
    nyc_market_data pf csv_get neighborhoods = Ok all
    /\ collect_keys pf csv_get neighborhoods set_order STREETEASY_METRIC_MAP [] = Ok keys
    /\ NoDup keys
    /\ forall town, town ∈ keys <-> is_Some (all !! town).
Proof.
  intros Horder.
  destruct (nyc_market_data_total pf csv_get neighborhoods) as [all Hall].
  exists all. pose proof Hall as Hrun. unfold nyc_market_data in Hrun.
  apply bind_Ok in Hrun as (all0 & Hcollect & Hcalc).
  destruct (collect_keys_spec pf csv_get neighborhoods set_order STREETEASY_METRIC_MAP
              Horder ∅ [] all0) as (keys & Hkeys & Hnd & Hel);
    [tauto|apply NoDup_nil_2| |exact Hcollect|].
  { intros town. rewrite elem_of_nil, lookup_empty. split; [tauto|intros [? [=]]]. }
  exists keys. split; [exact Hall|]. split; [exact Hkeys|]. split; [exact Hnd|].
  intros town. rewrite Hel.
  assert (Hsame : is_Some (all !! town) <-> is_Some (all0 !! town)); [|tauto].
  split.
  - intros [data Hdata].
    destruct (all0 !! town) as [collected|] eqn:Hc; [eauto|].
    destruct (collect_metrics_text pf csv_get neighborhoods STREETEASY_METRIC_MAP ∅)
      as (all1 & Hcollect' & Htext).
    { apply Forall_forall. intros [url_key metric_key] Hin.
      apply STREETEASY_METRIC_MAP_keys, Hin. }
    { intros t d key v Hd. rewrite lookup_empty in Hd. discriminate. }
    rewrite Hcollect in Hcollect'. injection Hcollect' as <-.
    destruct (calculation_step_text all0) as (all' & Hrun & Hlookup).
    { intros t d v Hd Hv. exact (Htext t d RATIO_KEY v Hd Hv). }
    rewrite Hrun in Hcalc. injection Hcalc as <-.
    rewrite Hlookup, Hc in Hdata. discriminate.
  - intros [collected Hc].
    destruct (collect_metrics_text pf csv_get neighborhoods STREETEASY_METRIC_MAP ∅)
      as (all1 & Hcollect' & Htext).
    { apply Forall_forall. intros [url_key metric_key] Hin.
      apply STREETEASY_METRIC_MAP_keys, Hin. }
    { intros t d key v Hd. rewrite lookup_empty in Hd. discriminate. }
    rewrite Hcollect in Hcollect'. injection Hcollect' as <-.
    destruct (calculation_step_text all0) as (all' & Hrun & Hlookup).
    { intros t d v Hd Hv. exact (Htext t d RATIO_KEY v Hd Hv). }
    rewrite Hrun in Hcalc. injection Hcalc as <-.
    rewrite Hlookup, Hc. eauto.
Qed.

(** X15. With a well-formed configuration the run goes to its end
    whatever the pages, the feeds and the Grist server answer, and it makes
    exactly one request per collected record: first the towns whose page
    gave a record, in the order of the configuration, then the
    neighborhoods of the master dictionary, each of them once, in the order
    of its keys, which is the order of their insertion and goes back to the
    order [set_order] in which Python iterates the set of the
    neighborhoods; the fields of each request are the normalized record. *)
Theorem main_pushes pf html_get csv_get post set_order TOWNS_TO_TRACK NYC_NEIGHBORHOODS :
  well_formed TOWNS_TO_TRACK ->
  (forall town, town ∈ set_order <-> town ∈ NYC_NEIGHBORHOODS) ->
  exists all_nyc_market_data keys effects,
    nyc_market_data pf csv_get NYC_NEIGHBORHOODS = Ok all_nyc_market_data
    /\ collect_keys pf csv_get NYC_NEIGHBORHOODS set_order STREETEASY_METRIC_MAP []
       = Ok keys
    /\ NoDup keys
    /\ (forall town, town ∈ keys <-> is_Some (all_nyc_market_data !! town))
    /\ main pf html_get csv_get post set_order TOWNS_TO_TRACK NYC_NEIGHBORHOODS
       = Ok effects
    /\ Forall2 (fun record effect =>
                  request effect
                  = Some (normalize_record_for_grist record GRIST_MASTER_SCHEMA))
               (omap (redfin_record pf html_get) TOWNS_TO_TRACK
                  ++ omap (fun town => all_nyc_market_data !! town) keys)
               effects.
Proof.
  intros Hwf Horder.
  destruct (nyc_keys_total pf csv_get NYC_NEIGHBORHOODS set_order Horder)
    as (all & keys & Hall & Hkeys & Hnd & Hel).
  unfold main. rewrite redfin_loop_acc by exact Hwf. rewrite Hall, Hkeys.
  eexists all, keys, _.
  split; [reflexivity|]. split; [reflexivity|]. split; [exact Hnd|].
  split; [exact Hel|]. split; [reflexivity|].
  apply Forall2_imap. intros i record. apply push_request_Ok, grist_fields_normalized.
Qed.

(** The configuration of one town and the sample feed: two requests, the
    town's and Chelsea's. *)
Lemma main_pushes_witness :
  exists all_nyc_market_data effects,
    nyc_market_data (mk_platform false false) sample_feed {["Chelsea"]}
    = Ok all_nyc_market_data
    /\ main (mk_platform false false)
         (fun _ => HtmlPage (sample_page (Some (tag_of "65")) (Some (tag_of "88"))))
         sample_feed (fun _ _ => PostStatus 200) ["Chelsea"] sample_towns {["Chelsea"]}
       = Ok effects
    /\ length effects = 2%nat.
Proof.
  destruct (main_pushes (mk_platform false false)
              (fun _ => HtmlPage (sample_page (Some (tag_of "65")) (Some (tag_of "88"))))
              sample_feed (fun _ _ => PostStatus 200) ["Chelsea"] sample_towns
              {["Chelsea"]})
    as (all & keys & effects & Hall & Hkeys & Hnd & Hel & Hmain & Hpush).
  - repeat constructor.
  - intros town. rewrite list_elem_of_singleton, elem_of_singleton. reflexivity.
  - exists all, effects. split; [exact Hall|]. split; [exact Hmain|].
    apply Forall2_length in Hpush. rewrite <- Hpush, length_app.
    assert (Hkeys' : keys = ["Chelsea"]).
    { assert (Hc : collect_keys (mk_platform false false) sample_feed {["Chelsea"]}
                     ["Chelsea"] STREETEASY_METRIC_MAP [] = Ok ["Chelsea"])
        by (vm_compute; reflexivity).
      congruence. }
    subst keys. destruct (proj1 (Hel "Chelsea")) as [data Hdata]; [left|].
    cbn [omap list_omap]. rewrite Hdata.
    destruct sample_page_record as [record E].
    unfold sample_towns. cbn [omap list_omap redfin_record]. rewrite E. reflexivity.
Defined.

(** ** The dates of the two sources *)

Lemma decimal_two_digits n : 10 <= n <= 99 -> decimal n = two_digits n.
Proof.
  intros Hn. unfold decimal, four_digits_of.
  replace (n / 1000) with 0 by (Z.to_euclidean_division_equations; lia).
  replace (n / 100 mod 10) with 0 by (Z.to_euclidean_division_equations; lia).
  replace (n mod 100) with n by (Z.to_euclidean_division_equations; lia).
  unfold two_digits.
  assert (n / 10 = 1 \/ n / 10 = 2 \/ n / 10 = 3 \/ n / 10 = 4 \/ n / 10 = 5
          \/ n / 10 = 6 \/ n / 10 = 7 \/ n / 10 = 8 \/ n / 10 = 9) as Hd
    by (Z.to_euclidean_division_equations; lia).
  repeat (destruct Hd as [->|Hd]; [reflexivity|]). rewrite Hd. reflexivity.
Qed.

Lemma decimal_one_digit n rest rest' :
  1 <= n <= 9 -> decimal n +:+ rest <> two_digits n +:+ rest'.
Proof.
  intros Hn.
  assert (n = 1 \/ n = 2 \/ n = 3 \/ n = 4 \/ n = 5 \/ n = 6 \/ n = 7 \/ n = 8 \/ n = 9)
    as Hd by lia.
  repeat (destruct Hd as [->|Hd]; [discriminate|]). subst n. discriminate.
Qed.

Lemma scrape_streeteasy_data_single_row
    pf url_key metric_key target_towns idx header row town date_str value d :
  elem_of (url_key, metric_key) STREETEASY_METRIC_MAP ->
  row_fields idx row = Some (town, date_str, value) -> town ∈ target_towns ->
  strptime_Ymd date_str = Ok d ->
  exists result,
    scrape_streeteasy_data pf (fun _ => CsvRows [header; row] false)
      url_key metric_key target_towns idx = Ok result
    /\ result !! town = Some (published_record pf metric_key town d value).
Proof.
  intros Hmap Hf Hin Hd.
  destruct (STREETEASY_METRIC_MAP_keys _ _ Hmap) as [Hfree [url Hurl]].
  rewrite (scrape_streeteasy_data_rows pf (fun _ => CsvRows [header; row] false)
             url_key metric_key target_towns idx url header [row] Hurl eq_refl).
  destruct (process_row_target pf metric_key target_towns idx Hfree _ _ _ _ _ _ _
              Hf Hin Hd (represents_initial pf metric_key target_towns))
    as (town_data & Hrow & Hrep).
  cbn [process_rows]. rewrite Hrow. cbn [mbind result_bind].
  eexists. split; [reflexivity|].
  rewrite (clean_up_and_filter_lookup pf metric_key target_towns Hfree _ _ _ Hrep).
  rewrite !decide_True by (reflexivity || exact Hin). reflexivity.
Qed.

(** X16. The date of one month as the two sources write it: the market
    parser for a summary naming the month, the CSV parser for a feed whose
    row is dated in that month. Both give the last day of the month, and
    the two texts are the same exactly when the platform's [strftime]
    ignores the flag [#] or the month has two digits; where the flag is
    honoured the months January to September come out as ["9/30/2025"] for
    a town and ["09/30/2025"] for a neighborhood. *)
Theorem dates_of_the_two_sources
    pf url_key metric_key target_towns header row town date_str value d :
  elem_of (url_key, metric_key) STREETEASY_METRIC_MAP ->
  row_fields CSV_COL_INDEXES row = Some (town, date_str, value) ->
  town ∈ target_towns ->
  strptime_Ymd date_str = Ok d ->
  exists redfin streeteasy,
    get_last_day_of_month pf
      (english_month_name (month d) +:+ " " +:+ four_digits_of (year d))
    = Ok (Some redfin)
    /\ town_field
         (scrape_streeteasy_data pf (fun _ => CsvRows [header; row] false)
            url_key metric_key target_towns CSV_COL_INDEXES)
         town "Date" = Some (VStr streeteasy)
    /\ (redfin = streeteasy <-> hash_strips_zero pf = false \/ 10 <= month d).
Proof.
  intros Hmap Hf Hin Hd.
  destruct (strptime_Ymd_valid _ _ Hd) as (Hy & Hm & _).
  destruct (STREETEASY_METRIC_MAP_keys _ _ Hmap) as [Hfree _].
  destruct (scrape_streeteasy_data_single_row pf url_key metric_key target_towns
              CSV_COL_INDEXES header row town date_str value d Hmap Hf Hin Hd)
    as (result & -> & Hrecord).
  destruct (published_record_fields pf metric_key town d value Hfree)
    as (_ & _ & _ & Hdate & _).
  exists (strftime_hash_mdY pf (mk_datetime (year d) (month d)
                                  (gregorian_last_day (year d) (month d)))),
         (strftime_mdY pf (month_end d)).
  split; [apply get_last_day_of_month_valid; lia|].
  split; [simpl; rewrite Hrecord; exact Hdate|].
  unfold strftime_hash_mdY, strftime_mdY, month_end, format_hash. simpl.
  rewrite days_in_month_gregorian by lia.
  pose proof (gregorian_last_day_range (year d) (month d)) as Hlast.
  destruct (hash_strips_zero pf).
  - split.
    + intros Heq. right. destruct (decide (10 <= month d)) as [H|H]; [exact H|].
      apply decimal_one_digit in Heq; [contradiction|lia].
    + intros [[=]|H]. rewrite !decimal_two_digits by lia. reflexivity.
  - split; [left; reflexivity|reflexivity].
Qed.

(** September 2025 where the flag is honoured. *)
Lemma dates_of_the_two_sources_witness :
  exists redfin streeteasy,
    get_last_day_of_month (mk_platform true true) "September 2025" = Ok (Some redfin)
    /\ town_field
         (scrape_streeteasy_data (mk_platform true true)
            (fun _ => CsvRows [csv_header;
                               ["Chelsea"; "Manhattan"; "2025-09-15"; "neighborhood"; "7"]]
                              false)
            "STREETEASY_MEDIAN_DOM" "Median_DOM" {["Chelsea"]} CSV_COL_INDEXES)
         "Chelsea" "Date" = Some (VStr streeteasy)
    /\ redfin <> streeteasy.
Proof.
  destruct (dates_of_the_two_sources (mk_platform true true)
              "STREETEASY_MEDIAN_DOM" "Median_DOM" {["Chelsea"]} csv_header
              ["Chelsea"; "Manhattan"; "2025-09-15"; "neighborhood"; "7"]
              "Chelsea" "2025-09-15" "7" (mk_datetime 2025 9 15))
    as (redfin & streeteasy & Hredfin & Hstreeteasy & Hiff).
  - by_compute.
  - reflexivity.
  - by_compute.
  - reflexivity.
  - exists redfin, streeteasy. split; [exact Hredfin|]. split; [exact Hstreeteasy|].
    intros Heq. apply Hiff in Heq as [Hflag|Hmonth]; [discriminate Hflag|].
    simpl in Hmonth. lia.
Defined.
